(** * Surgical Risk Prediction form (app.py): a shallow embedding

    The repository is one Streamlit script.  Every user interaction re-runs
    it from the top: it loads a classifier with joblib, renders eleven
    bounded numeric inputs from [VARIABLE_CONFIG], and, when the button is
    pressed, builds a one-row data frame, asks the model for a probability,
    shows a risk label and a percentage, and ranks feature importances.

    The script is embedded as a function from its environment (what
    importing joblib does, what [joblib.load] gives, what the widgets hold)
    to the sequence of things it does, the elements it renders and the
    calls it makes on the model, and the way it ends: normally, in
    [st.stop()], or with an exception that none of its handlers catches.
    Python floats are binary64 numbers, modelled by Rocq's primitive
    floats. *)

From Stdlib Require Import Floats ZArith Bool Ascii String List Lia.
From Stdlib Require Import DecimalString DecimalN Permutation Sorted.
Import ListNotations.

Set Warnings "-inexact-float".

Open Scope list_scope.
Open Scope string_scope.

(** ** Python values and exceptions *)

(** The exception classes the script can meet.  All but the last derive
    from [Exception]; [NonException] stands for a class that derives from
    [BaseException] only (KeyboardInterrupt, SystemExit, ...), which
    [except Exception] lets through. *)
Inductive exn_class : Type :=
| AttributeError
| ImportError
| IndexError
| KeyError
| TypeError
| ValueError
| OtherException (name : string)
| NonException (name : string).

(** An exception: its class and the text [str(e)] gives. *)
Record exn : Type := Exn { exn_cls : exn_class; exn_str : string }.

Definition is_AttributeError (e : exn) : bool :=
  match exn_cls e with AttributeError => true | _ => false end.

Definition is_ImportError (e : exn) : bool :=
  match exn_cls e with ImportError => true | _ => false end.

(** The result of evaluating a Python expression: a value or a raised
    exception. *)
Inductive result (A : Type) : Type :=
| Ok (a : A)
| Err (e : exn).
Arguments Ok {A} a.
Arguments Err {A} e.

Definition rbind {A B : Type} (r : result A) (k : A -> result B) : result B :=
  match r with
  | Ok a => k a
  | Err e => Err e
  end.

(** An element of a model's [predict] output: a number (a float, or an
    integer class label) or a string label. *)
Inductive pyval : Type :=
| PyFloat (x : float)
| PyInt (n : Z)
| PyStr (s : string).

(** [float(n)] for an integer: the nearest binary64 number, ties to even. *)
Definition float_of_int (n : Z) : float :=
  SF2Prim (binary_normalize prec emax n 0 false).

(** [proba > 0.5].  A float is compared as a float (a NaN compares false),
    an integer by its exact value, and ordering a string against a float
    raises TypeError. *)
Definition gt_half (proba : pyval) : result bool :=
  match proba with
  | PyFloat x => Ok (0.5 <? x)%float
  | PyInt n => Ok (0 <? n)%Z
  | PyStr _ =>
      Err (Exn TypeError
             "'>' not supported between instances of 'str' and 'float'")
  end.

(** ** [f"{proba:.1%}"]

    The [%] presentation type multiplies the float by 100 (a binary64
    multiplication), formats it in fixed point with the given precision,
    correctly rounded from the exact binary value with ties to even, and
    appends a percent sign. *)

(** The integer nearest to [n / d], ties to the even one ([0 <= n], [0 < d]). *)
Definition div_half_even (n d : Z) : Z :=
  let q := (n / d)%Z in
  match (2 * (n mod d) ?= d)%Z with
  | Lt => q
  | Gt => (q + 1)%Z
  | Eq => if Z.even q then q else (q + 1)%Z
  end.

(** The number of tenths nearest to [m * 2^e]. *)
Definition tenths (m : positive) (e : Z) : Z :=
  if (0 <=? e)%Z then (10 * Z.pos m * 2 ^ e)%Z
  else div_half_even (10 * Z.pos m) (2 ^ (- e)).

Definition decimal (n : Z) : string :=
  NilZero.string_of_uint (N.to_uint (Z.to_N n)).

(** A count [t] of tenths printed with one digit after the point. *)
Definition fixed1 (neg : bool) (t : Z) : string :=
  (if neg then "-" else "") ++ decimal (t / 10) ++ "." ++ decimal (t mod 10).

Definition format_float_pct1 (x : float) : string :=
  match Prim2SF (x * 100)%float with
  | S754_nan => "nan%"
  | S754_infinity neg => if neg then "-inf%" else "inf%"
  | S754_zero neg => fixed1 neg 0 ++ "%"
  | S754_finite neg m e => fixed1 neg (tenths m e) ++ "%"
  end.

(** An integer is converted to a float first, which fails when it is too
    large for one; a string has no [%] format. *)
Definition format_pct1 (proba : pyval) : result string :=
  match proba with
  | PyFloat x => Ok (format_float_pct1 x)
  | PyInt n =>
      match binary_normalize prec emax n 0 false with
      | S754_infinity _ =>
          Err (Exn (OtherException "OverflowError")
                 "int too large to convert to float")
      | _ => Ok (format_float_pct1 (float_of_int n))
      end
  | PyStr _ =>
      Err (Exn ValueError "Unknown format code '%' for object of type 'str'")
  end.

(** ** The parameter schema *)

Record var_config : Type := VarConfig {
  cfg_min : Z;
  cfg_max : Z;
  cfg_description : string;
  cfg_value : Z
}.

(** A Python dict, in insertion order. *)
Definition dict (V : Type) : Type := list (string * V).

Definition keys {V : Type} (d : dict V) : list string := map fst d.

Fixpoint dict_get {V : Type} (d : dict V) (k : string) : option V :=
  match d with
  | [] => None
  | (k', v) :: rest => if String.eqb k' k then Some v else dict_get rest k
  end.

(** [d[k] = v]: an existing key keeps its place, a new one goes last. *)
Fixpoint dict_set {V : Type} (d : dict V) (k : string) (v : V) : dict V :=
  match d with
  | [] => [(k, v)]
  | (k', v') :: rest =>
      if String.eqb k' k then (k', v) :: rest else (k', v') :: dict_set rest k v
  end.

Definition VARIABLE_CONFIG : dict var_config :=
  [ ("Sex", VarConfig 0 1 "Patient gender (0=Female, 1=Male)" 0);
    ("ASA scores", VarConfig 0 5 "ASA physical status classification" 2);
    ("tumor location", VarConfig 1 4 "Tumor location code (1-4)" 2);
    ("Benign or malignant",
      VarConfig 0 1 "Tumor nature (0=Benign, 1=Malignant)" 0);
    ("Admitted to NICU", VarConfig 0 1 "NICU admission status" 0);
    ("Duration of surgery", VarConfig 0 1 "Surgery duration category" 0);
    ("diabetes", VarConfig 0 1 "Diabetes mellitus status" 0);
    ("CHF", VarConfig 0 1 "Congestive heart failure" 0);
    ("Functional dependencies", VarConfig 0 1 "Functional dependencies" 0);
    ("mFI-5", VarConfig 0 5 "Modified Frailty Index" 1);
    ("Type of tumor", VarConfig 1 5 "Tumor type code (1-5)" 2) ].

(** ** Data frames *)

(** A one-row frame of integers: its columns, left to right, each with the
    value in the row.  [pd.DataFrame([inputs])] takes the columns in the
    dict's order. *)
Definition DataFrame : Type := list (string * Z).

Definition columns (df : DataFrame) : list string := map fst df.

Definition DataFrame_of_record (inputs : dict Z) : DataFrame := inputs.

Fixpoint join (sep : string) (xs : list string) : string :=
  match xs with
  | [] => ""
  | [x] => x
  | x :: rest => x ++ sep ++ join sep rest
  end.

Definition double_quote : string := String (ascii_of_nat 34) EmptyString.

(** [repr] of a list of names (names such as the schema's, which need no
    escape). *)
Definition repr_names (names : list string) : string :=
  "[" ++ join ", " (map (fun c => "'" ++ c ++ "'") names) ++ "]".

(** [df[cols]]: the listed columns in the listed order; KeyError when one of
    them is not a column of [df].  [str(e)] of a KeyError is the [repr] of
    pandas' message, hence the quotes around it.  The message names the
    missing columns; when none of the requested columns exists pandas
    prints the whole index instead, wrapped over several lines, which is
    given here on one line. *)
Definition select_columns (df : DataFrame) (cols : list string)
  : result DataFrame :=
  match filter (fun c => match dict_get df c with None => true | _ => false end)
               cols with
  | [] =>
      Ok (flat_map (fun c => match dict_get df c with
                             | Some v => [(c, v)]
                             | None => []
                             end) cols)
  | missing =>
      Err (Exn KeyError
             (double_quote
                ++ (if Nat.eqb (length missing) (length cols)
                    then "None of [Index(" ++ repr_names cols
                           ++ ", dtype='object')] are in the [columns]"
                    else repr_names missing ++ " not in index")
                ++ double_quote))
  end.

(** [xs[i]] on a numpy array, with numpy's wording of the IndexError (a
    Python list would say "list index out of range"). *)
Definition getitem {A : Type} (xs : list A) (i : nat) : result A :=
  match nth_error xs i with
  | Some x => Ok x
  | None =>
      Err (Exn IndexError
             ("index " ++ decimal (Z.of_nat i)
                ++ " is out of bounds for axis 0 with size "
                ++ decimal (Z.of_nat (length xs))))
  end.

(** The importance table: one row per feature. *)
Definition importance_row : Type := (string * float)%type.

(** [pd.DataFrame({"Feature": features, "Importance": importance})]. *)
Definition importance_frame (features : list string) (importance : list float)
  : result (list importance_row) :=
  if Nat.eqb (length features) (length importance)
  then Ok (combine features importance)
  else Err (Exn ValueError "All arrays must be of the same length").

(** [sort_values("Importance", ascending=False)]: decreasing weights, rows
    whose weight is NaN last.  pandas' default sort kind leaves the order of
    rows of equal weight open (it varies with the versions of pandas and
    numpy); here a row stays before the equal rows that followed it, and no
    statement below depends on that choice. *)
Fixpoint insert_desc (r : importance_row) (sorted : list importance_row)
  : list importance_row :=
  match sorted with
  | [] => [r]
  | r' :: rest =>
      if (snd r' <=? snd r)%float then r :: r' :: rest
      else r' :: insert_desc r rest
  end.

Definition sort_values_desc (rows : list importance_row)
  : list importance_row :=
  fold_right insert_desc [] (filter (fun r => negb (is_nan (snd r))) rows)
    ++ filter (fun r => is_nan (snd r)) rows.

(** ** The model artifact *)

(** Reading an attribute gives its value or raises (AttributeError when the
    object has none of that name); calling a method gives its value or
    raises.  [predict_proba] returns one row of class probabilities per
    input row, [predict] one value per input row, and [coef_] is the
    two-dimensional array of a linear classifier, one row per class. *)
Record Model : Type := {
  predict_proba : result (DataFrame -> result (list (list float)));
  predict : result (DataFrame -> result (list pyval));
  feature_importances_ : result (list float);
  coef_ : result (list (list float))
}.

(** [hasattr(obj, name)]: false on AttributeError, any other exception of
    the attribute's getter goes through. *)
Definition hasattr {A : Type} (attribute : result A) : result bool :=
  match attribute with
  | Ok _ => Ok true
  | Err e => if is_AttributeError e then Ok false else Err e
  end.

(** ** What a run of the script does *)

(** Where an element is rendered: the page body, one of the two columns of
    [st.columns(2)], or the sidebar. *)
Inductive container : Type :=
| Main
| Column (i : nat)
| Sidebar.

Inductive element : Type :=
| page_config (page_title page_icon layout : string)
| success (body : string)
| error (body : string)
| warning (body : string)
| info (body : string)
| title (body : string)
| subheader (body : string)
| markdown (body : string) (unsafe_allow_html : bool)
| write (body : string)
| st_columns (n : nat)
| number_input (label help : string) (min_value max_value value step : Z)
| button (label type : string)
| spinner (text : string)
| bar_chart (data : list importance_row)
| dataframe (data : list importance_row).

Inductive event : Type :=
| Render (c : container) (el : element)
| Call_predict_proba (X : DataFrame)
| Call_predict (X : DataFrame).

(** How a piece of the script ends: normally with a value, with an exception
    on its way up, or in [st.stop()], which ends the run. *)
Inductive outcome (A : Type) : Type :=
| Done (a : A)
| Raised (e : exn)
| Stopped.
Arguments Done {A} a.
Arguments Raised {A} e.
Arguments Stopped {A}.

(** A piece of the script: the events it produces, in order, and how it
    ends. *)
Definition script (A : Type) : Type := (list event * outcome A)%type.

Definition ret {A : Type} (a : A) : script A := ([], Done a).

Definition bind {A B : Type} (c : script A) (k : A -> script B) : script B :=
  match c with
  | (t, Done a) => let '(t', o) := k a in ((t ++ t')%list, o)
  | (t, Raised e) => (t, Raised e)
  | (t, Stopped) => (t, Stopped)
  end.

Notation "x <- c ;; k" := (bind c (fun x => k))
  (at level 61, c at next level, right associativity).
Notation "c ;; k" := (bind c (fun _ => k))
  (at level 61, right associativity).

Definition emit (ev : event) : script unit := ([ev], Done tt).
Definition raise {A : Type} (e : exn) : script A := ([], Raised e).
Definition stop {A : Type} : script A := ([], Stopped).
Definition st (c : container) (el : element) : script unit :=
  emit (Render c el).

Definition lift {A : Type} (r : result A) : script A :=
  match r with
  | Ok a => ret a
  | Err e => raise e
  end.

(** [try: body / except <class> as e: handler e]; what the body rendered
    before it raised stays. *)
Definition try_except {A : Type} (body : script A) (catches : exn -> bool)
    (handler : exn -> script A) : script A :=
  match body with
  | (t, Raised e) =>
      if catches e then let '(t', o) := handler e in ((t ++ t')%list, o)
      else (t, Raised e)
  | other => other
  end.

(** [except Exception]: every class but those outside [Exception]. *)
Definition Exception (e : exn) : bool :=
  match exn_cls e with NonException _ => false | _ => true end.

Definition trace {A : Type} (c : script A) : list event := fst c.

(** The elements a run renders, in order. *)
Definition rendered (t : list event) : list element :=
  flat_map (fun ev => match ev with Render _ el => [el] | _ => [] end) t.

(** The frames a run passed to the model, in order. *)
Definition model_inputs (t : list event) : list DataFrame :=
  flat_map (fun ev => match ev with
                      | Call_predict_proba X | Call_predict X => [X]
                      | Render _ _ => []
                      end) t.

(** ** The script *)

(** What the script's surroundings decide: what [import joblib] does
    (it succeeds or raises), what [joblib.load("model.joblib")] gives, the
    number each input widget holds once the user has changed it, and
    whether this run was started by the button. *)
Record Env : Type := {
  joblib_import : result unit;
  joblib_load : result Model;
  widget_state : string -> option Z;
  button_clicked : bool
}.

(** The value [st.number_input] returns: the number the widget holds when
    it lies within the bounds, and the default otherwise (the widget is
    untouched, or what it holds is out of range). *)
Definition number_input_value (held : option Z) (min_value max_value value : Z)
  : Z :=
  match held with
  | None => value
  | Some v =>
      if ((min_value <=? v) && (v <=? max_value))%Z then v else value
  end.

(** [str] of an integer. *)
Definition repr_int (n : Z) : string :=
  if (n <? 0)%Z then "-" ++ decimal (- n) else decimal n.

(** The integers a browser holds exactly. *)
Definition MAX_SAFE_INTEGER : Z := 2 ^ 53 - 1.
Definition MIN_SAFE_INTEGER : Z := - MAX_SAFE_INTEGER.

(** Streamlit's own exceptions, which derive from [Exception]. *)
Definition StreamlitAPIException (msg : string) : exn :=
  Exn (OtherException "StreamlitAPIException") msg.

Definition validate_int_bounds (value : Z) (value_name : string)
  : result unit :=
  if (value <? MIN_SAFE_INTEGER)%Z then
    Err (StreamlitAPIException
           (value_name ++ " (" ++ repr_int value
              ++ ") must be >= -((1 << 53) - 1)"))
  else if (MAX_SAFE_INTEGER <? value)%Z then
    Err (StreamlitAPIException
           (value_name ++ " (" ++ repr_int value
              ++ ") must be <= (1 << 53) - 1"))
  else Ok tt.

(** What [st.number_input] refuses before it renders anything: a default
    outside the bounds, and integers a browser cannot hold.  The wording of
    the messages varies with the version of Streamlit. *)
Definition number_input_check (min_value max_value value step : Z)
  : result unit :=
  if (value <? min_value)%Z then
    Err (StreamlitAPIException
           ("The `value` " ++ repr_int value
              ++ " is less than the `min_value` " ++ repr_int min_value ++ "."))
  else if (max_value <? value)%Z then
    Err (StreamlitAPIException
           ("The `value` " ++ repr_int value
              ++ " is greater than the `max_value` " ++ repr_int max_value
              ++ "."))
  else
    rbind (validate_int_bounds min_value "`min_value`") (fun _ =>
    rbind (validate_int_bounds max_value "`max_value`") (fun _ =>
    rbind (validate_int_bounds step "`step`") (fun _ =>
    validate_int_bounds value "`value`"))).

(** [st.number_input(...)]: once the arguments are accepted, it renders the
    input and returns its value. *)
Definition st_number_input (c : container) (held : option Z)
    (label help : string) (min_value max_value value step : Z) : script Z :=
  lift (number_input_check min_value max_value value step) ;;
  st c (number_input label help min_value max_value value step) ;;
  ret (number_input_value held min_value max_value value).

(** Lines 110-119: the loop over [enumerate(VARIABLE_CONFIG.items())]. *)
Fixpoint input_form (held : string -> option Z) (i : nat)
    (items : list (string * var_config)) (inputs : dict Z) : script (dict Z) :=
  match items with
  | [] => ret inputs
  | (feature, config) :: rest =>
      v <- st_number_input (Column (i mod 2)) (held feature) feature
             (cfg_description config) (cfg_min config) (cfg_max config)
             (cfg_value config) 1 ;;
      input_form held (S i) rest (dict_set inputs feature v)
  end.

(** Line 134: [model.predict_proba(input_df)[0][1]]. *)
Definition proba_path (model : Model) (input_df : DataFrame) : script pyval :=
  f <- lift (predict_proba model) ;;
  emit (Call_predict_proba input_df) ;;
  rows <- lift (f input_df) ;;
  row <- lift (getitem rows 0) ;;
  p <- lift (getitem row 1) ;;
  ret (PyFloat p).

(** Lines 137-138: [model.predict(input_df)[0]], taken as the probability. *)
Definition predict_path (model : Model) (input_df : DataFrame) : script pyval :=
  g <- lift (predict model) ;;
  emit (Call_predict input_df) ;;
  ys <- lift (g input_df) ;;
  prediction <- lift (getitem ys 0) ;;
  ret prediction.

(** Lines 133-138. *)
Definition infer (model : Model) (input_df : DataFrame) : script pyval :=
  try_except (proba_path model input_df) is_AttributeError
    (fun _ => predict_path model input_df).

(** Line 140. *)
Definition risk_level (proba : pyval) : result string :=
  rbind (gt_half proba) (fun high =>
  Ok (if high then "High Risk" else "Low Risk")).

(** Line 141. *)
Definition color (proba : pyval) : result string :=
  rbind (gt_half proba) (fun high =>
  Ok (if high then "#FF4B4B" else "#00CC96")).

(** Lines 143-148. *)
Definition show_result (proba : pyval) : script unit :=
  risk <- lift (risk_level proba) ;;
  col <- lift (color proba) ;;
  st Main (markdown "---" false) ;;
  st Main (subheader "Prediction Results") ;;
  st Main (markdown ("<h2 style='text-align: center; color: " ++ col
                       ++ ";'>" ++ risk ++ "</h2>") true) ;;
  pct <- lift (format_pct1 proba) ;;
  st Main (write ("### Reoperation Probability: " ++ pct)).

(** Lines 156-161. *)
Definition get_importance (model : Model) : result (list float) :=
  rbind (hasattr (feature_importances_ model)) (fun has_fi =>
  if has_fi then feature_importances_ model
  else
    rbind (hasattr (coef_ model)) (fun has_coef =>
    if has_coef then rbind (coef_ model) (fun c => getitem c 0)
    else Err (Exn AttributeError "Feature importance not available"))).

(** Lines 156-167: the importance table, ranked. *)
Definition importance_df (model : Model) (expected_columns : list string)
  : result (list importance_row) :=
  rbind (get_importance model) (fun importance =>
  rbind (importance_frame expected_columns importance) (fun frame =>
  Ok (sort_values_desc frame))).

(** Lines 150-177. *)
Definition importance_report (model : Model) (expected_columns : list string)
  : script unit :=
  st Main (markdown "---" false) ;;
  st Main (subheader "Key Risk Factors") ;;
  try_except
    (ranked <- lift (importance_df model expected_columns) ;;
     st Main (bar_chart ranked) ;;
     st Main (dataframe ranked))
    Exception
    (fun e =>
       st Main (warning ("⚠️ Feature importance not available: " ++ exn_str e)) ;;
       st Main (info "The model does not provide feature importance data")).

(** Lines 123-181: the body of [if st.button(...)]. *)
Definition predict_handler (model : Model) (inputs : dict Z) : script unit :=
  try_except
    (let input_df := DataFrame_of_record inputs in
     let expected_columns := keys VARIABLE_CONFIG in
     input_df <- lift (select_columns input_df expected_columns) ;;
     st Main (spinner "Calculating risk...") ;;
     proba <- infer model input_df ;;
     show_result proba ;;
     importance_report model expected_columns)
    Exception
    (fun e =>
       st Main (error ("❌ Prediction failed: " ++ exn_str e)) ;;
       st Main (error "Please check your input values and try again")).

Definition newline : string := String (ascii_of_nat 10) EmptyString.

(** Lines 185-206, the text of the sidebar, line by line. *)
Definition sidebar_text : string :=
  join newline [
    "";
    "    ## System Documentation";
    "    ";
    "    ### Model Information";
    "    - Algorithm: XGBoost Classifier";
    "    - Training Date: 2023-10-15";
    "    ";
    "    ### Variable Codes";
    "    - **ASA scores**: ";
    "      0 = Healthy, 5 = Morbund";
    "    - **Tumor location**:";
    "      1 = Supratentorial extramedullary,  ";
    "      2 = Supratentorial intramedullary,  ";
    "      3 = Infratentorial extramedullary,  ";
    "      4 = Infratentorial intramedullary";
    "    - **Tumor type**:";
    "      1 = Meningioma,  ";
    "      2 = Glioma,  ";
    "      3 = Metastasis,  ";
    "      4 = Acoustic neuroma,  ";
    "      5 = Other";
    "    " ].

(** Lines 184-210. *)
Definition sidebar : script unit :=
  st Sidebar (markdown sidebar_text false) ;;
  st Sidebar (markdown "---" false) ;;
  st Sidebar (markdown "**Technical Support**: contact@medai.org" false) ;;
  st Sidebar (markdown "**Version**: 1.4.0" false).

(** Lines 14-21. *)
Definition import_joblib (env : Env) : script unit :=
  try_except
    (lift (joblib_import env) ;;
     st Main (success "✅ joblib successfully imported"))
    is_ImportError
    (fun _ =>
       st Main (error "❌ joblib not found. This application cannot run without joblib.") ;;
       st Main (error "Please ensure joblib is included in your requirements.txt file") ;;
       stop).

(** Lines 23-30. *)
Definition load_model (env : Env) : script Model :=
  try_except
    (model <- lift (joblib_load env) ;;
     st Main (success "✅ Model loaded successfully") ;;
     ret model)
    Exception
    (fun e =>
       st Main (error ("❌ Failed to load model: " ++ exn_str e)) ;;
       st Main (error "Please ensure 'model.joblib' exists and is a valid joblib file") ;;
       stop).

(** Lines 102-119: the title and the parameter-entry form. *)
Definition patient_parameters (env : Env) : script (dict Z) :=
  st Main (title "Unplanned Reoperation Risk Prediction System") ;;
  st Main (markdown "---" false) ;;
  st Main (subheader "Patient Parameters") ;;
  st Main (st_columns 2) ;;
  input_form (widget_state env) 0 VARIABLE_CONFIG [].

(** The whole script, top to bottom: one run. *)
Definition app (env : Env) : script unit :=
  st Main (page_config "Surgical Risk Prediction" "🏥" "wide") ;;
  import_joblib env ;;
  model <- load_model env ;;
  inputs <- patient_parameters env ;;
  st Main (button "Predict Risk" "primary") ;;
  (if button_clicked env then predict_handler model inputs else ret tt) ;;
  sidebar.

(** ** The words of the specification *)

(** A number, as opposed to a NaN or a string label. *)
Definition is_number (v : pyval) : bool :=
  match v with
  | PyFloat x => negb (is_nan x)
  | PyInt _ => true
  | PyStr _ => false
  end.

(** "probability > 0.5", for a float and for an integer label. *)
Definition above_half (v : pyval) : Prop :=
  match v with
  | PyFloat x => (0.5 <? x)%float = true
  | PyInt n => (1 < 2 * n)%Z
  | PyStr _ => False
  end.

(** "probability <= 0.5". *)
Definition at_most_half (v : pyval) : Prop :=
  match v with
  | PyFloat x => (x <=? 0.5)%float = true
  | PyInt n => (2 * n <= 1)%Z
  | PyStr _ => False
  end.

(** "probability in [0, 1]". *)
Definition probability (x : float) : bool :=
  ((0 <=? x) && (x <=? 1))%float.

(** A well-formed output of [predict_proba] on one row: the first row
    holds the probabilities of the two classes. *)
Definition well_formed_proba (rows : list (list float)) : bool :=
  match rows with
  | (q :: p :: _) :: _ => probability q && probability p
  | _ => false
  end.

(** A schema-valid input record: every parameter of the schema has a value
    within its bounds. *)
Definition schema_valid (record : dict Z) : bool :=
  forallb (fun item : string * var_config =>
             match dict_get record (fst item) with
             | Some v => ((cfg_min (snd item) <=? v)
                          && (v <=? cfg_max (snd item)))%Z
             | None => false
             end) VARIABLE_CONFIG.

(** The schema's default record. *)
Definition default_record : dict Z :=
  map (fun item : string * var_config => (fst item, cfg_value (snd item)))
      VARIABLE_CONFIG.

Definition is_error (el : element) : bool :=
  match el with error _ => true | _ => false end.

Definition is_warning (el : element) : bool :=
  match el with warning _ => true | _ => false end.

(** The elements of the parameter-entry form. *)
Definition is_form_element (el : element) : bool :=
  match el with
  | number_input _ _ _ _ _ _ | button _ _ => true
  | _ => false
  end.


(** The stub of the specification's scenarios: [predict_proba] gives the
    probability [p] to the positive class, whatever the record. *)
Definition stub_model (p : float) : Model := {|
  predict_proba := Ok (fun _ => Ok [[(1 - p)%float; p]]);
  predict := Ok (fun _ => Ok [PyInt (if (0.5 <? p)%float then 1 else 0)]);
  feature_importances_ :=
    Err (Exn AttributeError "'Stub' object has no attribute 'feature_importances_'");
  coef_ := Err (Exn AttributeError "'Stub' object has no attribute 'coef_'")
|}.


(** The record the form hands to the handler, given what the widgets hold. *)
Definition form_record (held : string -> option Z) : dict Z :=
  map (fun item : string * var_config =>
         (fst item,
          number_input_value (held (fst item)) (cfg_min (snd item))
            (cfg_max (snd item)) (cfg_value (snd item))))
      VARIABLE_CONFIG.

(** The parameter-entry form as rendered: the eleven inputs and the button. *)
Definition form_elements : list element :=
  (map (fun item : string * var_config =>
          number_input (fst item) (cfg_description (snd item))
            (cfg_min (snd item)) (cfg_max (snd item)) (cfg_value (snd item)) 1)
       VARIABLE_CONFIG
   ++ [button "Predict Risk" "primary"])%list.

(** The form elements among what a run rendered. *)
Definition form_shown (t : list event) : list element :=
  filter is_form_element (rendered t).

(** A model without [predict_proba] whose [predict] gives the class label 1,
    with feature importances. *)
Definition label_model : Model := {|
  predict_proba :=
    Err (Exn AttributeError "'Labeller' object has no attribute 'predict_proba'");
  predict := Ok (fun _ => Ok [PyInt 1]);
  feature_importances_ :=
    Ok [0.25; 0.05; 0.1; 0.05; 0.05; 0.05; 0.05; 0.1; 0.1; 0.15; 0.05]%float;
  coef_ := Err (Exn AttributeError "'Labeller' object has no attribute 'coef_'")
|}.

(** A model whose [predict_proba] fails with an error of the given class. *)
Definition failing_model (cls : exn_class) : Model := {|
  predict_proba := Ok (fun _ => Err (Exn cls "predict_proba failed"));
  predict := Ok (fun _ => Ok [PyInt 0]);
  feature_importances_ :=
    Err (Exn AttributeError "no attribute 'feature_importances_'");
  coef_ := Err (Exn AttributeError "no attribute 'coef_'")
|}.

(** A run in which [model.joblib] is not there. *)
Definition missing_artifact_env : Env := {|
  joblib_import := Ok tt;
  joblib_load :=
    Err (Exn (OtherException "FileNotFoundError")
           "[Errno 2] No such file or directory: 'model.joblib'");
  widget_state := fun _ => None;
  button_clicked := false
|}.

(** A run of the whole script around a loaded model. *)
Definition env_of (model : Model) (clicked : bool) : Env := {|
  joblib_import := Ok tt;
  joblib_load := Ok model;
  widget_state := fun _ => None;
  button_clicked := clicked
|}.


(** "Sorted descending by weight": a row's weight is at least that of every
    row after it. *)
Definition weight_ge (a b : importance_row) : Prop :=
  (snd b <=? snd a)%float = true.

(** The same with NaN weights allowed, which rank last. *)
Definition ranks_before (a b : importance_row) : Prop :=
  is_nan (snd b) = true \/ weight_ge a b.

(** The importance vector by the specification's words: the model's
    feature importances, and otherwise the first row of its coefficients. *)
Definition importance_source (model : Model) (importance : list float) : Prop :=
  feature_importances_ model = Ok importance \/
  (hasattr (feature_importances_ model) = Ok false /\
   exists rows, coef_ model = Ok (importance :: rows)).

(** No importance vector can be had: the model has neither attribute, or
    building the table raises an error (an instance of [Exception]). *)
Definition importance_unavailable (model : Model) : Prop :=
  (hasattr (feature_importances_ model) = Ok false /\
   hasattr (coef_ model) = Ok false) \/
  exists e, importance_df model (keys VARIABLE_CONFIG) = Err e /\
            Exception e = true.

(** A linear model: coefficients and no feature importances. *)
Definition linear_model : Model := {|
  predict_proba := Ok (fun _ => Ok [[0.25; 0.75]]%float);
  predict := Ok (fun _ => Ok [PyInt 1]);
  feature_importances_ :=
    Err (Exn AttributeError "no attribute 'feature_importances_'");
  coef_ :=
    Ok [[0.5; -0.25; 1.5; 0; 0.125; -1; 2; 0.375; 0.75; -0.5; 0.25]]%float
|}.


Definition is_digit (c : ascii) : bool :=
  (48 <=? nat_of_ascii c)%nat && (nat_of_ascii c <=? 57)%nat.

Fixpoint all_digits (s : string) : bool :=
  match s with
  | EmptyString => true
  | String c rest => is_digit c && all_digits rest
  end.

(** "A percentage to one decimal place": an optional minus sign, at least
    one digit, the point, exactly one digit, the percent sign. *)
Definition one_decimal_percent (s : string) : Prop :=
  exists sign whole tenth,
    s = sign ++ whole ++ "." ++ String tenth "%" /\
    (sign = "" \/ sign = "-") /\
    whole <> "" /\ all_digits whole = true /\ is_digit tenth = true.

(** [100 * x], as the float multiplication gives it, is a finite number. *)
Definition percent_is_finite (x : float) : bool :=
  match Prim2SF (x * 100)%float with
  | S754_zero _ | S754_finite _ _ _ => true
  | _ => false
  end.

(** [t] tenths is a nearest one-decimal value to [m * 2^e]: they differ by
    at most a twentieth. *)
Definition nearest_tenths (m : positive) (e t : Z) : Prop :=
  if (0 <=? e)%Z then t = (10 * Z.pos m * 2 ^ e)%Z
  else (2 * Z.abs (t * 2 ^ (- e) - 10 * Z.pos m) <= 2 ^ (- e))%Z.


(** Reading a displayed percentage back, digit by digit: the number of
    tenths of a percent the text denotes, and its sign.  ["73.5%"] denotes
    735 tenths. *)
Definition digit_of (c : ascii) : option Z :=
  if is_digit c then Some (Z.of_nat (nat_of_ascii c) - 48)%Z else None.

(** The digits before the first point, as a number, and what follows the
    point. *)
Fixpoint read_whole (acc : Z) (s : string) : option (Z * string) :=
  match s with
  | EmptyString => None
  | String c rest =>
      if Ascii.eqb c "." then Some (acc, rest)
      else match digit_of c with
           | Some d => read_whole (10 * acc + d) rest
           | None => None
           end
  end.

Definition percent_tenths (s : string) : option (bool * Z) :=
  let (neg, body) :=
    match s with
    | String c rest => if Ascii.eqb c "-" then (true, rest) else (false, s)
    | EmptyString => (false, s)
    end in
  match body with
  | String c _ =>
      if is_digit c then
        match read_whole 0 body with
        | Some (w, String d rest) =>
            match digit_of d with
            | Some t =>
                if String.eqb rest "%" then Some (neg, (10 * w + t)%Z)
                else None
            | None => None
            end
        | _ => None
        end
      else None
  | EmptyString => None
  end.

(** The number a decimal numeral denotes, its digits read from the left. *)
Fixpoint uint_value (acc : Z) (d : Decimal.uint) : Z :=
  match d with
  | Decimal.Nil => acc
  | Decimal.D0 l => uint_value (10 * acc + 0) l
  | Decimal.D1 l => uint_value (10 * acc + 1) l
  | Decimal.D2 l => uint_value (10 * acc + 2) l
  | Decimal.D3 l => uint_value (10 * acc + 3) l
  | Decimal.D4 l => uint_value (10 * acc + 4) l
  | Decimal.D5 l => uint_value (10 * acc + 5) l
  | Decimal.D6 l => uint_value (10 * acc + 6) l
  | Decimal.D7 l => uint_value (10 * acc + 7) l
  | Decimal.D8 l => uint_value (10 * acc + 8) l
  | Decimal.D9 l => uint_value (10 * acc + 9) l
  end.


(** ** Further vocabulary *)

(** The inputs of the form as the loop of lines 110-119 renders them: the
    [i]-th one in column [i mod 2]. *)
Fixpoint input_events (i : nat) (items : list (string * var_config))
  : list event :=
  match items with
  | [] => []
  | item :: rest =>
      Render (Column (i mod 2))
        (number_input (fst item) (cfg_description (snd item))
           (cfg_min (snd item)) (cfg_max (snd item)) (cfg_value (snd item)) 1)
      :: input_events (S i) rest
  end.

(** The record a form over [items] yields, given what the widgets hold. *)
Definition held_record (held : string -> option Z)
    (items : list (string * var_config)) : dict Z :=
  map (fun item : string * var_config =>
         (fst item,
          number_input_value (held (fst item)) (cfg_min (snd item))
            (cfg_max (snd item)) (cfg_value (snd item))))
      items.

(** Line 122: the handler runs in the runs started by the button, on the
    record of the form. *)
Definition on_click (env : Env) (model : Model) : script unit :=
  if button_clicked env
  then predict_handler model (form_record (widget_state env))
  else ret tt.

(** Everything a run with a loaded model does before the handler. *)
Definition page_top : list event :=
  ([ Render Main (page_config "Surgical Risk Prediction" "🏥" "wide");
     Render Main (success "✅ joblib successfully imported");
     Render Main (success "✅ Model loaded successfully");
     Render Main (title "Unplanned Reoperation Risk Prediction System");
     Render Main (markdown "---" false);
     Render Main (subheader "Patient Parameters");
     Render Main (st_columns 2) ]
   ++ input_events 0 VARIABLE_CONFIG
   ++ [ Render Main (button "Predict Risk" "primary") ])%list.

(** The calls on the model among the events of a run. *)
Definition calls_of (t : list event) : list event :=
  filter (fun ev => match ev with Render _ _ => false | _ => true end) t.

(** What a run rendered in the sidebar. *)
Definition sidebar_shown (t : list event) : list event :=
  filter (fun ev => match ev with Render Sidebar _ => true | _ => false end) t.

(** The two messages of the outer handler (lines 180-181). *)
Definition prediction_failed (e : exn) : list event :=
  [ Render Main (error ("❌ Prediction failed: " ++ exn_str e));
    Render Main (error "Please check your input values and try again") ].

(** A schema entry [st.number_input] accepts: a default within the bounds,
    and bounds a browser can hold. *)
Definition config_accepted (config : var_config) : Prop :=
  (MIN_SAFE_INTEGER <= cfg_min config)%Z /\
  (cfg_min config <= cfg_value config)%Z /\
  (cfg_value config <= cfg_max config)%Z /\
  (cfg_max config <= MAX_SAFE_INTEGER)%Z.

(** A run on a machine without joblib, whatever else is there. *)
Definition without_joblib_env : Env := {|
  joblib_import := Err (Exn ImportError "No module named 'joblib'");
  joblib_load := Ok (stub_model 0.73);
  widget_state := fun _ => None;
  button_clicked := true
|}.

(** A model with neither [predict_proba] nor [predict]. *)
Definition inert_model : Model := {|
  predict_proba :=
    Err (Exn AttributeError "'Inert' object has no attribute 'predict_proba'");
  predict :=
    Err (Exn AttributeError "'Inert' object has no attribute 'predict'");
  feature_importances_ :=
    Err (Exn AttributeError "'Inert' object has no attribute 'feature_importances_'");
  coef_ := Err (Exn AttributeError "'Inert' object has no attribute 'coef_'")
|}.

(** A model whose [predict_proba] returns the given array. *)
Definition proba_model (rows : list (list float)) : Model := {|
  predict_proba := Ok (fun _ => Ok rows);
  predict := Ok (fun _ => Ok [PyInt 0]);
  feature_importances_ := Ok [0.5; 0.5]%float;
  coef_ := Err (Exn AttributeError "no attribute 'coef_'")
|}.

(** A model without [predict_proba] whose [predict] gives string labels. *)
Definition string_label_model : Model := {|
  predict_proba := Err (Exn AttributeError "no attribute 'predict_proba'");
  predict := Ok (fun _ => Ok [PyStr "reoperation"]);
  feature_importances_ := Err (Exn AttributeError "no attribute");
  coef_ := Err (Exn AttributeError "no attribute 'coef_'")
|}.


(** * Properties *)

(** ** Order on binary64 numbers *)

Module FloatOrder.

Lemma SFcompare_refl (f : spec_float) :
  f <> S754_nan -> SFcompare f f = Some Eq.
Proof.
  destruct f as [s | s | | s m e]; simpl; intros H;
    try congruence; try (destruct s; reflexivity).
  change (PosDef.Pos.compare_cont Eq m m) with (Pos.compare m m).
  rewrite Z.compare_refl, Pos.compare_refl. destruct s; reflexivity.
Qed.

Lemma is_nan_Prim2SF (x : float) :
  is_nan x = true <-> Prim2SF x = S754_nan.
Proof.
  unfold is_nan. rewrite FloatAxioms.eqb_spec. unfold SFeqb.
  destruct (Prim2SF x) as [s | s | | s m e] eqn:E.
  - simpl. split; discriminate.
  - destruct s; simpl; split; discriminate.
  - simpl. split; reflexivity.
  - rewrite SFcompare_refl by discriminate. simpl. split; discriminate.
Qed.

Lemma not_nan_Prim2SF (x : float) :
  is_nan x = false <-> Prim2SF x <> S754_nan.
Proof.
  rewrite <- is_nan_Prim2SF. destruct (is_nan x); split; congruence.
Qed.

(** Away from NaN the comparison is decided, and swapping its arguments
    reverses it. *)
Lemma SFcompare_swap (f g : spec_float) :
  f <> S754_nan -> g <> S754_nan ->
  exists c, SFcompare f g = Some c /\ SFcompare g f = Some (CompOpp c).
Proof.
  intros Hf Hg.
  destruct f as [s1 | s1 | | s1 m1 e1]; try congruence;
  destruct g as [s2 | s2 | | s2 m2 e2]; try congruence; simpl;
    try (destruct s1; destruct s2; eexists; split; reflexivity);
    try (destruct s1; eexists; split; reflexivity);
    try (destruct s2; eexists; split; reflexivity).
  change (PosDef.Pos.compare_cont Eq m1 m2) with (Pos.compare m1 m2).
  change (PosDef.Pos.compare_cont Eq m2 m1) with (Pos.compare m2 m1).
  rewrite (Z.compare_antisym e1 e2), (Pos.compare_antisym m1 m2).
  destruct s1, s2; eexists; (split; [reflexivity |]);
    destruct (e1 ?= e2)%Z; destruct (m1 ?= m2)%positive; reflexivity.
Qed.

Lemma ltb_false_leb (x y : float) :
  is_nan x = false -> is_nan y = false ->
  (x <? y)%float = negb (y <=? x)%float.
Proof.
  intros Hx Hy. apply not_nan_Prim2SF in Hx, Hy.
  rewrite FloatAxioms.ltb_spec, FloatAxioms.leb_spec. unfold SFltb, SFleb.
  destruct (SFcompare_swap _ _ Hx Hy) as (c & -> & ->).
  destruct c; reflexivity.
Qed.

Lemma leb_total (x y : float) :
  is_nan x = false -> is_nan y = false ->
  (x <=? y)%float = false -> (y <=? x)%float = true.
Proof.
  intros Hx Hy. apply not_nan_Prim2SF in Hx, Hy.
  rewrite !FloatAxioms.leb_spec. unfold SFleb.
  destruct (SFcompare_swap _ _ Hx Hy) as (c & -> & ->).
  destruct c; simpl; congruence.
Qed.

Lemma SFleb_trans (f g h : spec_float) :
  SFleb f g = true -> SFleb g h = true -> SFleb f h = true.
Proof.
  unfold SFleb.
  destruct f as [s1 | s1 | | s1 m1 e1]; destruct g as [s2 | s2 | | s2 m2 e2];
    destruct h as [s3 | s3 | | s3 m3 e3]; simpl;
    try discriminate; try reflexivity;
    try (destruct s1); try (destruct s2); try (destruct s3);
    try discriminate; try reflexivity; intros H12 H23;
    change (PosDef.Pos.compare_cont Eq m1 m2) with (Pos.compare m1 m2) in *;
    change (PosDef.Pos.compare_cont Eq m2 m3) with (Pos.compare m2 m3) in *;
    change (PosDef.Pos.compare_cont Eq m1 m3) with (Pos.compare m1 m3) in *;
    destruct (Z.compare_spec e1 e2); destruct (Z.compare_spec e2 e3);
    destruct (Z.compare_spec e1 e3); try discriminate; try reflexivity;
    try lia;
    destruct (Pos.compare_spec m1 m2); destruct (Pos.compare_spec m2 m3);
    destruct (Pos.compare_spec m1 m3);
    simpl in *; try discriminate; try reflexivity; lia.
Qed.

Lemma leb_trans (x y z : float) :
  (x <=? y)%float = true -> (y <=? z)%float = true -> (x <=? z)%float = true.
Proof. rewrite !FloatAxioms.leb_spec. apply SFleb_trans. Qed.

End FloatOrder.

(** ** The risk label *)

(** C1. For every number [p] the inference step hands over, the label is
    "High Risk" exactly when [p > 0.5] and "Low Risk" exactly when
    [p <= 0.5]; at [p = 0.5] it is "Low Risk". *)
Theorem risk_label_threshold (p : pyval) (Hp : is_number p = true) :
  (risk_level p = Ok "High Risk" <-> above_half p) /\
  (risk_level p = Ok "Low Risk" <-> at_most_half p) /\
  risk_level (PyFloat 0.5) = Ok "Low Risk".
Proof.
  split; [| split]; [| | reflexivity];
    destruct p as [x | n | s];
    unfold risk_level, gt_half, rbind, above_half, at_most_half, is_number
      in *;
    try discriminate.
  - destruct (0.5 <? x)%float; split; congruence.
  - destruct (Z.ltb_spec 0 n); split; intros H'; try reflexivity;
      try discriminate; try lia; exfalso; lia.
  - rewrite (FloatOrder.ltb_false_leb 0.5 x) by
      (try reflexivity; now destruct (is_nan x)).
    destruct (x <=? 0.5)%float; simpl; split; congruence.
  - destruct (Z.ltb_spec 0 n); split; intros H'; try reflexivity;
      try discriminate; try lia; exfalso; lia.
Qed.

Lemma risk_label_threshold_witness :
  is_number (PyFloat 0.5) = true /\
  (risk_level (PyFloat 0.5) = Ok "Low Risk" <-> at_most_half (PyFloat 0.5)).
Proof.
  split; [reflexivity |].
  apply (risk_label_threshold (PyFloat 0.5)). reflexivity.
Defined.

(** ** Column selection *)

Section Selection.

Variable df : DataFrame.

Let absent (c : string) : bool :=
  match dict_get df c with None => true | _ => false end.

Let cell (c : string) : list (string * Z) :=
  match dict_get df c with Some v => [(c, v)] | None => [] end.

Lemma select_columns_present (cols : list string) :
  filter absent cols = [] ->
  columns (flat_map cell cols) = cols /\
  forall c, In c cols -> dict_get (flat_map cell cols) c = dict_get df c.
Proof.
  induction cols as [| c0 cols IH]; simpl; intros H.
  - split; [reflexivity | intros c []].
  - unfold absent, cell in *. destruct (dict_get df c0) as [v0 |] eqn:E0;
      [| discriminate].
    destruct (IH H) as [IHc IHv]. simpl. split.
    + unfold columns in *. simpl. now rewrite IHc.
    + intros c Hc. destruct (String.eqb_spec c0 c) as [-> | Hne].
      * now rewrite E0.
      * destruct Hc as [-> | Hc]; [congruence | now apply IHv].
Qed.

Lemma select_columns_Ok (cols : list string) (X : DataFrame) :
  select_columns df cols = Ok X ->
  columns X = cols /\ forall c, In c cols -> dict_get X c = dict_get df c.
Proof.
  unfold select_columns. fold absent. fold cell.
  destruct (filter absent cols) eqn:E; [| discriminate].
  intros [= <-]. now apply select_columns_present.
Qed.

Lemma select_columns_total (cols : list string) :
  (forall c, In c cols -> dict_get df c <> None) ->
  exists X, select_columns df cols = Ok X.
Proof.
  intros H. unfold select_columns. fold absent.
  replace (filter absent cols) with (@nil string); [eauto |].
  symmetry. induction cols as [| c0 cols IH]; simpl; [reflexivity |].
  unfold absent at 1. destruct (dict_get df c0) eqn:E0.
  - apply IH. intros c Hc. apply H. now right.
  - exfalso. apply (H c0); [now left | exact E0].
Qed.

End Selection.

Lemma dict_get_In_keys {V : Type} (d : dict V) (k : string) :
  In k (keys d) <-> dict_get d k <> None.
Proof.
  induction d as [| [k' v] d IH]; simpl.
  - split; [intros [] | congruence].
  - destruct (String.eqb_spec k' k) as [-> | Hne].
    + split; [discriminate | now left].
    + rewrite <- IH. split; [intros [? | ?]; [congruence | assumption] | now right].
Qed.

Lemma schema_valid_present (record : dict Z) :
  schema_valid record = true ->
  forall c, In c (keys VARIABLE_CONFIG) -> dict_get record c <> None.
Proof.
  unfold schema_valid. rewrite forallb_forall. intros H c Hc.
  apply in_map_iff in Hc. destruct Hc as ([c' cfg] & <- & Hin).
  specialize (H _ Hin). simpl in *.
  destruct (dict_get record c'); [discriminate | discriminate H].
Qed.

(** ** Running the handler *)

(** Case analysis on whatever a piece of script branches on next. *)
Ltac step_script :=
  match goal with
  | |- context [match ?x with _ => _ end] =>
      lazymatch x with
      | context [match _ with _ => _ end] => fail
      | _ => destruct x eqn:?; simpl
      end
  end.

Ltac script_unfold :=
  unfold bind, lift, try_except, ret, raise, emit, st, getitem, rbind in *.


Lemma importance_report_Ok (model : Model) (cols : list string)
    (ranked : list importance_row) :
  importance_df model cols = Ok ranked ->
  importance_report model cols =
    ([ Render Main (markdown "---" false);
       Render Main (subheader "Key Risk Factors");
       Render Main (bar_chart ranked);
       Render Main (dataframe ranked) ], Done tt).
Proof. intros H. unfold importance_report. now rewrite H. Qed.

Lemma importance_report_Err (model : Model) (cols : list string) (e : exn) :
  importance_df model cols = Err e ->
  Exception e = true ->
  importance_report model cols =
    ([ Render Main (markdown "---" false);
       Render Main (subheader "Key Risk Factors");
       Render Main
         (warning ("⚠️ Feature importance not available: " ++ exn_str e));
       Render Main (info "The model does not provide feature importance data") ],
     Done tt).
Proof.
  intros H He. unfold importance_report. rewrite H.
  unfold bind, lift, raise, st, emit, try_except. rewrite He. reflexivity.
Qed.

(** What [except Exception] of line 175 lets through. *)
Lemma importance_report_escape (model : Model) (cols : list string) (e : exn) :
  importance_df model cols = Err e ->
  Exception e = false ->
  importance_report model cols =
    ([ Render Main (markdown "---" false);
       Render Main (subheader "Key Risk Factors") ],
     Raised e).
Proof.
  intros H He. unfold importance_report. rewrite H.
  unfold bind, lift, raise, st, emit, try_except. rewrite He. reflexivity.
Qed.

(** How the importance report ends: normally, unless building the table
    raised outside [Exception]; it renders no error either way. *)
Lemma importance_report_outcome (model : Model) (cols : list string) :
  (snd (importance_report model cols) = Done tt \/
   exists e, importance_df model cols = Err e /\ Exception e = false /\
             snd (importance_report model cols) = Raised e) /\
  Forall (fun el => is_error el = false)
         (rendered (trace (importance_report model cols))).
Proof.
  destruct (importance_df model cols) as [ranked | e] eqn:E.
  - rewrite (importance_report_Ok _ _ _ E). simpl.
    split; [now left | repeat constructor].
  - destruct (Exception e) eqn:He.
    + rewrite (importance_report_Err _ _ _ E He). simpl.
      split; [now left | repeat constructor].
    + rewrite (importance_report_escape _ _ _ E He). simpl.
      split; [right; now exists e | repeat constructor].
Qed.

(** The three runs of the importance report. *)
Lemma importance_report_cases (model : Model) (cols : list string) :
  (exists ranked,
     importance_df model cols = Ok ranked /\
     importance_report model cols =
       ([ Render Main (markdown "---" false);
          Render Main (subheader "Key Risk Factors");
          Render Main (bar_chart ranked);
          Render Main (dataframe ranked) ], Done tt)) \/
  (exists e,
     importance_df model cols = Err e /\ Exception e = true /\
     importance_report model cols =
       ([ Render Main (markdown "---" false);
          Render Main (subheader "Key Risk Factors");
          Render Main
            (warning ("⚠️ Feature importance not available: " ++ exn_str e));
          Render Main
            (info "The model does not provide feature importance data") ],
        Done tt)) \/
  (exists e,
     importance_df model cols = Err e /\ Exception e = false /\
     importance_report model cols =
       ([ Render Main (markdown "---" false);
          Render Main (subheader "Key Risk Factors") ],
        Raised e)).
Proof.
  destruct (importance_df model cols) as [ranked | e] eqn:E.
  - left. exists ranked. split; [reflexivity |].
    now apply importance_report_Ok.
  - right. destruct (Exception e) eqn:He; [left | right]; exists e;
      (split; [reflexivity | split; [exact He |]]).
    + now apply importance_report_Err.
    + now apply importance_report_escape.
Qed.

Ltac report_cases model cols :=
  destruct (importance_report_cases model cols)
    as [(?ranked & ?E & ->) | [(?e & ?E & ?He & ->) | (?e & ?E & ?He & ->)]].

Lemma importance_report_Done (model : Model) (cols : list string) :
  (forall e, importance_df model cols = Err e -> Exception e = true) ->
  snd (importance_report model cols) = Done tt.
Proof.
  intros H. destruct (importance_report_outcome model cols) as [Ho _].
  destruct Ho as [Hd | (e & E & He & _)]; [exact Hd |].
  rewrite (H e E) in He. discriminate.
Qed.

(** A run of the handler in which the prediction went through. *)
Lemma predict_handler_success (model : Model) (inputs : dict Z)
    (X : DataFrame) (calls shown : list event) (v : pyval) :
  select_columns inputs (keys VARIABLE_CONFIG) = Ok X ->
  infer model X = (calls, Done v) ->
  show_result v = (shown, Done tt) ->
  predict_handler model inputs =
    ((Render Main (spinner "Calculating risk...") :: calls ++ shown
        ++ trace (importance_report model (keys VARIABLE_CONFIG)))%list,
     snd (importance_report model (keys VARIABLE_CONFIG))).
Proof.
  intros Hsel Hinf Hshow. unfold predict_handler, DataFrame_of_record.
  rewrite Hsel. cbn [lift bind ret st emit app]. rewrite Hinf.
  cbn [bind]. rewrite Hshow. cbn [bind].
  destruct (importance_report_outcome model (keys VARIABLE_CONFIG)) as [Ho _].
  unfold trace.
  destruct (importance_report model (keys VARIABLE_CONFIG)) as [t o].
  cbn [fst snd] in *. unfold try_except.
  destruct Ho as [-> | (e & _ & He & ->)]; [reflexivity | now rewrite He].
Qed.

(** A run in which the prediction raised [e], an instance of [Exception]. *)
Lemma predict_handler_failure (model : Model) (inputs : dict Z)
    (X : DataFrame) (calls : list event) (e : exn) :
  select_columns inputs (keys VARIABLE_CONFIG) = Ok X ->
  infer model X = (calls, Raised e) ->
  Exception e = true ->
  predict_handler model inputs =
    ((Render Main (spinner "Calculating risk...") :: calls
        ++ [ Render Main (error ("❌ Prediction failed: " ++ exn_str e));
             Render Main
               (error "Please check your input values and try again") ])%list,
     Done tt).
Proof.
  intros Hsel Hinf He. unfold predict_handler, DataFrame_of_record.
  rewrite Hsel. cbn [lift bind ret st emit app]. rewrite Hinf.
  cbn [bind try_except]. rewrite He. reflexivity.
Qed.

(** A run in which the prediction raised [e] outside [Exception]: line 179
    lets it through. *)
Lemma predict_handler_escape (model : Model) (inputs : dict Z)
    (X : DataFrame) (calls : list event) (e : exn) :
  select_columns inputs (keys VARIABLE_CONFIG) = Ok X ->
  infer model X = (calls, Raised e) ->
  Exception e = false ->
  predict_handler model inputs =
    (Render Main (spinner "Calculating risk...") :: calls, Raised e).
Proof.
  intros Hsel Hinf He. unfold predict_handler, DataFrame_of_record.
  rewrite Hsel. cbn [lift bind ret st emit app]. rewrite Hinf.
  cbn [bind try_except]. rewrite He. reflexivity.
Qed.

(** What the display of the result can raise is an instance of
    [Exception]. *)
Lemma show_result_raises (v : pyval) (shown : list event) (e : exn) :
  show_result v = (shown, Raised e) -> Exception e = true.
Proof.
  unfold show_result, risk_level, color, format_pct1, gt_half.
  destruct v as [x | n | s]; unfold bind, lift, ret, raise, emit, st, rbind;
    simpl; repeat step_script; intros [= ? <-]; reflexivity.
Qed.

(** A run in which the prediction went through and its display raised. *)
Lemma predict_handler_display_failure (model : Model) (inputs : dict Z)
    (X : DataFrame) (calls shown : list event) (v : pyval) (e : exn) :
  select_columns inputs (keys VARIABLE_CONFIG) = Ok X ->
  infer model X = (calls, Done v) ->
  show_result v = (shown, Raised e) ->
  predict_handler model inputs =
    ((Render Main (spinner "Calculating risk...") :: calls ++ shown
        ++ [ Render Main (error ("❌ Prediction failed: " ++ exn_str e));
             Render Main
               (error "Please check your input values and try again") ])%list,
     Done tt).
Proof.
  intros Hsel Hinf Hshow. unfold predict_handler, DataFrame_of_record.
  rewrite Hsel. cbn [lift bind ret st emit app]. rewrite Hinf.
  cbn [bind]. rewrite Hshow. cbn [bind try_except].
  rewrite (show_result_raises _ _ _ Hshow). simpl. now rewrite <- app_assoc.
Qed.

Lemma show_result_float (x : float) :
  exists risk col,
    risk_level (PyFloat x) = Ok risk /\ color (PyFloat x) = Ok col /\
    show_result (PyFloat x) =
      ([ Render Main (markdown "---" false);
         Render Main (subheader "Prediction Results");
         Render Main
           (markdown ("<h2 style='text-align: center; color: " ++ col
                        ++ ";'>" ++ risk ++ "</h2>") true);
         Render Main
           (write ("### Reoperation Probability: " ++ format_float_pct1 x)) ],
       Done tt).
Proof.
  unfold show_result, risk_level, color. simpl.
  destruct (0.5 <? x)%float; do 2 eexists; repeat split.
Qed.

Lemma rendered_app (t t' : list event) :
  rendered (t ++ t') = (rendered t ++ rendered t')%list.
Proof. apply flat_map_app. Qed.

(** ** Inference on valid records *)

(** C2. On a schema-valid input record, with a model whose [predict_proba]
    exists and returns a well-formed probability row for every frame in
    schema order, the inference step does not raise: it makes the one call,
    yields a probability in [0, 1], and the handler renders it and no
    error.  The handler then ends normally, provided that whatever the
    importance report raises afterwards is an instance of [Exception]. *)
Theorem inference_safe_on_valid_records (model : Model) (inputs : dict Z)
    (f : DataFrame -> result (list (list float)))
    (Hvalid : schema_valid inputs = true)
    (Hattr : predict_proba model = Ok f)
    (Hf : forall X, columns X = keys VARIABLE_CONFIG ->
                    exists rows, f X = Ok rows /\ well_formed_proba rows = true) :
  exists X p,
    select_columns inputs (keys VARIABLE_CONFIG) = Ok X /\
    infer model X = ([Call_predict_proba X], Done (PyFloat p)) /\
    probability p = true /\
    ((forall e, importance_df model (keys VARIABLE_CONFIG) = Err e ->
                Exception e = true) ->
     snd (predict_handler model inputs) = Done tt) /\
    Forall (fun el => is_error el = false)
           (rendered (trace (predict_handler model inputs))) /\
    In (write ("### Reoperation Probability: " ++ format_float_pct1 p))
       (rendered (trace (predict_handler model inputs))).
Proof.
  destruct (select_columns_total inputs (keys VARIABLE_CONFIG)
              (schema_valid_present inputs Hvalid)) as [X HX].
  destruct (select_columns_Ok _ _ _ HX) as [Hcols _].
  destruct (Hf X Hcols) as (rows & Hrows & Hwf).
  destruct rows as [| [| q [| p row]] rows]; try discriminate Hwf.
  simpl in Hwf. apply andb_prop in Hwf. destruct Hwf as [_ Hp].
  assert (Hinf : infer model X = ([Call_predict_proba X], Done (PyFloat p))).
  { unfold infer, proba_path. rewrite Hattr. simpl. rewrite Hrows.
    reflexivity. }
  destruct (show_result_float p) as (risk & col & _ & _ & Hshow).
  exists X, p. repeat split; try assumption.
  - intros Himp. rewrite (predict_handler_success _ _ _ _ _ _ HX Hinf Hshow).
    now apply importance_report_Done.
  - rewrite (predict_handler_success _ _ _ _ _ _ HX Hinf Hshow).
    unfold trace at 1. cbn [fst].
    change (Render Main (spinner "Calculating risk...") :: ?l)
      with ([Render Main (spinner "Calculating risk...")] ++ l)%list.
    rewrite !rendered_app. repeat (apply Forall_app; split);
      try (simpl; repeat constructor).
    apply importance_report_outcome.
  - rewrite (predict_handler_success _ _ _ _ _ _ HX Hinf Hshow).
    unfold trace at 1. cbn [fst].
    change (Render Main (spinner "Calculating risk...") :: ?l)
      with ([Render Main (spinner "Calculating risk...")] ++ l)%list.
    rewrite !rendered_app. apply in_or_app. right. apply in_or_app. right.
    apply in_or_app. left. simpl. auto.
Qed.

Lemma inference_safe_on_valid_records_witness :
  exists X p,
    select_columns default_record (keys VARIABLE_CONFIG) = Ok X /\
    infer (stub_model 0.73) X = ([Call_predict_proba X], Done (PyFloat p)) /\
    probability p = true /\
    snd (predict_handler (stub_model 0.73) default_record) = Done tt /\
    Forall (fun el => is_error el = false)
           (rendered (trace (predict_handler (stub_model 0.73) default_record))) /\
    In (write ("### Reoperation Probability: " ++ format_float_pct1 p))
       (rendered (trace (predict_handler (stub_model 0.73) default_record))).
Proof.
  destruct (inference_safe_on_valid_records (stub_model 0.73) default_record
              (fun _ => Ok [[(1 - 0.73)%float; 0.73%float]]))
    as (X & p & HX & Hinf & Hp & Hdone & Hnone & Hshown).
  - reflexivity.
  - reflexivity.
  - intros X _. eexists. split; reflexivity.
  - exists X, p. split; [exact HX |]. split; [exact Hinf |].
    split; [exact Hp |]. split; [| split; assumption].
    apply Hdone. intros e [= <-]. reflexivity.
Defined.

(** ** What the model is given *)

Lemma model_inputs_app (t t' : list event) :
  model_inputs (t ++ t') = (model_inputs t ++ model_inputs t')%list.
Proof. apply flat_map_app. Qed.

(** [infer] never stops the run, and calls the model on [X] only. *)
Lemma infer_calls (model : Model) (X : DataFrame) :
  snd (infer model X) <> Stopped /\
  Forall (eq X) (model_inputs (trace (infer model X))) /\
  Forall (fun ev => ev = Call_predict_proba X \/ ev = Call_predict X)
         (trace (infer model X)).
Proof.
  unfold infer, proba_path, predict_path, trace.
  destruct model as [pp pr fi cf]. script_unfold. simpl.
  repeat step_script;
    (split; [discriminate
            | split; [repeat constructor
                     | repeat (apply Forall_cons; [tauto |]);
                       apply Forall_nil]]).
Qed.

Lemma show_result_renders (v : pyval) :
  snd (show_result v) <> Stopped /\
  model_inputs (trace (show_result v)) = [].
Proof.
  unfold show_result, risk_level, color, trace.
  destruct v as [x | n | s]; script_unfold; simpl; repeat step_script;
    (split; [discriminate | reflexivity]).
Qed.

Lemma importance_report_renders (model : Model) (cols : list string) :
  model_inputs (trace (importance_report model cols)) = [].
Proof. report_cases model cols; reflexivity. Qed.

(** Once the record is projected to [X], a run of the handler is the
    spinner, the inference on [X], and elements only. *)
Lemma predict_handler_trace (model : Model) (inputs : dict Z) (X : DataFrame) :
  select_columns inputs (keys VARIABLE_CONFIG) = Ok X ->
  exists rest,
    trace (predict_handler model inputs) =
      (Render Main (spinner "Calculating risk...")
         :: trace (infer model X) ++ rest)%list /\
    model_inputs rest = [].
Proof.
  intros HX.
  destruct (infer_calls model X) as (Hstop & _ & _).
  destruct (infer model X) as [calls [v | e |]] eqn:Hinf;
    [| | now elim Hstop].
  - destruct (show_result_renders v) as (Hstop' & Hshown).
    destruct (show_result v) as [shown [[] | e |]] eqn:Hshow;
      [| | now elim Hstop'].
    + rewrite (predict_handler_success _ _ _ _ _ _ HX Hinf Hshow).
      eexists. split; [reflexivity |].
      rewrite model_inputs_app. unfold trace in Hshown at 1. simpl in Hshown.
      rewrite Hshown. apply importance_report_renders.
    + rewrite (predict_handler_display_failure _ _ _ _ _ _ _ HX Hinf Hshow).
      eexists. split; [reflexivity |].
      rewrite model_inputs_app. unfold trace in Hshown. simpl in Hshown.
      now rewrite Hshown.
  - destruct (Exception e) eqn:He.
    + rewrite (predict_handler_failure _ _ _ _ _ HX Hinf He).
      eexists. split; reflexivity.
    + rewrite (predict_handler_escape _ _ _ _ _ HX Hinf He).
      exists []. now rewrite app_nil_r.
Qed.

(** C3. Whatever the order of the eleven parameter names in the raw input
    mapping, the record is projected to a frame whose columns are the
    schema's keys in declaration order, each with the value the mapping
    gives it, and this frame is what every call on the model receives (and
    there is such a call as soon as the model has [predict_proba]). *)
Theorem model_receives_schema_order (model : Model) (inputs : dict Z)
    (Horder : Permutation (keys inputs) (keys VARIABLE_CONFIG)) :
  exists X,
    select_columns inputs (keys VARIABLE_CONFIG) = Ok X /\
    columns X = keys VARIABLE_CONFIG /\
    (forall c, In c (keys VARIABLE_CONFIG) -> dict_get X c = dict_get inputs c) /\
    Forall (eq X) (model_inputs (trace (predict_handler model inputs))) /\
    forall f, predict_proba model = Ok f ->
              hd_error (model_inputs (trace (predict_handler model inputs)))
              = Some X.
Proof.
  destruct (select_columns_total inputs (keys VARIABLE_CONFIG)) as [X HX].
  { intros c Hc. apply dict_get_In_keys.
    apply (Permutation_in c (Permutation_sym Horder) Hc). }
  destruct (select_columns_Ok _ _ _ HX) as [Hcols Hvals].
  destruct (predict_handler_trace model inputs X HX) as (rest & Ht & Hrest).
  exists X. repeat split; try assumption.
  - rewrite Ht. simpl. rewrite model_inputs_app, Hrest, app_nil_r.
    apply infer_calls.
  - intros f Hf. rewrite Ht. simpl. rewrite model_inputs_app.
    unfold infer, proba_path, trace. rewrite Hf. script_unfold. simpl.
    repeat step_script; reflexivity.
Qed.

Lemma model_receives_schema_order_witness :
  Permutation (keys (rev default_record)) (keys VARIABLE_CONFIG) /\
  exists X,
    select_columns (rev default_record) (keys VARIABLE_CONFIG) = Ok X /\
    columns X = keys VARIABLE_CONFIG /\
    (forall c, In c (keys VARIABLE_CONFIG) ->
               dict_get X c = dict_get (rev default_record) c) /\
    Forall (eq X)
      (model_inputs (trace (predict_handler (stub_model 0.73)
                              (rev default_record)))) /\
    forall f, predict_proba (stub_model 0.73) = Ok f ->
              hd_error (model_inputs
                          (trace (predict_handler (stub_model 0.73)
                                    (rev default_record))))
              = Some X.
Proof.
  assert (H : Permutation (keys (rev default_record)) (keys VARIABLE_CONFIG)).
  { change (keys (rev default_record)) with (rev (keys VARIABLE_CONFIG)).
    apply Permutation_sym, Permutation_rev. }
  split; [exact H |].
  apply (model_receives_schema_order (stub_model 0.73) (rev default_record) H).
Defined.

(** After a prediction [v], the handler shows it before anything else. *)
Lemma predict_handler_after_inference (model : Model) (inputs : dict Z)
    (X : DataFrame) (calls : list event) (v : pyval) :
  select_columns inputs (keys VARIABLE_CONFIG) = Ok X ->
  infer model X = (calls, Done v) ->
  exists rest,
    trace (predict_handler model inputs) =
      (Render Main (spinner "Calculating risk...") :: calls
         ++ trace (show_result v) ++ rest)%list.
Proof.
  intros HX Hinf.
  destruct (show_result_renders v) as (Hstop & _).
  destruct (show_result v) as [shown [[] | e |]] eqn:Hshow;
    [| | now elim Hstop].
  - rewrite (predict_handler_success _ _ _ _ _ _ HX Hinf Hshow).
    eexists. reflexivity.
  - rewrite (predict_handler_display_failure _ _ _ _ _ _ _ HX Hinf Hshow).
    eexists. reflexivity.
Qed.

Lemma show_result_number (v : pyval) (risk pct : string) :
  risk_level v = Ok risk -> format_pct1 v = Ok pct ->
  exists col,
    color v = Ok col /\
    show_result v =
      ([ Render Main (markdown "---" false);
         Render Main (subheader "Prediction Results");
         Render Main
           (markdown ("<h2 style='text-align: center; color: " ++ col
                        ++ ";'>" ++ risk ++ "</h2>") true);
         Render Main (write ("### Reoperation Probability: " ++ pct)) ],
       Done tt).
Proof.
  unfold show_result, risk_level, color.
  destruct (gt_half v) as [high | e]; simpl; [| discriminate].
  intros [= <-] ->. eexists. split; reflexivity.
Qed.

(** ** The fallback to [predict] *)

(** What the [except AttributeError] clause does with an exception of line
    134. *)
Lemma infer_on_exception (model : Model) (X : DataFrame)
    (calls : list event) (e : exn) :
  proba_path model X = (calls, Raised e) ->
  infer model X =
    if is_AttributeError e
    then ((calls ++ trace (predict_path model X))%list,
          snd (predict_path model X))
    else (calls, Raised e).
Proof.
  intros H. unfold infer, try_except, trace. rewrite H.
  destruct (is_AttributeError e); [| reflexivity].
  now destruct (predict_path model X).
Qed.

Lemma proba_path_calls (model : Model) (X : DataFrame)
    (calls : list event) (o : outcome pyval) :
  proba_path model X = (calls, o) ->
  Forall (eq (Call_predict_proba X)) calls /\ rendered calls = [].
Proof.
  unfold proba_path. script_unfold.
  repeat step_script; intros [= <- ?]; split; repeat constructor.
Qed.

Lemma infer_falls_back (model : Model) (X : DataFrame)
    (calls : list event) (e : exn)
    (g : DataFrame -> result (list pyval)) (v : pyval) (ys : list pyval) :
  proba_path model X = (calls, Raised e) ->
  is_AttributeError e = true ->
  predict model = Ok g ->
  g X = Ok (v :: ys) ->
  infer model X = ((calls ++ [Call_predict X])%list, Done v).
Proof.
  intros Hproba Hattr Hpredict Hys.
  rewrite (infer_on_exception _ _ _ _ Hproba), Hattr.
  unfold predict_path, trace. rewrite Hpredict. simpl. now rewrite Hys.
Qed.

(** C4. When line 134 raises AttributeError (the model has no
    [predict_proba], or the call signals a missing attribute), the
    inference step calls [predict] on the same frame and its first element
    is the value that is thresholded and displayed. *)
Theorem fallback_to_predict (model : Model) (inputs : dict Z) (X : DataFrame)
    (calls : list event) (e : exn)
    (g : DataFrame -> result (list pyval)) (v : pyval) (ys : list pyval)
    (HX : select_columns inputs (keys VARIABLE_CONFIG) = Ok X)
    (Hproba : proba_path model X = (calls, Raised e))
    (Hattr : is_AttributeError e = true)
    (Hpredict : predict model = Ok g)
    (Hys : g X = Ok (v :: ys)) :
  infer model X = ((calls ++ [Call_predict X])%list, Done v) /\
  Forall (eq (Call_predict_proba X)) calls /\
  (exists rest,
     trace (predict_handler model inputs) =
       (Render Main (spinner "Calculating risk...") :: calls
          ++ Call_predict X :: trace (show_result v) ++ rest)%list) /\
  forall risk pct,
    risk_level v = Ok risk -> format_pct1 v = Ok pct ->
    exists col,
      color v = Ok col /\
      In (markdown ("<h2 style='text-align: center; color: " ++ col
                      ++ ";'>" ++ risk ++ "</h2>") true)
         (rendered (trace (predict_handler model inputs))) /\
      In (write ("### Reoperation Probability: " ++ pct))
         (rendered (trace (predict_handler model inputs))).
Proof.
  pose proof (infer_falls_back _ _ _ _ _ _ _ Hproba Hattr Hpredict Hys) as Hinf.
  destruct (proba_path_calls _ _ _ _ Hproba) as [Hcalls _].
  destruct (predict_handler_after_inference _ _ _ _ _ HX Hinf) as [rest Ht].
  rewrite <- app_assoc in Ht. simpl in Ht.
  repeat split; try assumption.
  - now exists rest.
  - intros risk pct Hrisk Hpct.
    destruct (show_result_number v risk pct Hrisk Hpct) as (col & Hcol & Hshow).
    exists col. split; [exact Hcol |].
    rewrite Ht, Hshow.
    change (Render Main (spinner "Calculating risk...") :: ?l)
      with ([Render Main (spinner "Calculating risk...")] ++ l)%list.
    change (Call_predict X :: ?l) with ([Call_predict X] ++ l)%list.
    unfold trace. cbn [fst]. rewrite !rendered_app.
    split; apply in_or_app; right; apply in_or_app; right; apply in_or_app;
      right; apply in_or_app; left; simpl; auto.
Qed.

Lemma fallback_to_predict_witness :
  select_columns default_record (keys VARIABLE_CONFIG) = Ok default_record /\
  proba_path label_model default_record
  = ([], Raised (Exn AttributeError
                   "'Labeller' object has no attribute 'predict_proba'")) /\
  infer label_model default_record
  = ([Call_predict default_record], Done (PyInt 1)).
Proof.
  split; [reflexivity | split; [reflexivity |]].
  apply (fallback_to_predict label_model default_record default_record []
           (Exn AttributeError
              "'Labeller' object has no attribute 'predict_proba'")
           (fun _ => Ok [PyInt 1]) (PyInt 1) []);
    reflexivity.
Defined.

(** ** The whole script *)

Lemma Call_predict_model_inputs (X : DataFrame) (t : list event) :
  In (Call_predict X) t -> In X (model_inputs t).
Proof.
  intros H. unfold model_inputs. apply in_flat_map.
  exists (Call_predict X). split; [exact H | now left].
Qed.

Lemma form_shown_app (t t' : list event) :
  form_shown (t ++ t') = (form_shown t ++ form_shown t')%list.
Proof. unfold form_shown. now rewrite rendered_app, filter_app. Qed.

(** The form always goes through: it renders the eleven inputs and yields
    the record of what they hold. *)
Lemma patient_parameters_run (env : Env) :
  exists events,
    patient_parameters env = (events, Done (form_record (widget_state env))) /\
    form_shown events = removelast form_elements /\
    model_inputs events = [] /\
    filter is_error (rendered events) = [] /\
    sidebar_shown events = [].
Proof. eexists. repeat split; reflexivity. Qed.

(** A missing column is all the selection can raise. *)
Lemma select_columns_raises (df : DataFrame) (cols : list string) (e : exn) :
  select_columns df cols = Err e -> Exception e = true.
Proof.
  unfold select_columns. destruct (filter _ cols); [discriminate |].
  intros [= <-]. reflexivity.
Qed.

(** A run of the handler in which the selection raised. *)
Lemma predict_handler_unprojected (model : Model) (inputs : dict Z) (e : exn) :
  select_columns inputs (keys VARIABLE_CONFIG) = Err e ->
  predict_handler model inputs =
    ([ Render Main (error ("❌ Prediction failed: " ++ exn_str e));
       Render Main (error "Please check your input values and try again") ],
     Done tt).
Proof.
  intros HX. unfold predict_handler, DataFrame_of_record. rewrite HX.
  cbn [lift bind raise try_except]. rewrite (select_columns_raises _ _ _ HX).
  reflexivity.
Qed.

(** The handler never stops the script; it ends normally unless its body
    raised outside [Exception], which line 179 lets through. *)
Lemma predict_handler_outcome (model : Model) (inputs : dict Z) :
  snd (predict_handler model inputs) = Done tt \/
  exists e, Exception e = false /\
            snd (predict_handler model inputs) = Raised e.
Proof.
  destruct (select_columns inputs (keys VARIABLE_CONFIG)) as [X | e] eqn:HX.
  - destruct (infer_calls model X) as (Hstop & _ & _).
    destruct (infer model X) as [calls [v | e |]] eqn:Hinf;
      [| | now elim Hstop].
    + destruct (show_result_renders v) as (Hstop' & _).
      destruct (show_result v) as [shown [[] | e |]] eqn:Hshow;
        [| | now elim Hstop'].
      * rewrite (predict_handler_success _ _ _ _ _ _ HX Hinf Hshow). cbn [snd].
        destruct (importance_report_outcome model (keys VARIABLE_CONFIG))
          as [[Hd | (e & _ & He & Hr)] _]; [now left | right; now exists e].
      * rewrite (predict_handler_display_failure _ _ _ _ _ _ _ HX Hinf Hshow).
        now left.
    + destruct (Exception e) eqn:He.
      * rewrite (predict_handler_failure _ _ _ _ _ HX Hinf He). now left.
      * rewrite (predict_handler_escape _ _ _ _ _ HX Hinf He).
        right. now exists e.
  - rewrite (predict_handler_unprojected _ _ _ HX). now left.
Qed.

Lemma predict_handler_no_form (model : Model) (inputs : dict Z) :
  form_shown (trace (predict_handler model inputs)) = [].
Proof.
  assert (Himp : form_shown
                   (trace (importance_report model (keys VARIABLE_CONFIG))) = []).
  { report_cases model (keys VARIABLE_CONFIG); reflexivity. }
  assert (Hshow : forall v, form_shown (trace (show_result v)) = []).
  { intros v. unfold show_result, risk_level, color, trace.
    destruct v; script_unfold; simpl; repeat step_script; reflexivity. }
  assert (Hinfer : forall X, form_shown (trace (infer model X)) = []).
  { intros X. destruct (infer_calls model X) as (_ & _ & H).
    induction H as [| ev t [-> | ->] _ IH]; [reflexivity | exact IH ..]. }
  destruct (select_columns inputs (keys VARIABLE_CONFIG)) as [X | e] eqn:HX.
  - specialize (Hinfer X). destruct (infer_calls model X) as (Hstop & _ & _).
    destruct (infer model X) as [calls [v | e |]] eqn:Hinf;
      [| | now elim Hstop]; unfold trace in Hinfer; simpl in Hinfer.
    + specialize (Hshow v).
      destruct (show_result_renders v) as (Hstop' & _).
      destruct (show_result v) as [shown [[] | e |]] eqn:Hsh;
        [| | now elim Hstop']; unfold trace in Hshow; simpl in Hshow.
      * rewrite (predict_handler_success _ _ _ _ _ _ HX Hinf Hsh).
        unfold trace at 1. cbn [fst].
        change (?a :: calls ++ ?l) with ([a] ++ calls ++ l)%list.
        now rewrite !form_shown_app, Hinfer, Hshow, Himp.
      * rewrite (predict_handler_display_failure _ _ _ _ _ _ _ HX Hinf Hsh).
        unfold trace. cbn [fst].
        change (?a :: calls ++ ?l) with ([a] ++ calls ++ l)%list.
        now rewrite !form_shown_app, Hinfer, Hshow.
    + destruct (Exception e) eqn:He.
      * rewrite (predict_handler_failure _ _ _ _ _ HX Hinf He).
        unfold trace. cbn [fst].
        change (?a :: calls ++ ?l) with ([a] ++ calls ++ l)%list.
        now rewrite !form_shown_app, Hinfer.
      * rewrite (predict_handler_escape _ _ _ _ _ HX Hinf He).
        unfold trace. cbn [fst].
        change (?a :: calls) with ([a] ++ calls)%list.
        now rewrite !form_shown_app, Hinfer.
  - now rewrite (predict_handler_unprojected _ _ _ HX).
Qed.

Lemma on_click_no_form (env : Env) (model : Model) :
  form_shown (trace (on_click env model)) = [].
Proof.
  unfold on_click. destruct (button_clicked env);
    [apply predict_handler_no_form | reflexivity].
Qed.

(** How the step of line 122 ends: normally, unless the handler ran and
    raised outside [Exception]. *)
Lemma on_click_outcome (env : Env) (model : Model) :
  snd (on_click env model) = Done tt \/
  exists e, Exception e = false /\ button_clicked env = true /\
            snd (on_click env model) = Raised e.
Proof.
  unfold on_click. destruct (button_clicked env); [| now left].
  destruct (predict_handler_outcome model (form_record (widget_state env)))
    as [Hd | (e & He & Hr)]; [now left | right; now exists e].
Qed.

(** A run with a loaded model: the header, the form, the button, the
    handler when the button was clicked and, unless the handler let an
    exception through, the sidebar. *)
Lemma app_loaded (env : Env) (model : Model) :
  joblib_import env = Ok tt ->
  joblib_load env = Ok model ->
  exists header,
    form_shown header = removelast form_elements /\
    model_inputs header = [] /\
    filter is_error (rendered header) = [] /\
    sidebar_shown header = [] /\
    app env =
      match snd (on_click env model) with
      | Done _ =>
          ((header ++ Render Main (button "Predict Risk" "primary")
              :: trace (on_click env model) ++ trace sidebar)%list,
           Done tt)
      | o =>
          ((header ++ Render Main (button "Predict Risk" "primary")
              :: trace (on_click env model))%list,
           o)
      end.
Proof.
  intros Himp Hload.
  destruct (patient_parameters_run env)
    as (events & Hform & Hshown & Hnone & Hnoerr & Hnoside).
  exists ([ Render Main (page_config "Surgical Risk Prediction" "🏥" "wide");
            Render Main (success "✅ joblib successfully imported");
            Render Main (success "✅ Model loaded successfully") ]
          ++ events)%list.
  split; [rewrite form_shown_app, Hshown; reflexivity |].
  split; [rewrite model_inputs_app, Hnone; reflexivity |].
  split; [rewrite rendered_app, filter_app, Hnoerr; reflexivity |].
  split; [unfold sidebar_shown in *; rewrite filter_app, Hnoside; reflexivity |].
  unfold app, import_joblib, load_model. rewrite Himp, Hload.
  cbn [lift bind ret st emit try_except app]. rewrite Hform.
  cbn [bind st emit app].
  change (if button_clicked env
          then predict_handler model (form_record (widget_state env))
          else ret tt) with (on_click env model).
  unfold trace.
  destruct (on_click env model) as [t [[] | e |]];
    cbn [bind fst snd sidebar st emit app]; rewrite <- ?app_assoc;
    reflexivity.
Qed.

(** A run with a loaded model ends as the step of line 122 does. *)
Lemma app_loaded_outcome (env : Env) (model : Model) :
  joblib_import env = Ok tt ->
  joblib_load env = Ok model ->
  snd (app env) = snd (on_click env model).
Proof.
  intros Himp Hload.
  destruct (app_loaded env model Himp Hload) as (header & _ & _ & _ & _ & ->).
  now destruct (snd (on_click env model)) as [[] | e |].
Qed.

(** Every run with a loaded model shows the whole form, whatever the
    handler met. *)
Lemma app_shows_form (env : Env) (model : Model) :
  joblib_import env = Ok tt ->
  joblib_load env = Ok model ->
  form_shown (trace (app env)) = form_elements.
Proof.
  intros Himp Hload.
  destruct (app_loaded env model Himp Hload)
    as (header & Hheader & _ & _ & _ & ->).
  pose proof (on_click_no_form env model) as Hnone.
  destruct (snd (on_click env model)) as [[] | e |];
    unfold trace at 1; cbn [fst];
    change (?a :: ?l) with ([a] ++ l)%list;
    rewrite !form_shown_app, Hheader, Hnone; reflexivity.
Qed.

Lemma form_record_projected (held : string -> option Z) :
  select_columns (form_record held) (keys VARIABLE_CONFIG)
  = Ok (form_record held).
Proof.
  unfold select_columns, form_record, number_input_value.
  cbn [VARIABLE_CONFIG keys map fst snd cfg_min cfg_max cfg_value filter
       dict_get flat_map String.eqb Ascii.eqb Bool.eqb app].
  reflexivity.
Qed.

(** ** Runs without a model *)

(** [import joblib] raised ImportError (lines 17-21). *)
Lemma app_import_failure (env : Env) (e : exn) :
  joblib_import env = Err e ->
  is_ImportError e = true ->
  app env =
    ([ Render Main (page_config "Surgical Risk Prediction" "🏥" "wide");
       Render Main
         (error "❌ joblib not found. This application cannot run without joblib.");
       Render Main
         (error "Please ensure joblib is included in your requirements.txt file") ],
     Stopped).
Proof.
  intros Himp He. unfold app, import_joblib. rewrite Himp.
  cbn [lift bind raise try_except]. rewrite He. reflexivity.
Qed.

(** [import joblib] raised something else, which nothing catches. *)
Lemma app_import_escape (env : Env) (e : exn) :
  joblib_import env = Err e ->
  is_ImportError e = false ->
  app env =
    ([ Render Main (page_config "Surgical Risk Prediction" "🏥" "wide") ],
     Raised e).
Proof.
  intros Himp He. unfold app, import_joblib. rewrite Himp.
  cbn [lift bind raise try_except]. rewrite He. reflexivity.
Qed.

(** [joblib.load] raised an instance of [Exception] (lines 27-30). *)
Lemma app_load_failure (env : Env) (e : exn) :
  joblib_import env = Ok tt ->
  joblib_load env = Err e ->
  Exception e = true ->
  app env =
    ([ Render Main (page_config "Surgical Risk Prediction" "🏥" "wide");
       Render Main (success "✅ joblib successfully imported");
       Render Main (error ("❌ Failed to load model: " ++ exn_str e));
       Render Main
         (error "Please ensure 'model.joblib' exists and is a valid joblib file") ],
     Stopped).
Proof.
  intros Himp Hload He. unfold app, import_joblib, load_model.
  rewrite Himp, Hload. cbn [lift bind ret raise st emit try_except].
  rewrite He. reflexivity.
Qed.

(** [joblib.load] raised outside [Exception]: line 27 lets it through. *)
Lemma app_load_escape (env : Env) (e : exn) :
  joblib_import env = Ok tt ->
  joblib_load env = Err e ->
  Exception e = false ->
  app env =
    ([ Render Main (page_config "Surgical Risk Prediction" "🏥" "wide");
       Render Main (success "✅ joblib successfully imported") ],
     Raised e).
Proof.
  intros Himp Hload He. unfold app, import_joblib, load_model.
  rewrite Himp, Hload. cbn [lift bind ret raise st emit try_except].
  rewrite He. reflexivity.
Qed.

(** Without joblib, [joblib.load] is not reached and no form is shown. *)
Lemma app_without_joblib (env : Env) (e : exn) :
  joblib_import env = Err e ->
  form_shown (trace (app env)) = [] /\ snd (app env) <> Done tt.
Proof.
  intros Himp. destruct (is_ImportError e) eqn:He.
  - rewrite (app_import_failure env e Himp He). split; [reflexivity | discriminate].
  - rewrite (app_import_escape env e Himp He). split; [reflexivity | discriminate].
Qed.

(** Without a model the run does not reach the form, and does not end
    normally. *)
Lemma app_without_model (env : Env) (e : exn) :
  joblib_load env = Err e ->
  form_shown (trace (app env)) = [] /\ snd (app env) <> Done tt.
Proof.
  intros Hload. destruct (joblib_import env) as [[] | e'] eqn:Himp.
  - destruct (Exception e) eqn:He.
    + rewrite (app_load_failure env e Himp Hload He).
      split; [reflexivity | discriminate].
    + rewrite (app_load_escape env e Himp Hload He).
      split; [reflexivity | discriminate].
  - now apply (app_without_joblib env e').
Qed.

(** The form is shown only in runs that loaded a model. *)
Lemma form_requires_model (env : Env) :
  form_shown (trace (app env)) <> [] -> exists model, joblib_load env = Ok model.
Proof.
  destruct (joblib_load env) as [model | e] eqn:Hload; [eauto |].
  intros H. elim H. now apply (app_without_model env e).
Qed.

(** C5. When [joblib.load] fails, the run halts before the form: nothing
    of the form is rendered and the run does not end normally.  When the
    failure is an instance of [Exception] (joblib itself being imported),
    the run is the page configuration, the import notice and the two error
    messages that report the failure, and it stops there; what is outside
    [Exception] leaves the script at line 25, with no form either. *)
Theorem load_failure_halts_before_form (env : Env) (e : exn)
    (Hload : joblib_load env = Err e) :
  form_shown (trace (app env)) = [] /\
  snd (app env) <> Done tt /\
  (joblib_import env = Ok tt -> Exception e = true ->
   snd (app env) = Stopped /\
   trace (app env) =
     [ Render Main (page_config "Surgical Risk Prediction" "🏥" "wide");
       Render Main (success "✅ joblib successfully imported");
       Render Main (error ("❌ Failed to load model: " ++ exn_str e));
       Render Main
         (error "Please ensure 'model.joblib' exists and is a valid joblib file") ]) /\
  (joblib_import env = Ok tt -> Exception e = false ->
   snd (app env) = Raised e /\
   filter is_error (rendered (trace (app env))) = []) /\
  (forall e', joblib_import env = Err e' -> is_ImportError e' = true ->
              snd (app env) = Stopped).
Proof.
  destruct (app_without_model env e Hload) as [Hform Hend].
  split; [exact Hform |]. split; [exact Hend |]. split; [| split].
  - intros Himp He. rewrite (app_load_failure env e Himp Hload He).
    split; reflexivity.
  - intros Himp He. rewrite (app_load_escape env e Himp Hload He).
    split; reflexivity.
  - intros e' Himp He'. now rewrite (app_import_failure env e' Himp He').
Qed.

Lemma load_failure_halts_before_form_witness :
  joblib_load missing_artifact_env
  = Err (Exn (OtherException "FileNotFoundError")
           "[Errno 2] No such file or directory: 'model.joblib'") /\
  snd (app missing_artifact_env) = Stopped /\
  form_shown (trace (app missing_artifact_env)) = [].
Proof.
  split; [reflexivity |].
  pose proof (load_failure_halts_before_form missing_artifact_env
                (Exn (OtherException "FileNotFoundError")
                   "[Errno 2] No such file or directory: 'model.joblib'")
                eq_refl) as (Hform & _ & Hstop & _).
  split; [now apply Hstop | exact Hform].
Defined.

(** C10, as stated, fails: here [predict_proba] raises an exception that
    is not an AttributeError and not an instance of [Exception] either.
    The fallback is skipped, but the outer handler does not catch the
    exception: the run renders no failure message and no sidebar, and ends
    with the exception right after the call. *)
Lemma uncaught_prediction_failure_example :
  is_AttributeError
    (Exn (NonException "KeyboardInterrupt") "predict_proba failed") = false /\
  proba_path (failing_model (NonException "KeyboardInterrupt")) default_record
  = ([Call_predict_proba default_record],
     Raised (Exn (NonException "KeyboardInterrupt") "predict_proba failed")) /\
  app (env_of (failing_model (NonException "KeyboardInterrupt")) true)
  = ((page_top
        ++ [ Render Main (spinner "Calculating risk...");
             Call_predict_proba default_record ])%list,
     Raised (Exn (NonException "KeyboardInterrupt") "predict_proba failed")) /\
  filter is_error
    (rendered
       (trace (app (env_of (failing_model (NonException "KeyboardInterrupt"))
                      true)))) = [] /\
  sidebar_shown
    (trace (app (env_of (failing_model (NonException "KeyboardInterrupt"))
                   true))) = [].
Proof. vm_compute. repeat split. Qed.

Lemma proba_path_no_predict (model : Model) (X : DataFrame)
    (calls : list event) (o : outcome pyval) :
  proba_path model X = (calls, o) -> ~ In (Call_predict X) calls.
Proof.
  unfold proba_path. script_unfold.
  repeat step_script; intros [= <- ?]; simpl; intuition discriminate.
Qed.

Lemma sidebar_no_predict (X : DataFrame) : ~ In (Call_predict X) (trace sidebar).
Proof. unfold trace, sidebar. simpl. intuition discriminate. Qed.

(** C10 (as amended). What decides the fallback is the class of the
    exception line 134 raises, wherever it comes from.  An AttributeError
    hands over to [predict].  Any other exception goes past the fallback and
    [predict] is not called; the whole form stays rendered.  When that
    exception is an instance of [Exception], the outer handler renders the
    two prediction-failure messages and the run ends normally, with the
    sidebar; when it is not, line 179 does not catch it: it leaves the
    script, which renders no failure message and no sidebar. *)
Theorem fallback_only_on_AttributeError (model : Model) (X : DataFrame)
    (calls : list event) (e : exn)
    (Hproba : proba_path model X = (calls, Raised e)) :
  (is_AttributeError e = true ->
   infer model X = ((calls ++ trace (predict_path model X))%list,
                    snd (predict_path model X)) /\
   forall g, predict model = Ok g -> In (Call_predict X) (trace (infer model X)))
  /\
  (is_AttributeError e = false ->
   infer model X = (calls, Raised e) /\
   ~ In (Call_predict X) (trace (infer model X)) /\
   forall env,
     joblib_import env = Ok tt -> joblib_load env = Ok model ->
     button_clicked env = true -> X = form_record (widget_state env) ->
     form_shown (trace (app env)) = form_elements /\
     ~ In (Call_predict X) (trace (app env)) /\
     (Exception e = true ->
      snd (app env) = Done tt /\
      exists before,
        trace (app env) =
          (before
             ++ [ Render Main (error ("❌ Prediction failed: " ++ exn_str e));
                  Render Main
                    (error "Please check your input values and try again") ]
             ++ trace sidebar)%list) /\
     (Exception e = false ->
      snd (app env) = Raised e /\
      filter is_error (rendered (trace (app env))) = [] /\
      sidebar_shown (trace (app env)) = [])).
Proof.
  pose proof (proba_path_no_predict _ _ _ _ Hproba) as Hcalls.
  destruct (proba_path_calls _ _ _ _ Hproba) as [_ Hrendered].
  pose proof (infer_on_exception _ _ _ _ Hproba) as Hinf.
  split; intros Hcls; rewrite Hcls in Hinf.
  - split; [exact Hinf |]. intros g Hg. rewrite Hinf.
    unfold trace at 1. cbn [fst]. apply in_or_app. right.
    unfold predict_path, trace. rewrite Hg. script_unfold. simpl.
    repeat step_script; now left.
  - split; [exact Hinf |]. split; [now rewrite Hinf |].
    intros env Himp Hload Hclick ->.
    split; [now apply (app_shows_form env model) |].
    destruct (app_loaded env model Himp Hload)
      as (header & Hheader & Hnone & Hnoerr & Hnoside & Happ).
    unfold on_click in Happ. rewrite Hclick in Happ.
    assert (Hheader' : ~ In (Call_predict (form_record (widget_state env)))
                         header).
    { intros Hin. apply Call_predict_model_inputs in Hin.
      now rewrite Hnone in Hin. }
    destruct (Exception e) eqn:He.
    + rewrite (predict_handler_failure _ _ _ _ _
                 (form_record_projected _) Hinf He) in Happ.
      unfold trace at 1 in Happ. cbn [fst snd] in Happ. rewrite Happ.
      split; [| split; [| discriminate]].
      * unfold trace at 1. cbn [fst]. intros Hin.
        apply in_app_or in Hin. destruct Hin as [Hin | Hin];
          [now apply Hheader' |].
        destruct Hin as [Hin | Hin]; [discriminate Hin |].
        destruct Hin as [Hin | Hin]; [discriminate Hin |].
        apply in_app_or in Hin. destruct Hin as [Hin | Hin].
        -- apply in_app_or in Hin. destruct Hin as [Hin | Hin];
             [now apply Hcalls |].
           simpl in Hin. intuition discriminate.
        -- now apply (sidebar_no_predict _ Hin).
      * intros _. split; [reflexivity |].
        exists (header ++ Render Main (button "Predict Risk" "primary")
                  :: Render Main (spinner "Calculating risk...") :: calls)%list.
        unfold trace at 1. cbn [fst].
        rewrite <- !app_assoc. simpl. rewrite <- !app_assoc. reflexivity.
    + rewrite (predict_handler_escape _ _ _ _ _
                 (form_record_projected _) Hinf He) in Happ.
      unfold trace at 1 in Happ. cbn [fst snd] in Happ. rewrite Happ.
      split; [| split; [discriminate |]].
      * unfold trace at 1. cbn [fst]. intros Hin.
        apply in_app_or in Hin. destruct Hin as [Hin | Hin];
          [now apply Hheader' |].
        destruct Hin as [Hin | Hin]; [discriminate Hin |].
        destruct Hin as [Hin | Hin]; [discriminate Hin |].
        now apply Hcalls.
      * intros _. split; [reflexivity |]. unfold trace. cbn [fst].
        change (?a :: ?b :: calls) with ([a; b] ++ calls)%list.
        split.
        -- rewrite !rendered_app, !filter_app, Hnoerr, Hrendered. reflexivity.
        -- unfold sidebar_shown in *. rewrite !filter_app, Hnoside.
           destruct (proba_path_calls _ _ _ _ Hproba) as [Hall _].
           simpl. clear - Hall. induction Hall as [| ev t <- _ IH];
             [reflexivity | exact IH].
Qed.

Lemma fallback_only_on_AttributeError_witness :
  proba_path (failing_model ValueError) default_record
  = ([Call_predict_proba default_record],
     Raised (Exn ValueError "predict_proba failed")) /\
  infer (failing_model ValueError) default_record
  = ([Call_predict_proba default_record],
     Raised (Exn ValueError "predict_proba failed")) /\
  snd (app (env_of (failing_model ValueError) true)) = Done tt /\
  form_shown (trace (app (env_of (failing_model ValueError) true)))
  = form_elements /\
  infer (failing_model AttributeError) default_record
  = ([Call_predict_proba default_record; Call_predict default_record],
     Done (PyInt 0)).
Proof.
  split; [reflexivity |].
  destruct (fallback_only_on_AttributeError (failing_model ValueError)
              default_record [Call_predict_proba default_record]
              (Exn ValueError "predict_proba failed") eq_refl)
    as [_ Hother].
  destruct (Hother eq_refl) as (Hinf & _ & Happ).
  destruct (Happ (env_of (failing_model ValueError) true)
              eq_refl eq_refl eq_refl eq_refl) as (Hform & _ & Hcaught & _).
  destruct (Hcaught eq_refl) as [Hdone _].
  split; [exact Hinf |]. split; [exact Hdone |]. split; [exact Hform |].
  apply (fallback_only_on_AttributeError (failing_model AttributeError)
           default_record [Call_predict_proba default_record]
           (Exn AttributeError "predict_proba failed"));
    reflexivity.
Defined.

(** ** Ranking the importances *)

Lemma insert_desc_perm (r : importance_row) (l : list importance_row) :
  Permutation (insert_desc r l) (r :: l).
Proof.
  induction l as [| r' l IH]; simpl; [reflexivity |].
  destruct (snd r' <=? snd r)%float; [reflexivity |].
  rewrite IH. apply perm_swap.
Qed.

Lemma insertion_perm (l : list importance_row) :
  Permutation (fold_right insert_desc [] l) l.
Proof.
  induction l as [| r l IH]; simpl; [reflexivity |].
  rewrite insert_desc_perm. now constructor.
Qed.

Lemma filter_split_perm {A : Type} (f : A -> bool) (l : list A) :
  Permutation (filter (fun x => negb (f x)) l ++ filter f l) l.
Proof.
  induction l as [| x l IH]; simpl; [reflexivity |].
  destruct (f x); simpl.
  - rewrite <- Permutation_middle. now constructor.
  - now constructor.
Qed.

Lemma sort_values_desc_perm (rows : list importance_row) :
  Permutation (sort_values_desc rows) rows.
Proof.
  unfold sort_values_desc. rewrite insertion_perm.
  apply (filter_split_perm (fun r => is_nan (snd r))).
Qed.

Lemma weight_ge_trans (a b c : importance_row) :
  weight_ge a b -> weight_ge b c -> weight_ge a c.
Proof. unfold weight_ge. intros Hab Hbc. eapply FloatOrder.leb_trans; eauto. Qed.

Lemma insert_desc_sorted (r : importance_row) (l : list importance_row) :
  is_nan (snd r) = false ->
  Forall (fun x => is_nan (snd x) = false) l ->
  StronglySorted weight_ge l ->
  StronglySorted weight_ge (insert_desc r l).
Proof.
  intros Hr Hl Hs. induction Hs as [| r' l Hs IH Hall]; simpl.
  - repeat constructor.
  - inversion Hl as [| ? ? Hr' Hl']; subst.
    destruct (snd r' <=? snd r)%float eqn:E.
    + constructor; [now constructor |].
      constructor; [exact E |].
      eapply Forall_impl; [| exact Hall].
      intros x Hx. now apply (weight_ge_trans r r' x).
    + constructor; [now apply IH |].
      eapply Permutation_Forall;
        [apply Permutation_sym, insert_desc_perm |].
      constructor; [| exact Hall].
      unfold weight_ge. now apply FloatOrder.leb_total.
Qed.

Lemma insertion_sorted (l : list importance_row) :
  Forall (fun x => is_nan (snd x) = false) l ->
  StronglySorted weight_ge (fold_right insert_desc [] l).
Proof.
  induction 1 as [| r l Hr Hl IH]; simpl; [constructor |].
  apply insert_desc_sorted; [exact Hr | | exact IH].
  eapply Permutation_Forall; [apply Permutation_sym, insertion_perm | exact Hl].
Qed.

Lemma StronglySorted_app {A : Type} (R : A -> A -> Prop) (l l' : list A) :
  StronglySorted R l -> StronglySorted R l' ->
  (forall a b, In a l -> In b l' -> R a b) ->
  StronglySorted R (l ++ l').
Proof.
  intros Hl Hl' Hcross. induction Hl as [| a l Hl IH Ha]; simpl; [exact Hl' |].
  constructor.
  - apply IH. intros x y Hx Hy. apply Hcross; [now right | exact Hy].
  - apply Forall_app. split; [exact Ha |].
    apply Forall_forall. intros y Hy. apply Hcross; [now left | exact Hy].
Qed.

Lemma all_nan_sorted (l : list importance_row) :
  Forall (fun x => is_nan (snd x) = true) l -> StronglySorted ranks_before l.
Proof.
  induction 1 as [| r l Hr Hl IH]; constructor; [exact IH |].
  eapply Forall_impl; [| exact Hl]. intros x Hx. now left.
Qed.

(** The ranked table is in decreasing order of weight, NaN weights last. *)
Lemma sort_values_desc_sorted (rows : list importance_row) :
  StronglySorted ranks_before (sort_values_desc rows).
Proof.
  unfold sort_values_desc. apply StronglySorted_app.
  - assert (H : StronglySorted weight_ge
                  (fold_right insert_desc []
                     (filter (fun r => negb (is_nan (snd r))) rows))).
    { apply insertion_sorted. apply Forall_forall. intros x Hx.
      apply filter_In in Hx. destruct Hx as [_ Hx].
      now destruct (is_nan (snd x)). }
    induction H as [| a l _ IH Ha]; constructor; [exact IH |].
    eapply Forall_impl; [| exact Ha]. intros x Hx. now right.
  - apply all_nan_sorted. apply Forall_forall. intros x Hx.
    apply filter_In in Hx. now destruct Hx.
  - intros a b _ Hb. apply filter_In in Hb. left. now destruct Hb.
Qed.

(** Without NaN weights the order is plainly decreasing. *)
Lemma sort_values_desc_decreasing (rows : list importance_row) :
  Forall (fun r => is_nan (snd r) = false) rows ->
  StronglySorted weight_ge (sort_values_desc rows).
Proof.
  intros Hrows. unfold sort_values_desc.
  replace (filter (fun r => is_nan (snd r)) rows) with (@nil importance_row).
  - rewrite app_nil_r. apply insertion_sorted. apply Forall_forall.
    intros x Hx. apply filter_In in Hx. destruct Hx as [_ Hx].
    now destruct (is_nan (snd x)).
  - symmetry. induction Hrows as [| r l Hr _ IH]; simpl; [reflexivity |].
    now rewrite Hr.
Qed.


(** ** The importance reporter *)

Lemma get_importance_source (model : Model) (importance : list float) :
  importance_source model importance -> get_importance model = Ok importance.
Proof.
  unfold get_importance.
  intros [Hfi | (Hno & rows & Hcoef)].
  - now rewrite Hfi.
  - rewrite Hno, Hcoef. reflexivity.
Qed.

Lemma get_importance_neither (model : Model) :
  hasattr (feature_importances_ model) = Ok false ->
  hasattr (coef_ model) = Ok false ->
  get_importance model
  = Err (Exn AttributeError "Feature importance not available").
Proof. unfold get_importance. now intros -> ->. Qed.

(** C6. After a successful prediction, when the model has neither
    [feature_importances_] nor [coef_], or building the importance table
    raises an instance of [Exception], the handler still ends normally: what it rendered for the
    prediction stays, followed by the importance heading, one warning that
    quotes the exception, and an information note.  With neither attribute
    the exception quoted is the script's own AttributeError. *)
Theorem importance_unavailable_is_a_warning (model : Model) (inputs : dict Z)
    (X : DataFrame) (calls shown : list event) (v : pyval)
    (HX : select_columns inputs (keys VARIABLE_CONFIG) = Ok X)
    (Hinf : infer model X = (calls, Done v))
    (Hshow : show_result v = (shown, Done tt))
    (Hnone : importance_unavailable model) :
  exists e,
    importance_df model (keys VARIABLE_CONFIG) = Err e /\
    predict_handler model inputs =
      ((Render Main (spinner "Calculating risk...") :: calls ++ shown
          ++ [ Render Main (markdown "---" false);
               Render Main (subheader "Key Risk Factors");
               Render Main
                 (warning ("⚠️ Feature importance not available: "
                             ++ exn_str e));
               Render Main
                 (info "The model does not provide feature importance data") ])%list,
       Done tt) /\
    Forall (fun el => is_error el = false)
           (rendered (trace (predict_handler model inputs))) /\
    (hasattr (feature_importances_ model) = Ok false ->
     hasattr (coef_ model) = Ok false ->
     e = Exn AttributeError "Feature importance not available").
Proof.
  assert (He : exists e, importance_df model (keys VARIABLE_CONFIG) = Err e /\
                         Exception e = true).
  { destruct Hnone as [[Hfi Hcoef] | He]; [| exact He].
    eexists. unfold importance_df.
    rewrite (get_importance_neither _ Hfi Hcoef). split; reflexivity. }
  destruct He as (e & He & Hcaught). exists e.
  assert (Hrun : predict_handler model inputs =
      ((Render Main (spinner "Calculating risk...") :: calls ++ shown
          ++ [ Render Main (markdown "---" false);
               Render Main (subheader "Key Risk Factors");
               Render Main
                 (warning ("⚠️ Feature importance not available: "
                             ++ exn_str e));
               Render Main
                 (info "The model does not provide feature importance data") ])%list,
       Done tt)).
  { rewrite (predict_handler_success _ _ _ _ _ _ HX Hinf Hshow).
    now rewrite (importance_report_Err _ _ _ He Hcaught). }
  split; [exact He |]. split; [exact Hrun |]. split.
  - rewrite (predict_handler_success _ _ _ _ _ _ HX Hinf Hshow).
    unfold trace at 1. cbn [fst].
    change (?a :: calls ++ ?l) with ([a] ++ calls ++ l)%list.
    rewrite !rendered_app.
    apply Forall_app; split; [| apply Forall_app; split;
                                  [| apply Forall_app; split]].
    + repeat constructor.
    + destruct (infer_calls model X) as (_ & _ & H). rewrite Hinf in H.
      unfold trace in H. simpl in H. clear - H.
      induction H as [| ev t [-> | ->] _ IH]; simpl; auto.
    + clear - Hshow. revert Hshow. unfold show_result, risk_level, color.
      destruct v; script_unfold; simpl; repeat step_script;
        intros [= <-]; repeat constructor.
    + apply importance_report_outcome.
  - intros Hfi Hcoef. unfold importance_df in He.
    rewrite (get_importance_neither _ Hfi Hcoef) in He. simpl in He.
    congruence.
Qed.

Lemma importance_unavailable_is_a_warning_witness :
  importance_unavailable (stub_model 0.73) /\
  exists e,
    importance_df (stub_model 0.73) (keys VARIABLE_CONFIG) = Err e /\
    predict_handler (stub_model 0.73) default_record =
      ((Render Main (spinner "Calculating risk...")
          :: [Call_predict_proba default_record]
          ++ trace (show_result (PyFloat 0.73))
          ++ [ Render Main (markdown "---" false);
               Render Main (subheader "Key Risk Factors");
               Render Main
                 (warning ("⚠️ Feature importance not available: "
                             ++ exn_str e));
               Render Main
                 (info "The model does not provide feature importance data") ])%list,
       Done tt) /\
    Forall (fun el => is_error el = false)
           (rendered (trace (predict_handler (stub_model 0.73) default_record))) /\
    (hasattr (feature_importances_ (stub_model 0.73)) = Ok false ->
     hasattr (coef_ (stub_model 0.73)) = Ok false ->
     e = Exn AttributeError "Feature importance not available").
Proof.
  assert (H : importance_unavailable (stub_model 0.73))
    by (left; split; reflexivity).
  split; [exact H |].
  apply (importance_unavailable_is_a_warning (stub_model 0.73) default_record
           default_record [Call_predict_proba default_record]
           (trace (show_result (PyFloat 0.73))) (PyFloat 0.73));
    [reflexivity | reflexivity | reflexivity | exact H].
Defined.

(** C7. After a successful prediction, with an importance vector taken
    from [feature_importances_] or else from the first row of [coef_], one
    weight per schema parameter, the reporter pairs the schema's names with
    the weights position by position, reorders the pairs by decreasing
    weight, and renders the ranked table as a bar chart and as a table. *)
Theorem importance_ranking (model : Model) (inputs : dict Z)
    (X : DataFrame) (calls shown : list event) (v : pyval)
    (importance : list float)
    (HX : select_columns inputs (keys VARIABLE_CONFIG) = Ok X)
    (Hinf : infer model X = (calls, Done v))
    (Hshow : show_result v = (shown, Done tt))
    (Hsrc : importance_source model importance)
    (Hlen : length importance = length (keys VARIABLE_CONFIG)) :
  get_importance model = Ok importance /\
  exists ranked,
    importance_df model (keys VARIABLE_CONFIG) = Ok ranked /\
    Permutation ranked (combine (keys VARIABLE_CONFIG) importance) /\
    StronglySorted ranks_before ranked /\
    (Forall (fun w => is_nan w = false) importance ->
     StronglySorted weight_ge ranked) /\
    predict_handler model inputs =
      ((Render Main (spinner "Calculating risk...") :: calls ++ shown
          ++ [ Render Main (markdown "---" false);
               Render Main (subheader "Key Risk Factors");
               Render Main (bar_chart ranked);
               Render Main (dataframe ranked) ])%list,
       Done tt).
Proof.
  pose proof (get_importance_source _ _ Hsrc) as Hget.
  split; [exact Hget |].
  assert (Hdf : importance_df model (keys VARIABLE_CONFIG) =
                Ok (sort_values_desc (combine (keys VARIABLE_CONFIG) importance))).
  { unfold importance_df, importance_frame. rewrite Hget. cbn [rbind].
    rewrite Hlen, Nat.eqb_refl. reflexivity. }
  eexists. split; [exact Hdf |]. split; [apply sort_values_desc_perm |].
  split; [apply sort_values_desc_sorted |]. split.
  - intros Hnum. apply sort_values_desc_decreasing.
    apply Forall_forall. intros [name w] Hin. apply in_combine_r in Hin.
    simpl. revert w Hin. now apply Forall_forall.
  - rewrite (predict_handler_success _ _ _ _ _ _ HX Hinf Hshow).
    now rewrite (importance_report_Ok _ _ _ Hdf).
Qed.

Lemma importance_ranking_witness :
  importance_source linear_model
    [0.5; -0.25; 1.5; 0; 0.125; -1; 2; 0.375; 0.75; -0.5; 0.25]%float /\
  importance_df linear_model (keys VARIABLE_CONFIG) =
    Ok [ ("diabetes", 2); ("tumor location", 1.5);
         ("Functional dependencies", 0.75); ("Sex", 0.5); ("CHF", 0.375);
         ("Type of tumor", 0.25); ("Admitted to NICU", 0.125);
         ("Benign or malignant", 0); ("ASA scores", -0.25);
         ("mFI-5", -0.5); ("Duration of surgery", -1) ]%float /\
  get_importance linear_model
  = Ok [0.5; -0.25; 1.5; 0; 0.125; -1; 2; 0.375; 0.75; -0.5; 0.25]%float.
Proof.
  assert (H : importance_source linear_model
                [0.5; -0.25; 1.5; 0; 0.125; -1; 2; 0.375; 0.75; -0.5; 0.25]%float).
  { right. split; [reflexivity |]. now exists []. }
  split; [exact H |]. split; [reflexivity |].
  apply (importance_ranking linear_model default_record default_record
           [Call_predict_proba default_record]
           (trace (show_result (PyFloat 0.75))) (PyFloat 0.75)
           [0.5; -0.25; 1.5; 0; 0.125; -1; 2; 0.375; 0.75; -0.5; 0.25]%float);
    [reflexivity | reflexivity | reflexivity | exact H | reflexivity].
Defined.

(** ** The displayed percentage *)

Lemma append_assoc (a b c : string) : (a ++ b) ++ c = a ++ b ++ c.
Proof. induction a as [| x a IH]; simpl; [reflexivity | now rewrite IH]. Qed.

Lemma string_of_uint_digits (u : Decimal.uint) :
  all_digits (NilEmpty.string_of_uint u) = true.
Proof. induction u; simpl; auto. Qed.

Lemma decimal_digits (n : Z) :
  decimal n <> "" /\ all_digits (decimal n) = true.
Proof.
  unfold decimal, NilZero.string_of_uint.
  destruct (N.to_uint (Z.to_N n)) eqn:E;
    (split; [simpl; discriminate | try reflexivity]);
    rewrite <- E at 1; try apply string_of_uint_digits;
    simpl; apply string_of_uint_digits.
Qed.

Lemma decimal_one_digit (r : Z) :
  (0 <= r < 10)%Z ->
  exists c, decimal r = String c "" /\ is_digit c = true.
Proof.
  intros H.
  assert (Hr : (r = 0 \/ r = 1 \/ r = 2 \/ r = 3 \/ r = 4 \/ r = 5 \/ r = 6
                \/ r = 7 \/ r = 8 \/ r = 9)%Z) by lia.
  repeat (destruct Hr as [-> | Hr]); try subst r;
    eexists; split; reflexivity.
Qed.

Lemma fixed1_shape (neg : bool) (t : Z) :
  one_decimal_percent (fixed1 neg t ++ "%").
Proof.
  unfold fixed1.
  destruct (decimal_digits (t / 10)) as [Hne Hall].
  destruct (decimal_one_digit (t mod 10)) as (c & Hc & Hd).
  { apply Z.mod_pos_bound. lia. }
  exists (if neg then "-" else ""), (decimal (t / 10)), c.
  rewrite Hc. repeat split; try assumption.
  - rewrite !append_assoc. reflexivity.
  - destruct neg; auto.
Qed.

(** Whenever [100 * x] is a finite number, it is displayed with one
    decimal. *)
Lemma format_one_decimal (x : float) :
  percent_is_finite x = true -> one_decimal_percent (format_float_pct1 x).
Proof.
  unfold percent_is_finite, format_float_pct1.
  destruct (Prim2SF (x * 100)%float); try discriminate; intros _;
    apply fixed1_shape.
Qed.

(** The tenths displayed are the nearest ones. *)
Lemma tenths_nearest (m : positive) (e : Z) : nearest_tenths m e (tenths m e).
Proof.
  unfold nearest_tenths, tenths, div_half_even.
  destruct (0 <=? e)%Z eqn:E; [reflexivity |].
  apply Z.leb_gt in E.
  assert (Hd : (0 < 2 ^ (- e))%Z) by (apply Z.pow_pos_nonneg; lia).
  set (d := (2 ^ (- e))%Z) in *. set (n := (10 * Z.pos m)%Z).
  pose proof (Z.div_mod n d ltac:(lia)) as Hdm.
  pose proof (Z.mod_pos_bound n d Hd) as Hr.
  set (q := (n / d)%Z) in *. set (r := (n mod d)%Z) in *.
  destruct (Z.compare_spec (2 * r) d) as [Heq | Hlt | Hgt].
  - destruct (Z.even q); nia.
  - nia.
  - nia.
Qed.

(** ** Reading the percentage back *)

Lemma of_uint_acc_value (d : Decimal.uint) (acc : positive) :
  Z.pos (Pos.of_uint_acc d acc) = uint_value (Z.pos acc) d.
Proof.
  revert acc. induction d; intros acc; cbn [Pos.of_uint_acc uint_value];
    [reflexivity | rewrite IHd; f_equal; lia ..].
Qed.

Lemma of_uint_value (d : Decimal.uint) :
  Z.of_N (N.of_uint d) = uint_value 0 d.
Proof.
  unfold N.of_uint.
  induction d; cbn [Pos.of_uint uint_value]; [reflexivity | exact IHd | ..];
    cbn [Z.of_N]; rewrite of_uint_acc_value; reflexivity.
Qed.

Lemma read_whole_numeral (d : Decimal.uint) (acc : Z) (rest : string) :
  read_whole acc (NilEmpty.string_of_uint d ++ String "." rest)
  = Some (uint_value acc d, rest).
Proof.
  revert acc. induction d; intros acc;
    cbn [NilEmpty.string_of_uint append uint_value];
    [reflexivity | cbn [read_whole]; exact (IHd _) ..].
Qed.

(** A number is read back from its decimal digits. *)
Lemma read_whole_decimal (w : Z) (rest : string) :
  (0 <= w)%Z ->
  read_whole 0 (decimal w ++ String "." rest) = Some (w, rest).
Proof.
  intros Hw. unfold decimal, NilZero.string_of_uint.
  assert (Hv : uint_value 0 (N.to_uint (Z.to_N w)) = w).
  { rewrite <- of_uint_value, DecimalN.Unsigned.of_to. lia. }
  destruct (N.to_uint (Z.to_N w)) eqn:E;
    [cbn in Hv; subst w; reflexivity | ..];
    rewrite read_whole_numeral; now rewrite Hv.
Qed.

Lemma decimal_head (w : Z) :
  exists c s, decimal w = String c s /\ is_digit c = true.
Proof.
  destruct (decimal_digits w) as [Hne Hall].
  destruct (decimal w) as [| c s]; [now elim Hne |].
  exists c, s. split; [reflexivity |].
  simpl in Hall. now apply andb_prop in Hall.
Qed.

Lemma decimal_digit_of (r : Z) :
  (0 <= r < 10)%Z ->
  exists c, decimal r = String c "" /\ digit_of c = Some r.
Proof.
  intros H.
  assert (Hr : (r = 0 \/ r = 1 \/ r = 2 \/ r = 3 \/ r = 4 \/ r = 5 \/ r = 6
                \/ r = 7 \/ r = 8 \/ r = 9)%Z) by lia.
  repeat (destruct Hr as [-> | Hr]); try subst r;
    eexists; split; reflexivity.
Qed.

(** The text of a count of tenths reads back as that count. *)
Lemma percent_tenths_fixed1 (neg : bool) (t : Z) :
  (0 <= t)%Z -> percent_tenths (fixed1 neg t ++ "%") = Some (neg, t).
Proof.
  intros Ht. unfold fixed1.
  destruct (decimal_digit_of (t mod 10)) as (d & Hd & Hval).
  { apply Z.mod_pos_bound. lia. }
  assert (Hw : (0 <= t / 10)%Z) by (apply Z.div_pos; lia).
  pose proof (read_whole_decimal (t / 10) (String d "%") Hw) as Hread.
  destruct (decimal_head (t / 10)) as (c & s & Hc & Hdigit).
  assert (Hminus : Ascii.eqb c "-" = false).
  { destruct (Ascii.eqb_spec c "-"%char) as [-> |]; [discriminate | reflexivity]. }
  assert (Htext : ((if neg then "-" else "") ++ decimal (t / 10) ++ "."
                     ++ decimal (t mod 10)) ++ "%"
                  = (if neg then "-" else "")
                      ++ decimal (t / 10) ++ String "." (String d "%")).
  { rewrite Hd, !append_assoc. reflexivity. }
  rewrite Htext. rewrite Hc in Hread |- *.
  unfold percent_tenths.
  cbn [append] in Hread.
  destruct neg; cbn [append]; [change (Ascii.eqb "-" "-") with true
                              | rewrite Hminus];
    cbv iota beta; rewrite Hdigit, Hread; cbv iota beta; rewrite Hval;
    change (String.eqb "%" "%") with true; cbv iota;
    f_equal; f_equal; pose proof (Z.div_mod t 10); lia.
Qed.

Lemma tenths_nonneg (m : positive) (e : Z) : (0 <= tenths m e)%Z.
Proof.
  unfold tenths, div_half_even. destruct (0 <=? e)%Z eqn:E.
  - apply Z.leb_le in E. pose proof (Z.pow_nonneg 2 e). nia.
  - apply Z.leb_gt in E.
    assert (Hd : (0 < 2 ^ (- e))%Z) by (apply Z.pow_pos_nonneg; lia).
    pose proof (Z.div_pos (10 * Z.pos m) (2 ^ (- e)) ltac:(lia) Hd).
    destruct (2 * _ ?= _)%Z; [destruct (Z.even _) | |]; lia.
Qed.

(** The tenths displayed are the only nearest ones, except at a tie, where
    they are the even ones of the two. *)
Lemma tenths_unique (m : positive) (e t : Z) :
  nearest_tenths m e t ->
  t = tenths m e \/ (Z.even (tenths m e) = true /\ Z.even t = false).
Proof.
  unfold nearest_tenths, tenths, div_half_even.
  destruct (0 <=? e)%Z eqn:E; [now left |].
  apply Z.leb_gt in E.
  assert (Hd : (0 < 2 ^ (- e))%Z) by (apply Z.pow_pos_nonneg; lia).
  set (d := (2 ^ (- e))%Z) in *. set (n := (10 * Z.pos m)%Z).
  pose proof (Z.div_mod n d ltac:(lia)) as Hdm.
  pose proof (Z.mod_pos_bound n d Hd) as Hr.
  set (q := (n / d)%Z) in *. set (r := (n mod d)%Z) in *.
  intros Ht.
  assert (Hlo : (q <= t)%Z) by nia.
  assert (Hhi : (t <= q + 1)%Z) by nia.
  assert (Hcases : t = q \/ t = (q + 1)%Z) by lia.
  destruct (Z.compare_spec (2 * r) d) as [Heq | Hlt | Hgt].
  - destruct (Z.even q) eqn:Hq; destruct Hcases as [-> | ->];
      try (now left); right.
    + split; [exact Hq |]. rewrite Z.even_add, Hq. reflexivity.
    + split; [rewrite Z.even_add, Hq; reflexivity | exact Hq].
  - left. destruct Hcases as [-> | ->]; [reflexivity | nia].
  - left. destruct Hcases as [-> | ->]; [nia | reflexivity].
Qed.

(** ** A probability times 100 stays finite *)

Module PercentRange.

Local Open Scope Z_scope.

Lemma digits2_size p : digits2_pos p = Pos.size p.
Proof. induction p; simpl; congruence. Qed.

Lemma Zdigits2_bound (m k : Z) : 0 <= m < 2 ^ k -> 0 <= k -> Zdigits2 m <= k.
Proof.
  intros [H0 H] Hk. destruct m as [| p | p]; simpl; try lia.
  rewrite digits2_size.
  pose proof (Pos.size_le p) as Hs.
  assert (Z.pos (2 ^ Pos.size p) <= Z.pos p~0) by exact Hs.
  rewrite Pos2Z.inj_pow in H1. 
  destruct (Z_lt_le_dec k (Z.pos (Pos.size p))); [| lia].
  exfalso. assert (2 ^ (k + 1) <= 2 ^ Z.pos (Pos.size p)) by (apply Z.pow_le_mono_r; lia).
  rewrite Z.pow_add_r in H2 by lia. lia.
Qed.

Lemma Zdigits2_nonneg m : 0 <= Zdigits2 m.
Proof. destruct m; simpl; lia. Qed.

Lemma shr_1_bound mrs : 0 <= shr_m mrs -> 0 <= shr_m (shr_1 mrs) <= shr_m mrs.
Proof.
  destruct mrs as [m r s]. simpl. destruct m as [| [p | p |] | p]; simpl; lia.
Qed.

Lemma iter_shr_1_bound n mrs :
  0 <= shr_m mrs -> 0 <= shr_m (SpecFloat.iter_pos shr_1 n mrs) <= shr_m mrs.
Proof.
  revert mrs. induction n as [n IH | n IH |]; intros mrs H; simpl.
  - pose proof (shr_1_bound mrs H) as H1.
    pose proof (IH (shr_1 mrs) (proj1 H1)) as H2.
    pose proof (IH _ (proj1 H2)) as H3. lia.
  - pose proof (IH mrs H) as H2.
    pose proof (IH _ (proj1 H2)) as H3. lia.
  - now apply shr_1_bound.
Qed.

Lemma shr_bound mrs e n :
  0 <= shr_m mrs ->
  0 <= shr_m (fst (shr mrs e n)) <= shr_m mrs /\
  snd (shr mrs e n) = (if 0 <? n then e + n else e).
Proof.
  intros H. unfold shr. destruct n; simpl; try (split; [lia | reflexivity]).
  split; [now apply iter_shr_1_bound | reflexivity].
Qed.

Lemma fexp_le k b : k - prec <= b -> emin <= b -> fexp prec emax k <= b.
Proof. unfold fexp. intros. change (IntDef.Z.max) with Z.max. lia. Qed.

Lemma shr_fexp_bound m e l :
  0 <= m ->
  0 <= shr_m (fst (shr_fexp prec emax m e l)) <= m /\
  (snd (shr_fexp prec emax m e l) = e \/
   snd (shr_fexp prec emax m e l) = fexp prec emax (Zdigits2 m + e)).
Proof.
  intros H. unfold shr_fexp.
  assert (H0 : 0 <= shr_m (shr_record_of_loc m l)).
  { destruct l as [| []]; simpl; lia. }
  assert (Hm : shr_m (shr_record_of_loc m l) = m).
  { destruct l as [| []]; reflexivity. }
  destruct (shr_bound (shr_record_of_loc m l) e
              (fexp prec emax (Zdigits2 m + e) - e) H0) as [Hb He].
  rewrite Hm in Hb. split; [exact Hb |]. rewrite He.
  destruct (0 <? _); [right; lia | now left].
Qed.

Lemma round_nearest_even_bound m l :
  0 <= m -> m <= round_nearest_even m l <= m + 1.
Proof.
  intros H. unfold round_nearest_even. destruct l as [| []]; try lia.
  destruct (IntDef.Z.even m); lia.
Qed.

(** Rounding a product below [2^106 * 2^-98] to binary64 does not
    overflow. *)
Lemma binary_round_aux_finite (s : bool) (m e : Z) :
  0 < m < 2 ^ 106 -> e <= -98 ->
  match binary_round_aux prec emax s m e loc_Exact with
  | S754_zero _ | S754_finite _ _ _ => true
  | _ => false
  end = true.
Proof.
  intros Hm He. unfold binary_round_aux.
  destruct (shr_fexp_bound m e loc_Exact ltac:(lia)) as [Hb1 He1].
  destruct (shr_fexp prec emax m e loc_Exact) as [mrs' e'].
  cbn [fst snd] in *.
  assert (Hd : Zdigits2 m <= 106) by (apply Zdigits2_bound; lia).
  pose proof (Zdigits2_nonneg m) as Hd0.
  assert (He' : e' <= -45).
  { destruct He1 as [-> | ->]; [lia |]. apply fexp_le; unfold emin, SpecFloat.emin, prec, emax; lia. }
  set (m' := round_nearest_even (shr_m mrs') (loc_of_shr_record mrs')).
  pose proof (round_nearest_even_bound (shr_m mrs') (loc_of_shr_record mrs') (proj1 Hb1)) as Hr.
  fold m' in Hr.
  destruct (shr_fexp_bound m' e' loc_Exact ltac:(lia)) as [Hb2 He2].
  destruct (shr_fexp prec emax m' e' loc_Exact) as [mrs'' e''].
  cbn [fst snd] in *.
  assert (Hd' : Zdigits2 m' <= 107) by (apply Zdigits2_bound; lia).
  assert (He'' : e'' <= emax - prec).
  { destruct He2 as [-> | ->]; [unfold prec, emax; lia |].
    apply fexp_le; unfold emin, SpecFloat.emin, prec, emax; lia. }
  destruct (shr_m mrs'') eqn:E; try reflexivity; [| lia].
  apply Z.leb_le in He''. now rewrite He''.
Qed.

Lemma valid_mantissa (s : bool) (m : positive) (e : Z) :
  valid_binary (S754_finite s m e) = true -> Z.pos m < 2 ^ 53.
Proof.
  simpl. unfold bounded, canonical_mantissa. intros H.
  apply andb_prop in H. destruct H as [H _].
  apply Z.eqb_eq in H. unfold fexp in H.
  change IntDef.Z.max with Z.max in H. rewrite digits2_size in H.
  assert (Hd : Z.pos (Pos.size m) <= 53) by (unfold prec in H; lia).
  pose proof (Pos.size_gt m) as Hs.
  assert (Hs' : Z.pos m < Z.pos (2 ^ Pos.size m)) by exact Hs.
  rewrite Pos2Z.inj_pow in Hs'.
  assert (2 ^ Z.pos (Pos.size m) <= 2 ^ 53) by (apply Z.pow_le_mono_r; lia).
  lia.
Qed.

Lemma probability_percent_finite (p : float) :
  probability p = true -> percent_is_finite p = true.
Proof.
  unfold probability, percent_is_finite. intros H.
  apply andb_prop in H. destruct H as [H0 H1].
  rewrite FloatAxioms.leb_spec in H0, H1. rewrite FloatAxioms.mul_spec.
  pose proof (Prim2SF_valid p) as Hv.
  change (Prim2SF 0) with (S754_zero false) in H0.
  change (Prim2SF 1) with (S754_finite false 4503599627370496 (-52)) in H1.
  change (Prim2SF 100) with (S754_finite false 7036874417766400 (-46)).
  destruct (Prim2SF p) as [s | s | | s m e]; try discriminate.
  - reflexivity.
  - destruct s; discriminate.
  - destruct s; [discriminate |].
    unfold SF64mul, SFmul. apply (binary_round_aux_finite _ (Z.pos (m * 7036874417766400)) (e + -46)).
    + pose proof (valid_mantissa _ _ _ Hv). rewrite Pos2Z.inj_mul.
      change (2 ^ 106) with (2 ^ 53 * 2 ^ 53). change (2^53) with 9007199254740992 in *. nia.
    + unfold SFleb, SFcompare in H1. destruct (Z.compare_spec e (-52)); try discriminate; lia.
Qed.

End PercentRange.

(** C8. The schema's default record is the one of the scenario; on it a
    stub whose probability is 0.73 gives "High Risk" and "73.0%", and one
    whose probability is 0.5 gives "Low Risk" and "50.0%".  Every
    probability is displayed as a percentage with one decimal, the nearest
    one to 100 times the probability as the float multiplication gives it:
    read back digit by digit, the text displayed denotes a number of
    tenths of a percent that differs from that product by at most a
    twentieth, and at a tie between two such numbers it is the even one
    (0.285 is shown as "28.5%", 0.0625 as "6.2%", 0.1875 as "18.8%"). *)
Theorem stub_scenarios_and_percentage :
  default_record =
    [ ("Sex", 0); ("ASA scores", 2); ("tumor location", 2);
      ("Benign or malignant", 0); ("Admitted to NICU", 0);
      ("Duration of surgery", 0); ("diabetes", 0); ("CHF", 0);
      ("Functional dependencies", 0); ("mFI-5", 1); ("Type of tumor", 2) ]%Z /\
  (infer (stub_model 0.73) default_record
   = ([Call_predict_proba default_record], Done (PyFloat 0.73)) /\
   In (markdown "<h2 style='text-align: center; color: #FF4B4B;'>High Risk</h2>"
         true)
      (rendered (trace (predict_handler (stub_model 0.73) default_record))) /\
   In (write "### Reoperation Probability: 73.0%")
      (rendered (trace (predict_handler (stub_model 0.73) default_record)))) /\
  (infer (stub_model 0.5) default_record
   = ([Call_predict_proba default_record], Done (PyFloat 0.5)) /\
   In (markdown "<h2 style='text-align: center; color: #00CC96;'>Low Risk</h2>"
         true)
      (rendered (trace (predict_handler (stub_model 0.5) default_record))) /\
   In (write "### Reoperation Probability: 50.0%")
      (rendered (trace (predict_handler (stub_model 0.5) default_record)))) /\
  (forall p, probability p = true -> one_decimal_percent (format_float_pct1 p)) /\
  (forall p neg m e,
     Prim2SF (p * 100)%float = S754_finite neg m e ->
     format_float_pct1 p = fixed1 neg (tenths m e) ++ "%" /\
     nearest_tenths m e (tenths m e)) /\
  (forall p neg m e,
     Prim2SF (p * 100)%float = S754_finite neg m e ->
     exists t,
       percent_tenths (format_float_pct1 p) = Some (neg, t) /\
       nearest_tenths m e t /\
       forall t', nearest_tenths m e t' ->
                  t' = t \/ (Z.even t = true /\ Z.even t' = false)) /\
  (forall p neg,
     Prim2SF (p * 100)%float = S754_zero neg ->
     percent_tenths (format_float_pct1 p) = Some (neg, 0%Z)) /\
  (In (markdown "<h2 style='text-align: center; color: #00CC96;'>Low Risk</h2>"
         true)
      (rendered (trace (predict_handler (stub_model 0.285) default_record))) /\
   In (write "### Reoperation Probability: 28.5%")
      (rendered (trace (predict_handler (stub_model 0.285) default_record)))) /\
  format_float_pct1 0.0625 = "6.2%" /\
  format_float_pct1 0.1875 = "18.8%".
Proof.
  split; [reflexivity |].
  split; [split; [reflexivity | split; vm_compute; tauto] |].
  split; [split; [reflexivity | split; vm_compute; tauto] |].
  split; [| split; [| split; [| split; [| split; [| split]]]]].
  - intros p Hp. apply format_one_decimal.
    now apply PercentRange.probability_percent_finite.
  - intros p neg m e H. unfold format_float_pct1. rewrite H.
    split; [reflexivity | apply tenths_nearest].
  - intros p neg m e H. exists (tenths m e).
    unfold format_float_pct1. rewrite H.
    split; [apply percent_tenths_fixed1, tenths_nonneg |].
    split; [apply tenths_nearest | apply tenths_unique].
  - intros p neg H. unfold format_float_pct1. rewrite H.
    now destruct neg.
  - split; vm_compute; tauto.
  - vm_compute. reflexivity.
  - vm_compute. reflexivity.
Qed.

(** ** The fallback is not announced *)

(** C9, as stated, fails: here the fallback is taken, the class label 1 is
    shown as "100.0%", and the run renders no warning at all. *)
Lemma fallback_without_warning_example :
  In (Call_predict default_record)
     (trace (predict_handler label_model default_record)) /\
  In (write "### Reoperation Probability: 100.0%")
     (rendered (trace (predict_handler label_model default_record))) /\
  existsb is_warning
    (rendered (trace (predict_handler label_model default_record))) = false.
Proof. vm_compute. tauto. Qed.

(** C9, amended.  When the fallback is taken and the value [predict] gives
    can be thresholded and formatted, it is presented as the risk label and
    as a percentage, like a probability, and nothing announces the
    fallback: the run is the spinner, the calls on the model, the result
    panel and the importance report, and a warning among what is rendered
    can only be the importance reporter's.  The handler ends normally,
    provided that whatever the importance report raises is an instance of
    [Exception]. *)
Theorem fallback_presented_without_warning (model : Model) (inputs : dict Z)
    (X : DataFrame) (calls : list event) (e : exn)
    (g : DataFrame -> result (list pyval)) (v : pyval) (ys : list pyval)
    (risk pct : string)
    (HX : select_columns inputs (keys VARIABLE_CONFIG) = Ok X)
    (Hproba : proba_path model X = (calls, Raised e))
    (Hattr : is_AttributeError e = true)
    (Hpredict : predict model = Ok g)
    (Hys : g X = Ok (v :: ys))
    (Hrisk : risk_level v = Ok risk)
    (Hpct : format_pct1 v = Ok pct) :
  exists col,
    color v = Ok col /\
    trace (predict_handler model inputs) =
      (Render Main (spinner "Calculating risk...")
         :: (calls ++ [Call_predict X])
         ++ [ Render Main (markdown "---" false);
              Render Main (subheader "Prediction Results");
              Render Main
                (markdown ("<h2 style='text-align: center; color: " ++ col
                             ++ ";'>" ++ risk ++ "</h2>") true);
              Render Main (write ("### Reoperation Probability: " ++ pct)) ]
         ++ trace (importance_report model (keys VARIABLE_CONFIG)))%list /\
    ((forall e', importance_df model (keys VARIABLE_CONFIG) = Err e' ->
                 Exception e' = true) ->
     snd (predict_handler model inputs) = Done tt) /\
    forall el,
      In el (rendered (trace (predict_handler model inputs))) ->
      is_warning el = true ->
      exists e',
        importance_df model (keys VARIABLE_CONFIG) = Err e' /\
        el = warning ("⚠️ Feature importance not available: " ++ exn_str e').
Proof.
  pose proof (infer_falls_back _ _ _ _ _ _ _ Hproba Hattr Hpredict Hys) as Hinf.
  destruct (proba_path_calls _ _ _ _ Hproba) as [_ Hcalls].
  destruct (show_result_number v risk pct Hrisk Hpct) as (col & Hcol & Hshow).
  exists col. split; [exact Hcol |].
  pose proof (predict_handler_success _ _ _ _ _ _ HX Hinf Hshow) as Hrun.
  split; [now rewrite Hrun |].
  split; [intros Himp; rewrite Hrun; now apply importance_report_Done |].
  intros el Hin Hw. rewrite Hrun in Hin. unfold trace at 1 in Hin.
  cbn [fst] in Hin.
  change (?a :: ?l) with ([a] ++ l)%list in Hin at 1.
  rewrite !rendered_app, Hcalls in Hin.
  revert Hin. report_cases model (keys VARIABLE_CONFIG); intros Hin;
    simpl in Hin.
  - exfalso. repeat (destruct Hin as [<- | Hin]; [discriminate Hw |]).
    exact Hin.
  - match goal with
    | H : importance_df _ _ = Err ?x |- _ => exists x; split; [exact H |]
    end.
    repeat (destruct Hin as [<- | Hin];
            [first [discriminate Hw | reflexivity] |]).
    destruct Hin.
  - exfalso. repeat (destruct Hin as [<- | Hin]; [discriminate Hw |]).
    exact Hin.
Qed.

Lemma fallback_presented_without_warning_witness :
  proba_path label_model default_record
  = ([], Raised (Exn AttributeError
                   "'Labeller' object has no attribute 'predict_proba'")) /\
  risk_level (PyInt 1) = Ok "High Risk" /\
  format_pct1 (PyInt 1) = Ok "100.0%" /\
  exists col,
    color (PyInt 1) = Ok col /\
    trace (predict_handler label_model default_record) =
      (Render Main (spinner "Calculating risk...")
         :: ([] ++ [Call_predict default_record])
         ++ [ Render Main (markdown "---" false);
              Render Main (subheader "Prediction Results");
              Render Main
                (markdown ("<h2 style='text-align: center; color: " ++ col
                             ++ ";'>" ++ "High Risk" ++ "</h2>") true);
              Render Main
                (write ("### Reoperation Probability: " ++ "100.0%")) ]
         ++ trace (importance_report label_model (keys VARIABLE_CONFIG)))%list /\
    snd (predict_handler label_model default_record) = Done tt /\
    forall el,
      In el (rendered (trace (predict_handler label_model default_record))) ->
      is_warning el = true ->
      exists e',
        importance_df label_model (keys VARIABLE_CONFIG) = Err e' /\
        el = warning ("⚠️ Feature importance not available: " ++ exn_str e').
Proof.
  split; [reflexivity |]. split; [reflexivity |]. split; [reflexivity |].
  destruct (fallback_presented_without_warning label_model default_record
              default_record []
              (Exn AttributeError
                 "'Labeller' object has no attribute 'predict_proba'")
              (fun _ => Ok [PyInt 1]) (PyInt 1) [] "High Risk" "100.0%")
    as (col & Hcol & Htrace & Hdone & Hwarn); try reflexivity.
  exists col. split; [exact Hcol |]. split; [exact Htrace |].
  split; [| exact Hwarn].
  apply Hdone. intros e' He'. vm_compute in He'. discriminate He'.
Defined.

(** * Further properties of the script *)

(** ** How a run of the handler can go *)

(** The five ways through lines 123-181. *)
Lemma predict_handler_cases (model : Model) (inputs : dict Z) :
  (exists e,
     select_columns inputs (keys VARIABLE_CONFIG) = Err e /\
     predict_handler model inputs = (prediction_failed e, Done tt)) \/
  (exists X calls e,
     select_columns inputs (keys VARIABLE_CONFIG) = Ok X /\
     infer model X = (calls, Raised e) /\ Exception e = true /\
     predict_handler model inputs =
       ((Render Main (spinner "Calculating risk...") :: calls
           ++ prediction_failed e)%list, Done tt)) \/
  (exists X calls e,
     select_columns inputs (keys VARIABLE_CONFIG) = Ok X /\
     infer model X = (calls, Raised e) /\ Exception e = false /\
     predict_handler model inputs =
       (Render Main (spinner "Calculating risk...") :: calls, Raised e)) \/
  (exists X calls v shown e,
     select_columns inputs (keys VARIABLE_CONFIG) = Ok X /\
     infer model X = (calls, Done v) /\
     show_result v = (shown, Raised e) /\
     predict_handler model inputs =
       ((Render Main (spinner "Calculating risk...") :: calls ++ shown
           ++ prediction_failed e)%list, Done tt)) \/
  (exists X calls v shown,
     select_columns inputs (keys VARIABLE_CONFIG) = Ok X /\
     infer model X = (calls, Done v) /\
     show_result v = (shown, Done tt) /\
     predict_handler model inputs =
       ((Render Main (spinner "Calculating risk...") :: calls ++ shown
           ++ trace (importance_report model (keys VARIABLE_CONFIG)))%list,
        snd (importance_report model (keys VARIABLE_CONFIG)))).
Proof.
  destruct (select_columns inputs (keys VARIABLE_CONFIG)) as [X | e] eqn:HX.
  - right. destruct (infer_calls model X) as (Hstop & _ & _).
    destruct (infer model X) as [calls [v | e |]] eqn:Hinf;
      [| | now elim Hstop].
    + right. right. destruct (show_result_renders v) as (Hstop' & _).
      destruct (show_result v) as [shown [[] | e |]] eqn:Hshow;
        [| | now elim Hstop'].
      * right. exists X, calls, v, shown. repeat split; try assumption.
        exact (predict_handler_success _ _ _ _ _ _ HX Hinf Hshow).
      * left. exists X, calls, v, shown, e. repeat split; try assumption.
        exact (predict_handler_display_failure _ _ _ _ _ _ _ HX Hinf Hshow).
    + destruct (Exception e) eqn:He.
      * left. exists X, calls, e. repeat split; try assumption.
        exact (predict_handler_failure _ _ _ _ _ HX Hinf He).
      * right. left. exists X, calls, e. repeat split; try assumption.
        exact (predict_handler_escape _ _ _ _ _ HX Hinf He).
  - left. exists e. split; [reflexivity |].
    exact (predict_handler_unprojected _ _ _ HX).
Qed.

(** The three ways through lines 140-148. *)
Lemma show_result_cases (v : pyval) :
  (exists e, gt_half v = Err e /\ show_result v = ([], Raised e)) \/
  (exists high e,
     gt_half v = Ok high /\ format_pct1 v = Err e /\
     show_result v =
       ([ Render Main (markdown "---" false);
          Render Main (subheader "Prediction Results");
          Render Main
            (markdown ("<h2 style='text-align: center; color: "
                         ++ (if high then "#FF4B4B" else "#00CC96")
                         ++ ";'>" ++ (if high then "High Risk" else "Low Risk")
                         ++ "</h2>") true) ],
        Raised e)) \/
  (exists high pct,
     gt_half v = Ok high /\ format_pct1 v = Ok pct /\
     show_result v =
       ([ Render Main (markdown "---" false);
          Render Main (subheader "Prediction Results");
          Render Main
            (markdown ("<h2 style='text-align: center; color: "
                         ++ (if high then "#FF4B4B" else "#00CC96")
                         ++ ";'>" ++ (if high then "High Risk" else "Low Risk")
                         ++ "</h2>") true);
          Render Main (write ("### Reoperation Probability: " ++ pct)) ],
        Done tt)).
Proof.
  unfold show_result, risk_level, color.
  destruct (gt_half v) as [high | e]; [| left; eauto].
  right. destruct (format_pct1 v) as [pct | e] eqn:E.
  - right. exists high, pct. repeat split.
  - left. exists high, e. repeat split.
Qed.

(** ** The import of joblib *)

(** X1. When [import joblib] raises ImportError, the run is the page
    configuration and the two error messages, and it stops there:
    [joblib.load] plays no part, and neither form nor sidebar is rendered.
    Whatever else the import raises is caught by nothing: it leaves the
    script right after the page configuration. *)
Theorem import_failure_stops (env : Env) (e : exn)
    (Himp : joblib_import env = Err e) :
  (is_ImportError e = true ->
   app env =
     ([ Render Main (page_config "Surgical Risk Prediction" "🏥" "wide");
        Render Main
          (error "❌ joblib not found. This application cannot run without joblib.");
        Render Main
          (error "Please ensure joblib is included in your requirements.txt file") ],
      Stopped)) /\
  (is_ImportError e = false ->
   app env =
     ([ Render Main (page_config "Surgical Risk Prediction" "🏥" "wide") ],
      Raised e)).
Proof.
  split; intros He;
    [exact (app_import_failure env e Himp He)
    | exact (app_import_escape env e Himp He)].
Qed.

Lemma import_failure_stops_witness :
  joblib_import without_joblib_env
  = Err (Exn ImportError "No module named 'joblib'") /\
  app without_joblib_env =
    ([ Render Main (page_config "Surgical Risk Prediction" "🏥" "wide");
       Render Main
         (error "❌ joblib not found. This application cannot run without joblib.");
       Render Main
         (error "Please ensure joblib is included in your requirements.txt file") ],
     Stopped).
Proof.
  split; [reflexivity |].
  exact (proj1 (import_failure_stops without_joblib_env
                  (Exn ImportError "No module named 'joblib'") eq_refl)
            eq_refl).
Defined.

(** ** The parameter-entry form *)

Lemma dict_set_fresh {V : Type} (d : dict V) (k : string) (v : V) :
  ~ In k (keys d) -> dict_set d k v = (d ++ [(k, v)])%list.
Proof.
  induction d as [| [k' v'] d IH]; simpl; intros H; [reflexivity |].
  destruct (String.eqb_spec k' k) as [-> | Hne].
  - elim H. now left.
  - rewrite IH; [reflexivity |]. intros Hin. apply H. now right.
Qed.

(** What [st.number_input] accepts and what it refuses. *)
Lemma number_input_check_accepted (config : var_config) :
  config_accepted config ->
  number_input_check (cfg_min config) (cfg_max config) (cfg_value config) 1
  = Ok tt.
Proof.
  unfold config_accepted, number_input_check, validate_int_bounds, rbind,
    MIN_SAFE_INTEGER, MAX_SAFE_INTEGER.
  intros (H1 & H2 & H3 & H4).
  repeat match goal with
         | |- context [(?a <? ?b)%Z] => destruct (Z.ltb_spec a b); try lia
         end.
  reflexivity.
Qed.

Lemma number_input_check_refused (config : var_config) :
  ~ config_accepted config ->
  exists e,
    number_input_check (cfg_min config) (cfg_max config) (cfg_value config) 1
    = Err e /\ Exception e = true.
Proof.
  unfold config_accepted, number_input_check, validate_int_bounds, rbind,
    MIN_SAFE_INTEGER, MAX_SAFE_INTEGER.
  intros H.
  repeat match goal with
         | |- context [(?a <? ?b)%Z] => destruct (Z.ltb_spec a b)
         end;
    try (eexists; split; reflexivity).
  all: exfalso; apply H; lia.
Qed.

Lemma st_number_input_accepted (c : container) (held : option Z)
    (label help : string) (config : var_config) :
  config_accepted config ->
  st_number_input c held label help (cfg_min config) (cfg_max config)
    (cfg_value config) 1 =
    ([ Render c (number_input label help (cfg_min config) (cfg_max config)
                   (cfg_value config) 1) ],
     Done (number_input_value held (cfg_min config) (cfg_max config)
             (cfg_value config))).
Proof.
  intros H. unfold st_number_input.
  now rewrite (number_input_check_accepted config H).
Qed.

Lemma input_form_from (held : string -> option Z)
    (items : list (string * var_config)) :
  forall (i : nat) (acc : dict Z),
    NoDup (keys items) ->
    Forall (fun item => config_accepted (snd item)) items ->
    (forall k, In k (keys items) -> ~ In k (keys acc)) ->
    input_form held i items acc =
      (input_events i items, Done (acc ++ held_record held items)%list).
Proof.
  induction items as [| [feature config] items IH];
    intros i acc Hnd Hok Hfresh.
  - simpl. now rewrite app_nil_r.
  - inversion Hnd as [| ? ? Hnotin Hnd']; subst.
    inversion Hok as [| ? ? Hc Hok']; subst. cbn [snd] in Hc.
    cbn [input_form]. rewrite (st_number_input_accepted _ _ _ _ _ Hc).
    cbn [bind].
    rewrite dict_set_fresh by (apply Hfresh; now left).
    rewrite IH.
    + cbn [input_events held_record map fst snd List.app].
      rewrite <- (app_assoc acc). reflexivity.
    + exact Hnd'.
    + exact Hok'.
    + intros k Hk Hin. unfold keys in Hin. rewrite map_app in Hin.
      apply in_app_or in Hin. destruct Hin as [Hin | [<- | []]].
      * apply (Hfresh k); [now right | exact Hin].
      * now apply Hnotin.
Qed.

(** The loop ends at the first entry [st.number_input] refuses. *)
Lemma input_form_refused (held : string -> option Z)
    (before after : list (string * var_config))
    (name : string) (config : var_config) :
  Forall (fun item => config_accepted (snd item)) before ->
  ~ config_accepted config ->
  forall (i : nat) (acc : dict Z),
  exists e,
    Exception e = true /\
    input_form held i (before ++ (name, config) :: after) acc =
      (input_events i before, Raised e).
Proof.
  intros Hok Hbad.
  induction Hok as [| [k c] before Hc _ IH]; intros i acc.
  - destruct (number_input_check_refused config Hbad) as (e & He & Hcls).
    exists e. split; [exact Hcls |].
    cbn [List.app input_form]. unfold st_number_input. now rewrite He.
  - cbn [snd] in Hc.
    destruct (IH (S i) (dict_set acc k
                          (number_input_value (held k) (cfg_min c) (cfg_max c)
                             (cfg_value c)))) as (e & Hcls & Hrun).
    exists e. split; [exact Hcls |].
    change (((k, c) :: before) ++ (name, config) :: after)%list
      with ((k, c) :: (before ++ (name, config) :: after))%list.
    cbn [input_form]. rewrite (st_number_input_accepted _ _ _ _ _ Hc).
    cbn [bind]. rewrite Hrun. reflexivity.
Qed.

Lemma held_record_get (held : string -> option Z)
    (items : list (string * var_config)) (name : string) (config : var_config) :
  NoDup (keys items) ->
  In (name, config) items ->
  dict_get (held_record held items) name =
    Some (number_input_value (held name) (cfg_min config) (cfg_max config)
            (cfg_value config)).
Proof.
  induction items as [| [k c] items IH]; intros Hnames Hin; [destruct Hin |].
  inversion Hnames as [| ? ? Hnotin Hnd']; subst.
  cbn [held_record map fst snd dict_get].
  destruct (String.eqb_spec k name) as [-> | Hne].
  - destruct Hin as [[= <-] | Hin]; [reflexivity |].
    elim Hnotin. unfold keys. apply in_map_iff. now exists (name, config).
  - destruct Hin as [[= -> _] | Hin]; [now elim Hne |].
    now apply IH.
Qed.

Lemma schema_names_distinct : NoDup (keys VARIABLE_CONFIG).
Proof. repeat constructor; simpl; intuition discriminate. Qed.

Lemma schema_accepted :
  Forall (fun item => config_accepted (snd item)) VARIABLE_CONFIG.
Proof.
  repeat constructor; unfold MIN_SAFE_INTEGER, MAX_SAFE_INTEGER; simpl; lia.
Qed.

Lemma number_input_value_bounds (held : option Z) (lo hi value : Z) :
  (lo <= value <= hi)%Z ->
  (lo <= number_input_value held lo hi value <= hi)%Z.
Proof.
  intros H. destruct held as [v |]; simpl; [| lia].
  destruct (Z.leb_spec lo v), (Z.leb_spec v hi); simpl; lia.
Qed.

(** X2. Over any schema with distinct parameter names, the loop of lines
    110-119 goes as follows.  When [st.number_input] accepts every entry
    (a default within the bounds, bounds a browser can hold), it renders
    one number input per parameter, in schema order and alternating
    between the two columns, and yields the record that gives each
    parameter, in schema order, the value its widget returns: the number
    the widget holds when that lies within the bounds, and the schema
    default otherwise (widget untouched, or number out of range); every
    value of the record lies within its bounds.  At the first entry that
    is not accepted, having rendered the inputs before it, the loop raises
    an exception of Streamlit's and yields no record. *)
Theorem input_form_run (held : string -> option Z) (i : nat)
    (items : list (string * var_config))
    (Hnames : NoDup (keys items)) :
  (Forall (fun item => config_accepted (snd item)) items ->
   input_form held i items [] =
     (input_events i items, Done (held_record held items)) /\
   keys (held_record held items) = keys items /\
   forall name config,
     In (name, config) items ->
     (exists v,
        dict_get (held_record held items) name = Some v /\
        (cfg_min config <= v <= cfg_max config)%Z) /\
     (held name = None ->
      dict_get (held_record held items) name = Some (cfg_value config)) /\
     (forall v, held name = Some v ->
                (cfg_min config <= v <= cfg_max config)%Z ->
                dict_get (held_record held items) name = Some v) /\
     (forall v, held name = Some v ->
                (v < cfg_min config \/ cfg_max config < v)%Z ->
                dict_get (held_record held items) name
                = Some (cfg_value config))) /\
  (forall before name config after,
     items = (before ++ (name, config) :: after)%list ->
     Forall (fun item => config_accepted (snd item)) before ->
     ~ config_accepted config ->
     exists e,
       Exception e = true /\
       input_form held i items [] = (input_events i before, Raised e)).
Proof.
  split.
  - intros Hok. split; [| split].
    + rewrite input_form_from;
        [reflexivity | exact Hnames | exact Hok | intros k _ []].
    + unfold keys, held_record. rewrite map_map. reflexivity.
    + intros name config Hin.
      rewrite (held_record_get held items name config Hnames Hin).
      assert (Hc : config_accepted config).
      { rewrite Forall_forall in Hok. exact (Hok _ Hin). }
      destruct Hc as (_ & Hlo & Hhi & _).
      split; [| split; [| split]].
      * eexists. split; [reflexivity |].
        apply number_input_value_bounds. lia.
      * now intros ->.
      * intros v -> Hv. simpl.
        destruct (Z.leb_spec (cfg_min config) v),
                 (Z.leb_spec v (cfg_max config)); simpl; try reflexivity; lia.
      * intros v -> Hv. simpl.
        destruct (Z.leb_spec (cfg_min config) v),
                 (Z.leb_spec v (cfg_max config)); simpl; try reflexivity; lia.
  - intros before name config after -> Hok Hbad.
    now apply input_form_refused.
Qed.

Lemma input_form_run_witness :
  NoDup (keys VARIABLE_CONFIG) /\
  Forall (fun item => config_accepted (snd item)) VARIABLE_CONFIG /\
  input_form (fun name => if String.eqb name "mFI-5" then Some 9%Z
                          else if String.eqb name "ASA scores" then Some 4%Z
                          else None)
    0 VARIABLE_CONFIG [] =
    (input_events 0 VARIABLE_CONFIG,
     Done [ ("Sex", 0); ("ASA scores", 4); ("tumor location", 2);
            ("Benign or malignant", 0); ("Admitted to NICU", 0);
            ("Duration of surgery", 0); ("diabetes", 0); ("CHF", 0);
            ("Functional dependencies", 0); ("mFI-5", 1);
            ("Type of tumor", 2) ]%Z).
Proof.
  assert (H : NoDup (keys VARIABLE_CONFIG)).
  { repeat constructor; simpl; intuition discriminate. }
  assert (Hok : Forall (fun item => config_accepted (snd item))
                  VARIABLE_CONFIG).
  { repeat constructor; unfold MIN_SAFE_INTEGER, MAX_SAFE_INTEGER; simpl; lia. }
  split; [exact H |]. split; [exact Hok |].
  apply (input_form_run
           (fun name => if String.eqb name "mFI-5" then Some 9%Z
                        else if String.eqb name "ASA scores" then Some 4%Z
                        else None)
           0 VARIABLE_CONFIG H).
  exact Hok.
Defined.

Lemma form_record_valid (held : string -> option Z) :
  schema_valid (form_record held) = true.
Proof.
  unfold schema_valid. apply forallb_forall. intros [name config] Hin.
  simpl in Hin.
  repeat (destruct Hin as [[= <- <-] | Hin];
          [cbn -[number_input_value];
           match goal with
           | |- context [number_input_value ?h ?lo ?hi ?v] =>
               pose proof (number_input_value_bounds h lo hi v ltac:(lia))
           end;
           apply andb_true_intro; split; apply Z.leb_le; lia |]).
  destruct Hin.
Qed.

(** ** The run as a whole *)

Lemma patient_parameters_events (env : Env) :
  patient_parameters env =
    ([ Render Main (title "Unplanned Reoperation Risk Prediction System");
       Render Main (markdown "---" false);
       Render Main (subheader "Patient Parameters");
       Render Main (st_columns 2) ]
     ++ input_events 0 VARIABLE_CONFIG,
     Done (form_record (widget_state env)))%list.
Proof. reflexivity. Qed.

(** A run with a loaded model, event by event: the page top, the handler
    when the button was clicked and, unless the handler let an exception
    through, the sidebar. *)
Lemma app_run (env : Env) (model : Model) :
  joblib_import env = Ok tt ->
  joblib_load env = Ok model ->
  app env =
    match snd (on_click env model) with
    | Done _ =>
        ((page_top ++ trace (on_click env model) ++ trace sidebar)%list,
         Done tt)
    | o => ((page_top ++ trace (on_click env model))%list, o)
    end.
Proof.
  intros Himp Hload.
  unfold app, import_joblib, load_model. rewrite Himp, Hload.
  cbn [lift bind ret st emit try_except app].
  rewrite patient_parameters_events. cbn [bind st emit app].
  change (if button_clicked env
          then predict_handler model (form_record (widget_state env))
          else ret tt) with (on_click env model).
  unfold trace.
  destruct (on_click env model) as [t [[] | e |]];
    cbn [bind fst snd sidebar st emit app];
    unfold page_top; rewrite <- ?app_assoc; reflexivity.
Qed.

Lemma calls_of_app (t t' : list event) :
  calls_of (t ++ t') = (calls_of t ++ calls_of t')%list.
Proof. apply filter_app. Qed.

Lemma sidebar_shown_app (t t' : list event) :
  sidebar_shown (t ++ t') = (sidebar_shown t ++ sidebar_shown t')%list.
Proof. apply filter_app. Qed.

(** [infer] produces calls only. *)
Lemma infer_only_calls (model : Model) (X : DataFrame) :
  calls_of (trace (infer model X)) = trace (infer model X) /\
  rendered (trace (infer model X)) = [] /\
  sidebar_shown (trace (infer model X)) = [].
Proof.
  destruct (infer_calls model X) as (_ & _ & H).
  induction H as [| ev t [-> | ->] _ (IH1 & IH2 & IH3)]; simpl;
    repeat split; congruence.
Qed.

(** The result panel and the importance report are elements of the page
    body. *)
Lemma show_result_only_main (v : pyval) :
  calls_of (trace (show_result v)) = [] /\
  sidebar_shown (trace (show_result v)) = [].
Proof.
  destruct (show_result_cases v) as [(e & _ & ->) | [(h & e & _ & _ & ->)
                                                    | (h & p & _ & _ & ->)]];
    split; reflexivity.
Qed.

Lemma importance_report_only_main (model : Model) (cols : list string) :
  calls_of (trace (importance_report model cols)) = [] /\
  sidebar_shown (trace (importance_report model cols)) = [].
Proof. report_cases model cols; split; reflexivity. Qed.

(** The handler's calls are those of the inference on the projected record,
    and it renders nothing in the sidebar. *)
Lemma predict_handler_calls (model : Model) (inputs : dict Z) :
  sidebar_shown (trace (predict_handler model inputs)) = [] /\
  calls_of (trace (predict_handler model inputs)) =
    match select_columns inputs (keys VARIABLE_CONFIG) with
    | Ok X => trace (infer model X)
    | Err _ => []
    end.
Proof.
  destruct (predict_handler_cases model inputs)
    as [(e & HX & ->)
       | [(X & calls & e & HX & Hinf & He & ->)
         | [(X & calls & e & HX & Hinf & He & ->)
           | [(X & calls & v & shown & e & HX & Hinf & Hshow & ->)
             | (X & calls & v & shown & HX & Hinf & Hshow & ->)]]]];
    rewrite HX; [split; reflexivity | | | |];
    destruct (infer_only_calls model X) as (Hc & _ & Hs);
    rewrite Hinf in Hc, Hs |- *; unfold trace in Hc, Hs |- *;
    cbn [fst] in Hc, Hs |- *;
    change (?a :: ?l) with ([a] ++ l)%list;
    rewrite ?calls_of_app, ?sidebar_shown_app, Hc, Hs.
  - split; [reflexivity | simpl; now rewrite app_nil_r].
  - split; reflexivity.
  - destruct (show_result_only_main v) as [Hc' Hs']. rewrite Hshow in Hc', Hs'.
    unfold trace in Hc', Hs'. cbn [fst] in Hc', Hs'. rewrite Hc', Hs'.
    split; [reflexivity | simpl; now rewrite app_nil_r].
  - destruct (show_result_only_main v) as [Hc' Hs']. rewrite Hshow in Hc', Hs'.
    unfold trace in Hc', Hs'. cbn [fst] in Hc', Hs'. rewrite Hc', Hs'.
    destruct (importance_report_only_main model (keys VARIABLE_CONFIG))
      as [Hc'' Hs''].
    unfold trace in Hc'', Hs''. rewrite Hc'', Hs''.
    split; [reflexivity | simpl; now rewrite app_nil_r].
Qed.

Lemma on_click_calls (env : Env) (model : Model) :
  sidebar_shown (trace (on_click env model)) = [] /\
  calls_of (trace (on_click env model)) =
    if button_clicked env
    then trace (infer model (form_record (widget_state env)))
    else [].
Proof.
  unfold on_click. destruct (button_clicked env); [| split; reflexivity].
  destruct (predict_handler_calls model (form_record (widget_state env)))
    as [Hs Hc].
  now rewrite form_record_projected in Hc.
Qed.

(** What leaves the handler was raised outside [Exception], by the
    inference or by the building of the importance table. *)
Lemma predict_handler_raised (model : Model) (inputs : dict Z) (e : exn) :
  snd (predict_handler model inputs) = Raised e ->
  Exception e = false /\
  exists X,
    select_columns inputs (keys VARIABLE_CONFIG) = Ok X /\
    (snd (infer model X) = Raised e \/
     importance_df model (keys VARIABLE_CONFIG) = Err e).
Proof.
  destruct (predict_handler_cases model inputs)
    as [(e' & HX & ->)
       | [(X & calls & e' & HX & Hinf & He & ->)
         | [(X & calls & e' & HX & Hinf & He & ->)
           | [(X & calls & v & shown & e' & HX & Hinf & Hshow & ->)
             | (X & calls & v & shown & HX & Hinf & Hshow & ->)]]]];
    cbn [snd]; try discriminate.
  - intros [= <-]. split; [exact He |]. exists X. split; [exact HX |].
    left. now rewrite Hinf.
  - destruct (importance_report_outcome model (keys VARIABLE_CONFIG))
      as [[-> | (e' & E & He & ->)] _]; [discriminate |].
    intros [= <-]. split; [exact He |]. exists X. split; [exact HX |].
    now right.
Qed.

(** The sidebar is rendered, last, by the runs that end normally. *)
Lemma app_sidebar (env : Env) :
  sidebar_shown (trace (app env)) =
    match snd (app env) with Done _ => trace sidebar | _ => [] end.
Proof.
  destruct (joblib_import env) as [[] | e'] eqn:Himp.
  - destruct (joblib_load env) as [model | e] eqn:Hload.
    + rewrite (app_run env model Himp Hload).
      destruct (on_click_calls env model) as [Hs _].
      destruct (snd (on_click env model)) as [[] | e |];
        unfold trace at 1; cbn [fst snd];
        rewrite !sidebar_shown_app, Hs; reflexivity.
    + destruct (Exception e) eqn:He.
      * now rewrite (app_load_failure env e Himp Hload He).
      * now rewrite (app_load_escape env e Himp Hload He).
  - destruct (is_ImportError e') eqn:He.
    + now rewrite (app_import_failure env e' Himp He).
    + now rewrite (app_import_escape env e' Himp He).
Qed.

(** X3. A run that imports joblib and loads the model starts with the
    page top (notices, title, the eleven inputs in alternating columns, the
    button).  Without the click the sidebar follows and the run ends
    normally: it is the same page whatever the widgets hold and whatever
    the model is, and the model is not called.  With the click the handler
    follows; when the handler ends normally so does the run, after the
    sidebar; the handler does not end otherwise unless the inference or the
    importance table raised outside [Exception], and then that exception
    leaves the script and the run ends with the handler's events, without
    the sidebar. *)
Theorem run_with_model (env : Env) (model : Model)
    (Himp : joblib_import env = Ok tt)
    (Hload : joblib_load env = Ok model) :
  (button_clicked env = false ->
   app env = ((page_top ++ trace sidebar)%list, Done tt) /\
   calls_of (trace (app env)) = []) /\
  (button_clicked env = true ->
   (snd (predict_handler model (form_record (widget_state env))) = Done tt ->
    app env =
      ((page_top
          ++ trace (predict_handler model (form_record (widget_state env)))
          ++ trace sidebar)%list,
       Done tt)) /\
   (forall e,
      snd (predict_handler model (form_record (widget_state env))) = Raised e ->
      app env =
        ((page_top
            ++ trace (predict_handler model (form_record (widget_state env))))%list,
         Raised e) /\
      Exception e = false /\
      (snd (infer model (form_record (widget_state env))) = Raised e \/
       importance_df model (keys VARIABLE_CONFIG) = Err e)) /\
   ((forall e, snd (infer model (form_record (widget_state env))) = Raised e ->
               Exception e = true) ->
    (forall e, importance_df model (keys VARIABLE_CONFIG) = Err e ->
               Exception e = true) ->
    snd (app env) = Done tt)).
Proof.
  pose proof (app_run env model Himp Hload) as Hrun.
  unfold on_click in Hrun. split; intros Hclick; rewrite Hclick in Hrun.
  - cbn [snd ret trace fst] in Hrun. rewrite Hrun.
    split; [reflexivity |]. unfold trace. cbn [fst]. reflexivity.
  - assert (Hraised : forall e,
              snd (predict_handler model (form_record (widget_state env)))
              = Raised e ->
              Exception e = false /\
              (snd (infer model (form_record (widget_state env))) = Raised e \/
               importance_df model (keys VARIABLE_CONFIG) = Err e)).
    { intros e He.
      destruct (predict_handler_raised _ _ _ He) as (Hcls & X & HX & Hsrc).
      rewrite form_record_projected in HX. injection HX as <-.
      now split. }
    split; [| split].
    + intros Hd. now rewrite Hd in Hrun.
    + intros e He. split; [now rewrite He in Hrun | now apply Hraised].
    + intros Hinf Himpo.
      destruct (predict_handler_outcome model (form_record (widget_state env)))
        as [Hd | (e & He & Hr)]; [now rewrite Hrun, Hd |].
      destruct (Hraised e Hr) as [_ [H | H]];
        [rewrite (Hinf e H) in He | rewrite (Himpo e H) in He]; discriminate.
Qed.

Lemma run_with_model_witness :
  app (env_of label_model false) = ((page_top ++ trace sidebar)%list, Done tt) /\
  snd (app (env_of label_model true)) = Done tt.
Proof.
  destruct (run_with_model (env_of label_model false) label_model
              eq_refl eq_refl) as [Hidle _].
  destruct (run_with_model (env_of label_model true) label_model
              eq_refl eq_refl) as [_ Hclick].
  split; [now apply Hidle |].
  apply Hclick; [reflexivity | |]; intros e He; vm_compute in He;
    discriminate He.
Defined.

(** X4. How a run ends.  It stops exactly when [import joblib] raises
    ImportError, or joblib is imported and [joblib.load] raises an instance
    of [Exception].  It ends normally exactly when joblib is imported, the
    model loads and the handler, if the button started the run, ends
    normally.  An exception leaves the script only in these cases: the
    import raised it and it is not an ImportError; or it is outside
    [Exception] and was raised by [joblib.load], by the inference or by the
    building of the importance table; and each of these does leave the
    script.  The sidebar is rendered, last, in the runs that end normally
    and in no other. *)
Theorem run_outcome (env : Env) :
  (snd (app env) = Stopped <->
   (exists e, joblib_import env = Err e /\ is_ImportError e = true) \/
   (joblib_import env = Ok tt /\
    exists e, joblib_load env = Err e /\ Exception e = true)) /\
  (snd (app env) = Done tt <->
   joblib_import env = Ok tt /\
   exists model, joblib_load env = Ok model /\
                 snd (on_click env model) = Done tt) /\
  (forall e,
     snd (app env) = Raised e ->
     (joblib_import env = Err e /\ is_ImportError e = false) \/
     (joblib_import env = Ok tt /\ Exception e = false /\
      (joblib_load env = Err e \/
       exists model,
         joblib_load env = Ok model /\ button_clicked env = true /\
         (snd (infer model (form_record (widget_state env))) = Raised e \/
          importance_df model (keys VARIABLE_CONFIG) = Err e)))) /\
  (forall e,
     joblib_import env = Err e -> is_ImportError e = false ->
     snd (app env) = Raised e) /\
  (forall e,
     joblib_import env = Ok tt -> joblib_load env = Err e ->
     Exception e = false ->
     snd (app env) = Raised e) /\
  (forall model e,
     joblib_import env = Ok tt -> joblib_load env = Ok model ->
     button_clicked env = true -> Exception e = false ->
     (snd (infer model (form_record (widget_state env))) = Raised e \/
      (exists v,
         snd (infer model (form_record (widget_state env))) = Done v /\
         snd (show_result v) = Done tt /\
         importance_df model (keys VARIABLE_CONFIG) = Err e)) ->
     snd (app env) = Raised e) /\
  sidebar_shown (trace (app env)) =
    match snd (app env) with Done _ => trace sidebar | _ => [] end.
Proof.
  split; [| split; [| split; [| split; [| split; [| split;
    [| apply app_sidebar]]]]]];
    [| | | intros e Himp He; now rewrite (app_import_escape env e Himp He)
         | intros e Himp Hload He;
           now rewrite (app_load_escape env e Himp Hload He)
         | intros model e Himp Hload Hclick He Hsrc;
           rewrite (app_loaded_outcome env model Himp Hload);
           unfold on_click; rewrite Hclick;
           destruct (infer model (form_record (widget_state env)))
             as [calls o] eqn:Hinf; cbn [snd] in Hsrc;
           destruct Hsrc as [-> | (v & -> & Hshow & Hdf)];
           [now rewrite (predict_handler_escape _ _ _ _ _
                           (form_record_projected _) Hinf He)
           | destruct (show_result v) as [shown o'] eqn:Hsh;
             cbn [snd] in Hshow; subst o';
             rewrite (predict_handler_success _ _ _ _ _ _
                        (form_record_projected _) Hinf Hsh);
             cbn [snd];
             now rewrite (importance_report_escape _ _ _ Hdf He)]].
  - destruct (joblib_import env) as [[] | e'] eqn:Himp.
    + destruct (joblib_load env) as [model | e] eqn:Hload.
      * rewrite (app_loaded_outcome env model Himp Hload).
        split.
        -- intros Hs. destruct (on_click_outcome env model)
             as [Hd | (e & _ & _ & Hr)]; rewrite Hs in *; discriminate.
        -- intros [(e & [=] & _) | (_ & e & [=] & _)].
      * destruct (Exception e) eqn:He.
        -- rewrite (app_load_failure env e Himp Hload He). cbn [snd].
           split; [intros _; right; split; [reflexivity | now exists e] |
                   reflexivity].
        -- rewrite (app_load_escape env e Himp Hload He). cbn [snd].
           split; [discriminate |].
           intros [(e0 & [=] & _) | (_ & e0 & [= <-] & He0)]. congruence.
    + destruct (is_ImportError e') eqn:He.
      * rewrite (app_import_failure env e' Himp He). cbn [snd].
        split; [intros _; left; now exists e' | reflexivity].
      * rewrite (app_import_escape env e' Himp He). cbn [snd].
        split; [discriminate |].
        intros [(e0 & [= <-] & He0) | ([=] & _)]. congruence.
  - destruct (joblib_import env) as [[] | e'] eqn:Himp.
    + destruct (joblib_load env) as [model | e] eqn:Hload.
      * rewrite (app_loaded_outcome env model Himp Hload).
        split; [intros Hd; split; [reflexivity | now exists model] |].
        now intros (_ & m & [= <-] & Hd).
      * destruct (app_without_model env e Hload) as [_ Hend].
        split; [intros Hd; now elim Hend |].
        intros (_ & m & [=] & _).
    + destruct (app_without_joblib env e' Himp) as [_ Hend].
      split; [intros Hd; now elim Hend |]. intros ([=] & _).
  - intros e. destruct (joblib_import env) as [[] | e'] eqn:Himp.
    + destruct (joblib_load env) as [model | e0] eqn:Hload.
      * rewrite (app_loaded_outcome env model Himp Hload). intros Hr.
        right. split; [reflexivity |].
        unfold on_click in Hr.
        destruct (button_clicked env) eqn:Hclick; [| discriminate Hr].
        destruct (predict_handler_raised _ _ _ Hr) as (Hcls & X & HX & Hsrc).
        rewrite form_record_projected in HX. injection HX as <-.
        split; [exact Hcls |]. right. exists model. now repeat split.
      * destruct (Exception e0) eqn:He.
        -- rewrite (app_load_failure env e0 Himp Hload He). discriminate.
        -- rewrite (app_load_escape env e0 Himp Hload He). intros [= <-].
           right. split; [reflexivity |]. split; [exact He | now left].
    + destruct (is_ImportError e') eqn:He.
      * rewrite (app_import_failure env e' Himp He). discriminate.
      * rewrite (app_import_escape env e' Himp He). intros [= <-].
        left. now split.
Qed.

(** ** What reaches the model *)

Lemma model_inputs_calls_of (t : list event) :
  model_inputs (calls_of t) = model_inputs t.
Proof.
  induction t as [| [c el | X | X] t IH]; simpl; congruence.
Qed.

(** The frames a run with a loaded model passes on. *)
Lemma app_model_inputs (env : Env) (model : Model) :
  joblib_import env = Ok tt ->
  joblib_load env = Ok model ->
  model_inputs (trace (app env)) =
    if button_clicked env
    then model_inputs (trace (infer model (form_record (widget_state env))))
    else [].
Proof.
  intros Himp Hload. rewrite (app_run env model Himp Hload).
  destruct (on_click_calls env model) as [_ Hc].
  assert (H : model_inputs (trace (on_click env model)) =
              if button_clicked env
              then model_inputs
                     (trace (infer model (form_record (widget_state env))))
              else []).
  { rewrite <- model_inputs_calls_of, Hc. now destruct (button_clicked env). }
  destruct (snd (on_click env model)) as [[] | e |];
    unfold trace at 1; cbn [fst]; rewrite !model_inputs_app;
    change (model_inputs page_top) with (@nil DataFrame);
    change (model_inputs (trace sidebar)) with (@nil DataFrame);
    rewrite ?app_nil_r; exact H.
Qed.

(** A run without a model calls nothing. *)
Lemma app_no_model_inputs (env : Env) :
  (forall model, joblib_import env = Ok tt -> joblib_load env <> Ok model) ->
  model_inputs (trace (app env)) = [].
Proof.
  intros H. destruct (joblib_import env) as [[] | e'] eqn:Himp.
  - destruct (joblib_load env) as [model | e] eqn:Hload.
    + now elim (H model).
    + destruct (Exception e) eqn:He.
      * now rewrite (app_load_failure env e Himp Hload He).
      * now rewrite (app_load_escape env e Himp Hload He).
  - destruct (is_ImportError e') eqn:He.
    + now rewrite (app_import_failure env e' Himp He).
    + now rewrite (app_import_escape env e' Himp He).
Qed.

(** X5. Whatever the environment and the model, a frame passed to the
    model in a run of the script is the record of the form: its columns
    are the schema's keys in declaration order and every value lies within
    its parameter's bounds; and the model is only called in a run started
    by the button. *)
Theorem model_sees_valid_records_only (env : Env) (X : DataFrame)
    (Hcall : In X (model_inputs (trace (app env)))) :
  X = form_record (widget_state env) /\
  columns X = keys VARIABLE_CONFIG /\
  schema_valid X = true /\
  button_clicked env = true.
Proof.
  destruct (joblib_import env) as [[] | e'] eqn:Himp;
    [destruct (joblib_load env) as [model | e] eqn:Hload |].
  - rewrite (app_model_inputs env model Himp Hload) in Hcall.
    destruct (button_clicked env); [| destruct Hcall].
    destruct (infer_calls model (form_record (widget_state env)))
      as (_ & Hall & _).
    rewrite Forall_forall in Hall. rewrite <- (Hall X Hcall).
    repeat split. apply form_record_valid.
  - exfalso. rewrite app_no_model_inputs in Hcall; [exact Hcall |].
    intros model _. rewrite Hload. discriminate.
  - exfalso. rewrite app_no_model_inputs in Hcall; [exact Hcall |].
    intros model. rewrite Himp. discriminate.
Qed.

Lemma model_sees_valid_records_only_witness :
  In default_record
     (model_inputs (trace (app (env_of (stub_model 0.73) true)))) /\
  schema_valid default_record = true.
Proof.
  assert (H : In default_record
                (model_inputs (trace (app (env_of (stub_model 0.73) true)))))
    by (vm_compute; tauto).
  split; [exact H |].
  apply (model_sees_valid_records_only (env_of (stub_model 0.73) true)
           default_record H).
Defined.

(** X6. In a run started by the button with a model that has
    [predict_proba], the frame the model is called on carries, for each
    parameter, the number the user entered when it lies within the bounds,
    and the schema default when the widget was left untouched or holds a
    number outside the bounds. *)
Theorem entered_value_reaches_model (env : Env) (model : Model)
    (f : DataFrame -> result (list (list float)))
    (name : string) (config : var_config)
    (Himp : joblib_import env = Ok tt)
    (Hload : joblib_load env = Ok model)
    (Hclick : button_clicked env = true)
    (Hpp : predict_proba model = Ok f)
    (Hin : In (name, config) VARIABLE_CONFIG) :
  exists X,
    hd_error (trace (infer model (form_record (widget_state env))))
    = Some (Call_predict_proba X) /\
    hd_error (model_inputs (trace (app env))) = Some X /\
    (forall v, widget_state env name = Some v ->
               (cfg_min config <= v <= cfg_max config)%Z ->
               dict_get X name = Some v) /\
    (widget_state env name = None -> dict_get X name = Some (cfg_value config)) /\
    (forall v, widget_state env name = Some v ->
               (v < cfg_min config \/ cfg_max config < v)%Z ->
               dict_get X name = Some (cfg_value config)).
Proof.
  exists (form_record (widget_state env)).
  assert (Hhd : hd_error (trace (infer model (form_record (widget_state env))))
                = Some (Call_predict_proba (form_record (widget_state env)))).
  { unfold infer, proba_path, trace. rewrite Hpp. script_unfold. simpl.
    repeat step_script; reflexivity. }
  split; [exact Hhd |]. split.
  - rewrite (app_model_inputs env model Himp Hload), Hclick.
    destruct (trace (infer model (form_record (widget_state env))))
      as [| ev t]; [discriminate |].
    simpl in Hhd. injection Hhd as ->. reflexivity.
  - pose proof (held_record_get (widget_state env) VARIABLE_CONFIG name config
                  schema_names_distinct Hin) as Hget.
    change (held_record (widget_state env) VARIABLE_CONFIG)
      with (form_record (widget_state env)) in Hget.
    split; [| split].
    + intros v Hv Hrange. rewrite Hget, Hv. simpl.
      destruct (Z.leb_spec (cfg_min config) v),
               (Z.leb_spec v (cfg_max config)); simpl; try reflexivity; lia.
    + intros Hnone. now rewrite Hget, Hnone.
    + intros v Hv Hrange. rewrite Hget, Hv. simpl.
      destruct (Z.leb_spec (cfg_min config) v),
               (Z.leb_spec v (cfg_max config)); simpl; try reflexivity; lia.
Qed.

Lemma entered_value_reaches_model_witness :
  exists X,
    hd_error (model_inputs
                (trace (app {| joblib_import := Ok tt;
                               joblib_load := Ok (stub_model 0.73);
                               widget_state :=
                                 fun name => if String.eqb name "mFI-5"
                                             then Some 4%Z else None;
                               button_clicked := true |})))
    = Some X /\
    dict_get X "mFI-5" = Some 4%Z.
Proof.
  destruct (entered_value_reaches_model
              {| joblib_import := Ok tt;
                 joblib_load := Ok (stub_model 0.73);
                 widget_state :=
                   fun name => if String.eqb name "mFI-5"
                               then Some 4%Z else None;
                 button_clicked := true |}
              (stub_model 0.73) (fun _ => Ok [[(1 - 0.73)%float; 0.73%float]])
              "mFI-5" (VarConfig 0 5 "Modified Frailty Index" 1)
              eq_refl eq_refl eq_refl eq_refl)
    as (X & _ & Hhd & Hval & _ & _).
  { simpl. tauto. }
  exists X. split; [exact Hhd |].
  apply Hval; [reflexivity | simpl; lia].
Defined.

(** ** The projection of line 129 *)

Lemma select_columns_ext (df df' : DataFrame) (cols : list string) :
  (forall c, In c cols -> dict_get df c = dict_get df' c) ->
  select_columns df cols = select_columns df' cols.
Proof.
  intros H. unfold select_columns.
  assert (Hf : filter (fun c => match dict_get df c with
                                | None => true | _ => false end) cols
               = filter (fun c => match dict_get df' c with
                                  | None => true | _ => false end) cols).
  { apply filter_ext_in. intros c Hc. now rewrite (H c Hc). }
  assert (Hm : flat_map (fun c => match dict_get df c with
                                  | Some v => [(c, v)] | None => [] end) cols
               = flat_map (fun c => match dict_get df' c with
                                    | Some v => [(c, v)] | None => [] end) cols).
  { clear Hf. induction cols as [| c cols IH]; simpl; [reflexivity |].
    rewrite (H c) by now left. f_equal. apply IH.
    intros c' Hc'. apply H. now right. }
  now rewrite Hf, Hm.
Qed.

(** X7. The handler reads the raw mapping only at the schema's keys: two
    mappings that give the schema's parameters the same values, in whatever
    order and with whatever other entries, lead to the same run. *)
Theorem handler_reads_schema_keys_only (model : Model) (inputs inputs' : dict Z)
    (Hagree : forall c, In c (keys VARIABLE_CONFIG) ->
                        dict_get inputs c = dict_get inputs' c) :
  predict_handler model inputs = predict_handler model inputs'.
Proof.
  unfold predict_handler, DataFrame_of_record.
  now rewrite (select_columns_ext inputs inputs' _ Hagree).
Qed.

Lemma handler_reads_schema_keys_only_witness :
  predict_handler (stub_model 0.73)
    (("ward", 12%Z) :: rev default_record)
  = predict_handler (stub_model 0.73) default_record.
Proof.
  apply (handler_reads_schema_keys_only (stub_model 0.73)
           (("ward", 12%Z) :: rev default_record) default_record).
  intros c Hc. simpl in Hc.
  repeat (destruct Hc as [<- | Hc]; [reflexivity |]). destruct Hc.
Defined.

(** X8. When the raw mapping lacks a schema parameter, line 129 raises
    KeyError: the handler renders the two prediction-failure messages and
    nothing else (no spinner, no result), does not call the model, and ends
    normally. *)
Theorem missing_parameter_reported (model : Model) (inputs : dict Z)
    (c : string)
    (Hc : In c (keys VARIABLE_CONFIG))
    (Hmissing : dict_get inputs c = None) :
  exists e,
    select_columns inputs (keys VARIABLE_CONFIG) = Err e /\
    exn_cls e = KeyError /\
    predict_handler model inputs = (prediction_failed e, Done tt).
Proof.
  unfold predict_handler, DataFrame_of_record, select_columns.
  destruct (filter (fun c0 => match dict_get inputs c0 with
                              | None => true | _ => false end)
                   (keys VARIABLE_CONFIG)) as [| m ms] eqn:E.
  - exfalso.
    assert (Hin : In c (filter (fun c0 => match dict_get inputs c0 with
                                          | None => true | _ => false end)
                               (keys VARIABLE_CONFIG))).
    { apply filter_In. split; [exact Hc | now rewrite Hmissing]. }
    rewrite E in Hin. destruct Hin.
  - eexists. repeat split.
Qed.

Lemma missing_parameter_reported_witness :
  dict_get (removelast default_record) "Type of tumor" = None /\
  exists e,
    select_columns (removelast default_record) (keys VARIABLE_CONFIG) = Err e /\
    exn_cls e = KeyError /\
    predict_handler label_model (removelast default_record)
    = (prediction_failed e, Done tt).
Proof.
  split; [reflexivity |].
  apply (missing_parameter_reported label_model (removelast default_record)
           "Type of tumor"); [simpl; tauto | reflexivity].
Defined.

(** ** Line 134 and the fallback *)

(** X9. With [predict_proba] present and returning normally, the
    probability is the second entry of the first row and nothing else of
    the output matters.  When the output has no row, or its first row has
    fewer than two entries, line 134 raises IndexError: there is no
    fallback, [predict] is not called, and the handler reports the
    failure. *)
Theorem positive_class_entry_is_read (model : Model) (inputs : dict Z)
    (X : DataFrame) (f : DataFrame -> result (list (list float)))
    (rows : list (list float))
    (HX : select_columns inputs (keys VARIABLE_CONFIG) = Ok X)
    (Hpp : predict_proba model = Ok f)
    (Hrows : f X = Ok rows) :
  (forall q p row more,
     rows = (q :: p :: row) :: more ->
     infer model X = ([Call_predict_proba X], Done (PyFloat p))) /\
  (length (hd [] rows) < 2 ->
   exists e,
     exn_cls e = IndexError /\
     infer model X = ([Call_predict_proba X], Raised e) /\
     predict_handler model inputs =
       ((Render Main (spinner "Calculating risk...")
           :: Call_predict_proba X :: prediction_failed e)%list, Done tt)).
Proof.
  split.
  - intros q p row more ->. unfold infer, proba_path. rewrite Hpp. simpl.
    now rewrite Hrows.
  - intros Hshort.
    assert (He : exists e, exn_cls e = IndexError /\
                           infer model X = ([Call_predict_proba X], Raised e)).
    { unfold infer, proba_path. rewrite Hpp. simpl. rewrite Hrows.
      destruct rows as [| [| q [| p row]] more];
        try (eexists; (split; [| reflexivity]); reflexivity).
      simpl in Hshort. lia. }
    destruct He as (e & Hcls & Hinf). exists e.
    split; [exact Hcls |]. split; [exact Hinf |].
    assert (He : Exception e = true) by (unfold Exception; now rewrite Hcls).
    now rewrite (predict_handler_failure _ _ _ _ _ HX Hinf He).
Qed.

Lemma positive_class_entry_is_read_witness :
  infer (proba_model [[0.1; 0.9; 0.3]; [0.8; 0.2]]%float) default_record
  = ([Call_predict_proba default_record], Done (PyFloat 0.9)) /\
  exists e,
    exn_cls e = IndexError /\
    infer (proba_model [[1]]%float) default_record
    = ([Call_predict_proba default_record], Raised e) /\
    predict_handler (proba_model [[1]]%float) default_record =
      ((Render Main (spinner "Calculating risk...")
          :: Call_predict_proba default_record :: prediction_failed e)%list,
       Done tt).
Proof.
  split.
  - apply (proj1 (positive_class_entry_is_read
                    (proba_model [[0.1; 0.9; 0.3]; [0.8; 0.2]]%float)
                    default_record default_record
                    (fun _ => Ok [[0.1; 0.9; 0.3]; [0.8; 0.2]]%float)
                    [[0.1; 0.9; 0.3]; [0.8; 0.2]]%float
                    eq_refl eq_refl eq_refl)
             0.1%float 0.9%float [0.3%float] [[0.8; 0.2]]%float eq_refl).
  - apply (proj2 (positive_class_entry_is_read (proba_model [[1]]%float)
                    default_record default_record (fun _ => Ok [[1]]%float)
                    [[1]]%float eq_refl eq_refl eq_refl)).
    simpl. lia.
Defined.

(** X10. When the fallback itself fails (the model has no [predict]
    either, or [predict] raises, or returns nothing) with an instance of
    [Exception], the handler reports that second exception, not the
    AttributeError that led to the fallback, and renders no result. *)
Theorem fallback_failure_reported (model : Model) (inputs : dict Z)
    (X : DataFrame) (calls calls' : list event) (e e' : exn)
    (HX : select_columns inputs (keys VARIABLE_CONFIG) = Ok X)
    (Hproba : proba_path model X = (calls, Raised e))
    (Hattr : is_AttributeError e = true)
    (Hpredict : predict_path model X = (calls', Raised e'))
    (Hcaught : Exception e' = true) :
  predict_handler model inputs =
    ((Render Main (spinner "Calculating risk...") :: (calls ++ calls')
        ++ prediction_failed e')%list, Done tt) /\
  rendered (trace (predict_handler model inputs)) =
    spinner "Calculating risk..." :: rendered (prediction_failed e').
Proof.
  assert (Hinf : infer model X = ((calls ++ calls')%list, Raised e')).
  { rewrite (infer_on_exception _ _ _ _ Hproba), Hattr.
    unfold trace. now rewrite Hpredict. }
  pose proof (predict_handler_failure _ _ _ _ _ HX Hinf Hcaught) as Hrun.
  split; [exact Hrun |].
  rewrite Hrun. unfold trace. cbn [fst].
  change (?a :: ?l) with ([a] ++ l)%list at 1.
  rewrite !rendered_app.
  destruct (infer_only_calls model X) as (_ & Hr & _). rewrite Hinf in Hr.
  unfold trace in Hr. cbn [fst] in Hr. rewrite rendered_app in Hr.
  now rewrite Hr.
Qed.

Lemma fallback_failure_reported_witness :
  predict_handler inert_model default_record =
    ((Render Main (spinner "Calculating risk...")
        :: prediction_failed
             (Exn AttributeError
                "'Inert' object has no attribute 'predict'"))%list,
     Done tt).
Proof.
  apply (fallback_failure_reported inert_model default_record default_record
           [] []
           (Exn AttributeError
              "'Inert' object has no attribute 'predict_proba'")
           (Exn AttributeError "'Inert' object has no attribute 'predict'"));
    reflexivity.
Defined.

(** X11. In any run of the handler the model is called at most twice:
    [predict_proba] at most once, [predict] at most once and only after
    it, on the same frame; and [predict] is called only when line 134
    raised AttributeError. *)
Theorem model_call_discipline (model : Model) (inputs : dict Z) :
  (calls_of (trace (predict_handler model inputs)) = [] \/
   exists X,
     select_columns inputs (keys VARIABLE_CONFIG) = Ok X /\
     (calls_of (trace (predict_handler model inputs)) = [Call_predict_proba X]
      \/ calls_of (trace (predict_handler model inputs)) = [Call_predict X]
      \/ calls_of (trace (predict_handler model inputs))
         = [Call_predict_proba X; Call_predict X])) /\
  forall X,
    In (Call_predict X) (trace (predict_handler model inputs)) ->
    exists calls e,
      proba_path model X = (calls, Raised e) /\ is_AttributeError e = true.
Proof.
  destruct (predict_handler_calls model inputs) as [_ Hcalls].
  destruct (select_columns inputs (keys VARIABLE_CONFIG)) as [X | e] eqn:HX.
  - assert (Hshape :
      (trace (infer model X) = [] \/
       trace (infer model X) = [Call_predict_proba X] \/
       trace (infer model X) = [Call_predict X] \/
       trace (infer model X) = [Call_predict_proba X; Call_predict X]) /\
      (In (Call_predict X) (trace (infer model X)) ->
       exists calls e,
         proba_path model X = (calls, Raised e) /\ is_AttributeError e = true)).
    { unfold infer, predict_path, trace.
      destruct (proba_path model X) as [calls [v | e |]] eqn:Hp.
      - assert (Hc : calls = [Call_predict_proba X]).
        { revert Hp. unfold proba_path. script_unfold.
          repeat step_script; now intros [= <- ?]. }
        subst calls. simpl. split; [tauto |].
        intros [H | []]. discriminate.
      - assert (Hc : calls = [] \/ calls = [Call_predict_proba X]).
        { revert Hp. unfold proba_path. script_unfold.
          repeat step_script; intros [= <- ?]; tauto. }
        unfold try_except. destruct (is_AttributeError e) eqn:Hattr.
        + split; [| intros _; eauto].
          script_unfold.
          destruct Hc as [-> | ->]; simpl; repeat step_script; tauto.
        + split; [destruct Hc as [-> | ->]; simpl; tauto |].
          cbn [fst]. destruct Hc as [-> | ->]; simpl;
            intuition discriminate.
      - exfalso. revert Hp. unfold proba_path. script_unfold.
        repeat step_script; discriminate. }
    destruct Hshape as [Hshape Hpredict]. split.
    + rewrite Hcalls.
      destruct Hshape as [-> | [-> | [-> | ->]]]; [now left | right ..];
        exists X; (split; [reflexivity | tauto]).
    + intros X' Hin.
      assert (Hin' : In (Call_predict X')
                        (calls_of (trace (predict_handler model inputs)))).
      { apply filter_In. split; [exact Hin | reflexivity]. }
      rewrite Hcalls in Hin'.
      assert (X' = X).
      { destruct (infer_calls model X) as (_ & _ & Hall).
        rewrite Forall_forall in Hall.
        destruct (Hall _ Hin') as [H | H]; congruence. }
      subst X'. now apply Hpredict.
  - split; [left; exact Hcalls |].
    intros X' Hin.
    assert (Hin' : In (Call_predict X')
                      (calls_of (trace (predict_handler model inputs)))).
    { apply filter_In. split; [exact Hin | reflexivity]. }
    rewrite Hcalls in Hin'. destruct Hin'.
Qed.

(** ** What is rendered *)

(** The only HTML the handler renders is the label heading of line 146. *)
Lemma predict_handler_html (model : Model) (inputs : dict Z) (body : string) :
  In (markdown body true) (rendered (trace (predict_handler model inputs))) ->
  body = "<h2 style='text-align: center; color: #FF4B4B;'>High Risk</h2>" \/
  body = "<h2 style='text-align: center; color: #00CC96;'>Low Risk</h2>".
Proof.
  assert (Hshown : forall v shown o,
            show_result v = (shown, o) ->
            In (markdown body true) (rendered shown) ->
            body = "<h2 style='text-align: center; color: #FF4B4B;'>High Risk</h2>"
            \/ body = "<h2 style='text-align: center; color: #00CC96;'>Low Risk</h2>").
  { intros v shown o Hshow Hin.
    destruct (show_result_cases v)
      as [(e & _ & H) | [(h & e & _ & _ & H) | (h & p & _ & _ & H)]];
      rewrite H in Hshow; injection Hshow as <- <-.
    - destruct Hin.
    - destruct h; simpl in Hin; intuition congruence.
    - destruct h; simpl in Hin; intuition congruence. }
  assert (Himp : ~ In (markdown body true)
                   (rendered (trace (importance_report model
                                       (keys VARIABLE_CONFIG))))).
  { report_cases model (keys VARIABLE_CONFIG); simpl; intuition discriminate. }
  assert (Hfail : forall e, ~ In (markdown body true)
                              (rendered (prediction_failed e))).
  { intros e. simpl. intuition discriminate. }
  destruct (predict_handler_cases model inputs)
    as [(e & HX & ->)
       | [(X & calls & e & HX & Hinf & He & ->)
         | [(X & calls & e & HX & Hinf & He & ->)
           | [(X & calls & v & shown & e & HX & Hinf & Hshow & ->)
             | (X & calls & v & shown & HX & Hinf & Hshow & ->)]]]];
    unfold trace at 1; cbn [fst]; [intros Hin; now elim (Hfail e) | | | |];
    change (?a :: ?l) with ([a] ++ l)%list; rewrite !rendered_app;
    destruct (infer_only_calls model X) as (_ & Hr & _);
    rewrite Hinf in Hr; unfold trace in Hr; cbn [fst] in Hr; rewrite Hr;
    intros Hin;
    repeat match goal with
           | H : In _ (_ ++ _) |- _ => apply in_app_or in H; destruct H
           end;
    try (simpl in *; intuition discriminate);
    try (now elim (Hfail e)); try (now elim Himp);
    eapply Hshown; eassumption.
Qed.

(** X12. HTML is rendered unescaped ([unsafe_allow_html=True]) for one
    element only, and its text is one of two constants: the red "High Risk"
    heading or the green "Low Risk" heading.  No text that comes from the
    model, the widgets or an exception is ever rendered as HTML, and the
    colour never disagrees with the label. *)
Theorem only_fixed_html_is_rendered (env : Env) (body : string)
    (Hin : In (markdown body true) (rendered (trace (app env)))) :
  body = "<h2 style='text-align: center; color: #FF4B4B;'>High Risk</h2>" \/
  body = "<h2 style='text-align: center; color: #00CC96;'>Low Risk</h2>".
Proof.
  assert (Hclick : forall model,
            In (markdown body true) (rendered (trace (on_click env model))) ->
            body = "<h2 style='text-align: center; color: #FF4B4B;'>High Risk</h2>"
            \/ body = "<h2 style='text-align: center; color: #00CC96;'>Low Risk</h2>").
  { intros model. unfold on_click.
    destruct (button_clicked env); [| intros []].
    apply (predict_handler_html model (form_record (widget_state env))). }
  destruct (joblib_import env) as [[] | e'] eqn:Himp;
    [destruct (joblib_load env) as [model | e] eqn:Hload |].
  - rewrite (app_run env model Himp Hload) in Hin.
    destruct (snd (on_click env model)) as [[] | e |];
      unfold trace at 1 in Hin; cbn [fst] in Hin;
      rewrite !rendered_app in Hin;
      (apply in_app_or in Hin; destruct Hin as [Hin | Hin];
       [simpl in Hin; intuition discriminate |]);
      try (apply in_app_or in Hin; destruct Hin as [Hin | Hin];
           [| simpl in Hin; intuition discriminate]);
      now apply (Hclick model).
  - exfalso. revert Hin. destruct (Exception e) eqn:He.
    + rewrite (app_load_failure env e Himp Hload He).
      simpl. intuition discriminate.
    + rewrite (app_load_escape env e Himp Hload He).
      simpl. intuition discriminate.
  - exfalso. revert Hin. destruct (is_ImportError e') eqn:He.
    + rewrite (app_import_failure env e' Himp He).
      simpl. intuition discriminate.
    + rewrite (app_import_escape env e' Himp He).
      simpl. intuition discriminate.
Qed.

Lemma only_fixed_html_is_rendered_witness :
  In (markdown "<h2 style='text-align: center; color: #FF4B4B;'>High Risk</h2>"
        true)
     (rendered (trace (app (env_of (stub_model 0.73) true)))) /\
  ("<h2 style='text-align: center; color: #FF4B4B;'>High Risk</h2>"
   = "<h2 style='text-align: center; color: #FF4B4B;'>High Risk</h2>" \/
   "<h2 style='text-align: center; color: #FF4B4B;'>High Risk</h2>"
   = "<h2 style='text-align: center; color: #00CC96;'>Low Risk</h2>").
Proof.
  assert (H : In (markdown
                    "<h2 style='text-align: center; color: #FF4B4B;'>High Risk</h2>"
                    true)
                 (rendered (trace (app (env_of (stub_model 0.73) true)))))
    by (vm_compute; tauto).
  split; [exact H |].
  exact (only_fixed_html_is_rendered (env_of (stub_model 0.73) true) _ H).
Defined.

(** X13. A NaN in place of the probability is not rejected: the
    comparison of line 140 is false for it, so the result panel shows the
    green "Low Risk" heading and the text "nan%", and nothing raises. *)
Theorem nan_is_shown_as_low_risk (x : float) (Hnan : is_nan x = true) :
  show_result (PyFloat x) =
    ([ Render Main (markdown "---" false);
       Render Main (subheader "Prediction Results");
       Render Main
         (markdown "<h2 style='text-align: center; color: #00CC96;'>Low Risk</h2>"
            true);
       Render Main (write "### Reoperation Probability: nan%") ],
     Done tt).
Proof.
  apply FloatOrder.is_nan_Prim2SF in Hnan.
  assert (Hlt : (0.5 <? x)%float = false).
  { rewrite FloatAxioms.ltb_spec, Hnan. reflexivity. }
  assert (Hfmt : format_float_pct1 x = "nan%").
  { unfold format_float_pct1. rewrite FloatAxioms.mul_spec, Hnan. reflexivity. }
  unfold show_result, risk_level, color, format_pct1, gt_half.
  rewrite Hlt, Hfmt. reflexivity.
Qed.

Lemma nan_is_shown_as_low_risk_witness :
  is_nan nan = true /\
  snd (show_result (PyFloat nan)) = Done tt.
Proof.
  split; [reflexivity |].
  rewrite (nan_is_shown_as_low_risk nan eq_refl). reflexivity.
Defined.

(** X14. When the fallback yields a string label, the comparison of line
    140 raises TypeError before anything of the result is rendered: the
    handler shows the spinner and the two prediction-failure messages. *)
Theorem string_label_is_a_failure (model : Model) (inputs : dict Z)
    (X : DataFrame) (calls : list event) (s : string)
    (HX : select_columns inputs (keys VARIABLE_CONFIG) = Ok X)
    (Hinf : infer model X = (calls, Done (PyStr s))) :
  exists e,
    exn_cls e = TypeError /\
    predict_handler model inputs =
      ((Render Main (spinner "Calculating risk...") :: calls
          ++ prediction_failed e)%list, Done tt).
Proof.
  eexists. split; [| apply (predict_handler_display_failure _ _ _ _ []
                              _ _ HX Hinf); reflexivity].
  reflexivity.
Qed.

Lemma string_label_is_a_failure_witness :
  infer string_label_model default_record
  = ([Call_predict default_record], Done (PyStr "reoperation")) /\
  exists e,
    exn_cls e = TypeError /\
    predict_handler string_label_model default_record =
      ((Render Main (spinner "Calculating risk...")
          :: [Call_predict default_record] ++ prediction_failed e)%list,
       Done tt).
Proof.
  split; [reflexivity |].
  apply (string_label_is_a_failure string_label_model default_record
           default_record [Call_predict default_record] "reoperation");
    reflexivity.
Defined.

(** ** The importance table *)






(** X16. After a successful prediction, a model whose importance vector
    does not have one weight per schema parameter gets no chart: building
    the table raises ValueError, and the reporter renders the warning that
    quotes it and the information note, after the result panel. *)
Theorem wrong_length_importance_is_a_warning (model : Model)
    (inputs : dict Z) (X : DataFrame) (calls shown : list event) (v : pyval)
    (importance : list float)
    (HX : select_columns inputs (keys VARIABLE_CONFIG) = Ok X)
    (Hinf : infer model X = (calls, Done v))
    (Hshow : show_result v = (shown, Done tt))
    (Hget : get_importance model = Ok importance)
    (Hlen : length importance <> 11) :
  predict_handler model inputs =
    ((Render Main (spinner "Calculating risk...") :: calls ++ shown
        ++ [ Render Main (markdown "---" false);
             Render Main (subheader "Key Risk Factors");
             Render Main
               (warning "⚠️ Feature importance not available: All arrays must be of the same length");
             Render Main
               (info "The model does not provide feature importance data") ])%list,
     Done tt).
Proof.
  assert (Hdf : importance_df model (keys VARIABLE_CONFIG)
                = Err (Exn ValueError "All arrays must be of the same length")).
  { unfold importance_df, importance_frame. rewrite Hget. cbn [rbind].
    destruct (Nat.eqb_spec (length (keys VARIABLE_CONFIG)) (length importance))
      as [Heq | _]; [| reflexivity].
    elim Hlen. now rewrite <- Heq. }
  rewrite (predict_handler_success _ _ _ _ _ _ HX Hinf Hshow).
  now rewrite (importance_report_Err _ _ _ Hdf eq_refl).
Qed.

Lemma wrong_length_importance_is_a_warning_witness :
  get_importance (proba_model [[0.25; 0.75]]%float) = Ok [0.5; 0.5]%float /\
  rendered (trace (predict_handler (proba_model [[0.25; 0.75]]%float)
                     default_record)) =
    [ spinner "Calculating risk...";
      markdown "---" false;
      subheader "Prediction Results";
      markdown "<h2 style='text-align: center; color: #FF4B4B;'>High Risk</h2>"
        true;
      write "### Reoperation Probability: 75.0%";
      markdown "---" false;
      subheader "Key Risk Factors";
      warning "⚠️ Feature importance not available: All arrays must be of the same length";
      info "The model does not provide feature importance data" ].
Proof.
  split; [reflexivity |].
  rewrite (wrong_length_importance_is_a_warning
             (proba_model [[0.25; 0.75]]%float) default_record default_record
             [Call_predict_proba default_record]
             (trace (show_result (PyFloat 0.75))) (PyFloat 0.75)
             [0.5; 0.5]%float eq_refl eq_refl eq_refl eq_refl).
  - reflexivity.
  - simpl. lia.
Defined.

(** ** The percentage of a probability *)

Module PercentBound.

Local Open Scope Z_scope.

Lemma shr_1_half mrs : 0 <= shr_m mrs -> 0 <= shr_m (shr_1 mrs) /\ 2 * shr_m (shr_1 mrs) <= shr_m mrs.
Proof.
  destruct mrs as [m r s]. simpl. destruct m as [| [p | p |] | p]; simpl; lia.
Qed.

Lemma iter_shr_1_scaled n mrs :
  0 <= shr_m mrs ->
  0 <= shr_m (SpecFloat.iter_pos shr_1 n mrs) /\
  shr_m (SpecFloat.iter_pos shr_1 n mrs) * 2 ^ Z.pos n <= shr_m mrs.
Proof.
  revert mrs. induction n as [n IH | n IH |]; intros mrs H; simpl SpecFloat.iter_pos.
  - destruct (shr_1_half mrs H) as [H0 H1].
    destruct (IH (shr_1 mrs) H0) as [H2 H3].
    destruct (IH _ H2) as [H4 H5].
    split; [exact H4 |].
    replace (Z.pos n~1) with (Z.pos n + Z.pos n + 1) by lia.
    rewrite !Z.pow_add_r by lia. 
    assert (0 < 2 ^ Z.pos n) by (apply Z.pow_pos_nonneg; lia). nia.
  - destruct (IH mrs H) as [H2 H3].
    destruct (IH _ H2) as [H4 H5].
    split; [exact H4 |].
    replace (Z.pos n~0) with (Z.pos n + Z.pos n) by lia.
    rewrite !Z.pow_add_r by lia.
    assert (0 < 2 ^ Z.pos n) by (apply Z.pow_pos_nonneg; lia). nia.
  - destruct (shr_1_half mrs H). split; [lia |]. change (2 ^ 1) with 2. lia.
Qed.

(** One rounding step: the mantissa after the shift, rounded to nearest. *)
Lemma shr_fexp_round m e K :
  0 < m -> e <= 0 -> 0 <= K ->
  m < K * 2 ^ (- e) ->
  forall mrs e', shr_fexp prec emax m e loc_Exact = (mrs, e') ->
  e' <= 0 ->
  e <= e' /\
  0 <= round_nearest_even (shr_m mrs) (loc_of_shr_record mrs) <= K * 2 ^ (- e').
Proof.
  intros Hm He HK Hlt mrs e' Hs He'.
  unfold shr_fexp, shr in Hs. simpl shr_record_of_loc in Hs.
  destruct (fexp prec emax (Zdigits2 m + e) - e) as [| n | n] eqn:En.
  - injection Hs as <- <-. simpl. lia.
  - injection Hs as <- <-.
    destruct (iter_shr_1_scaled n {| shr_m := m; shr_r := false; shr_s := false |}) as [H0 H1]; [simpl; lia |].
    simpl shr_m in H1.
    set (m0 := shr_m (SpecFloat.iter_pos shr_1 n {| shr_m := m; shr_r := false; shr_s := false |})) in *.
    split; [lia |].
    assert (Hr : m0 <= round_nearest_even m0 (loc_of_shr_record (SpecFloat.iter_pos shr_1 n {| shr_m := m; shr_r := false; shr_s := false |})) <= m0 + 1).
    { unfold round_nearest_even. destruct (loc_of_shr_record _) as [| []]; try lia.
      destruct (IntDef.Z.even m0); lia. }
    split; [lia |].
    assert (Hpow : 2 ^ (- e) = 2 ^ (- (e + Z.pos n)) * 2 ^ Z.pos n).
    { rewrite <- Z.pow_add_r by lia. f_equal. lia. }
    rewrite Hpow in Hlt.
    assert (0 < 2 ^ Z.pos n) by (apply Z.pow_pos_nonneg; lia).
    assert (0 < 2 ^ (- (e + Z.pos n))) by (apply Z.pow_pos_nonneg; lia).
    assert (m0 < K * 2 ^ (- (e + Z.pos n))) by nia.
    lia.
  - injection Hs as <- <-. simpl. lia.
Qed.

(** The second shift only loses bits. *)
Lemma shr_fexp_floor m e K :
  0 <= m -> 0 <= K ->
  m <= K * 2 ^ (- e) ->
  forall mrs e', shr_fexp prec emax m e loc_Exact = (mrs, e') ->
  e' <= 0 ->
  0 <= shr_m mrs <= K * 2 ^ (- e').
Proof.
  intros Hm HK Hle mrs e' Hs He'.
  unfold shr_fexp, shr in Hs. simpl shr_record_of_loc in Hs.
  destruct (fexp prec emax (Zdigits2 m + e) - e) as [| n | n] eqn:En.
  - injection Hs as <- <-. simpl. lia.
  - injection Hs as <- <-.
    destruct (iter_shr_1_scaled n {| shr_m := m; shr_r := false; shr_s := false |}) as [H0 H1]; [simpl; lia |].
    simpl shr_m in H1.
    set (m0 := shr_m (SpecFloat.iter_pos shr_1 n {| shr_m := m; shr_r := false; shr_s := false |})) in *.
    split; [lia |].
    assert (Hpow : 2 ^ (- e) = 2 ^ (- (e + Z.pos n)) * 2 ^ Z.pos n).
    { rewrite <- Z.pow_add_r by lia. f_equal. lia. }
    rewrite Hpow in Hle.
    assert (0 < 2 ^ Z.pos n) by (apply Z.pow_pos_nonneg; lia).
    assert (0 < 2 ^ (- (e + Z.pos n))) by (apply Z.pow_pos_nonneg; lia).
    nia.
  - injection Hs as <- <-. simpl. lia.
Qed.

(** Rounding a positive product that is below [K], for a small [K], gives
    zero or a positive number that is at most [K]. *)
Lemma round_at_most (s : bool) (M E K : Z) :
  0 < M < 2 ^ 106 -> E <= -98 -> 0 <= K < 2 ^ 7 ->
  M < K * 2 ^ (- E) ->
  match binary_round_aux prec emax s M E loc_Exact with
  | S754_zero _ => True
  | S754_finite s' m e => s' = s /\ e <= 0 /\ Z.pos m <= K * 2 ^ (- e)
  | _ => False
  end.
Proof.
  intros HM HE HK Hlt. unfold binary_round_aux.
  destruct (PercentRange.shr_fexp_bound M E loc_Exact ltac:(lia)) as [_ He1].
  destruct (shr_fexp prec emax M E loc_Exact) as [mrs' e'] eqn:H1.
  cbn [fst snd] in He1.
  assert (Hd : Zdigits2 M <= 106) by (apply PercentRange.Zdigits2_bound; lia).
  pose proof (PercentRange.Zdigits2_nonneg M) as Hd0.
  assert (He' : e' <= -45).
  { destruct He1 as [-> | ->]; [lia |].
    apply PercentRange.fexp_le; unfold emin, SpecFloat.emin, prec, emax; lia. }
  destruct (shr_fexp_round M E K ltac:(lia) ltac:(lia) ltac:(lia) Hlt
              mrs' e' H1 ltac:(lia)) as [_ Hm1].
  set (m1 := round_nearest_even (shr_m mrs') (loc_of_shr_record mrs')) in *.
  destruct (PercentRange.shr_fexp_bound m1 e' loc_Exact ltac:(lia)) as [_ He2].
  destruct (shr_fexp prec emax m1 e' loc_Exact) as [mrs'' e''] eqn:H2.
  cbn [fst snd] in He2.
  assert (Hpow : 0 < 2 ^ (- e')) by (apply Z.pow_pos_nonneg; lia).
  assert (Hd1 : Zdigits2 m1 <= 7 - e').
  { apply PercentRange.Zdigits2_bound; [| lia].
    split; [lia |]. replace (7 - e') with (7 + - e') by lia.
    rewrite Z.pow_add_r by lia.
    assert (H7 : 2 ^ 7 = 128) by reflexivity. nia. }
  pose proof (PercentRange.Zdigits2_nonneg m1) as Hd10.
  assert (He'' : e'' <= -45).
  { destruct He2 as [-> | ->]; [lia |].
    apply PercentRange.fexp_le; unfold emin, SpecFloat.emin, prec, emax; lia. }
  destruct (shr_fexp_floor m1 e' K ltac:(lia) ltac:(lia) ltac:(lia)
              mrs'' e'' H2 ltac:(lia)) as [Hm2 Hm2'].
  destruct (shr_m mrs'') as [| m | m]; [exact I | | lia].
  assert (Hfin : (e'' <=? emax - prec) = true)
    by (apply Z.leb_le; unfold emax, prec; lia).
  rewrite Hfin. repeat split; lia.
Qed.

Lemma div_half_even_at_most (n d K : Z) :
  0 <= n -> 0 < d -> n <= K * d -> 0 <= div_half_even n d <= K.
Proof.
  intros Hn Hd Hle. unfold div_half_even.
  pose proof (Z.div_mod n d ltac:(lia)) as Hdm.
  pose proof (Z.mod_pos_bound n d Hd) as Hr.
  assert (Hq : 0 <= n / d) by (apply Z.div_pos; lia).
  set (q := n / d) in *. set (r := n mod d) in *.
  assert (Hqk : q <= K) by nia.
  destruct (Z.compare_spec (2 * r) d) as [Heq | Hlt | Hgt].
  - destruct (Z.even q); [lia |]. split; [lia |].
    destruct (Z.eq_dec q K); [| lia]. subst q. nia.
  - lia.
  - split; [lia |]. destruct (Z.eq_dec q K); [| lia]. nia.
Qed.

Lemma tenths_at_most (m : positive) (e K : Z) :
  e <= 0 -> Z.pos m <= K * 2 ^ (- e) -> 0 <= tenths m e <= 10 * K.
Proof.
  intros He Hm. unfold tenths.
  destruct (Z.leb_spec 0 e) as [H0 | H0].
  - assert (e = 0) by lia. subst e. change (2 ^ (- 0)) with 1 in Hm.
    change (2 ^ 0) with 1. lia.
  - assert (Hd : 0 < 2 ^ (- e)) by (apply Z.pow_pos_nonneg; lia).
    apply div_half_even_at_most; [lia | exact Hd | nia].
Qed.

Lemma leb_finite_cases (m c : positive) (e ec : Z) :
  SFleb (S754_finite false m e) (S754_finite false c ec) = true ->
  e < ec \/ (e = ec /\ (m <= c)%positive).
Proof.
  unfold SFleb, SFcompare. intros H.
  destruct (Z.compare_spec e ec) as [He | He | He].
  - change (PosDef.Pos.compare_cont Eq m c) with (Pos.compare m c) in H.
    destruct (Pos.compare_spec m c) as [Hm | Hm | Hm].
    + right. split; lia.
    + right. split; lia.
    + discriminate.
  - now left.
  - discriminate.
Qed.

(** The percentage of a positive float below 1. *)
Lemma percentage_of_product (m : positive) (e : Z) :
  e <= -52 -> Z.pos m < 2 ^ (- e) -> Z.pos m < 2 ^ 53 ->
  exists neg t,
    match SF64mul (S754_finite false m e)
            (S754_finite false 7036874417766400 (-46)) with
    | S754_nan => "nan%"
    | S754_infinity neg => if neg then "-inf%" else "inf%"
    | S754_zero neg => fixed1 neg 0 ++ "%"
    | S754_finite neg m e => fixed1 neg (tenths m e) ++ "%"
    end%string = (fixed1 neg t ++ "%")%string /\
    0 <= t <= 1000 /\
    (neg = true -> t = 0).
Proof.
  intros He Hlt Hm53. unfold SF64mul, SFmul. cbn [xorb].
  assert (Hpos : 0 < 2 ^ (- e)) by (apply Z.pow_pos_nonneg; lia).
  assert (H53 : 2 ^ 53 = 9007199254740992) by reflexivity.
  assert (H106 : 2 ^ 106 = 9007199254740992 * 9007199254740992) by reflexivity.
  assert (H46 : 2 ^ (- (e + -46)) = 2 ^ (- e) * 70368744177664).
  { replace (- (e + -46)) with (- e + 46) by lia.
    rewrite Z.pow_add_r by lia. reflexivity. }
  pose proof (round_at_most false (Z.pos (m * 7036874417766400)) (e + -46) 100)
    as Hround.
  rewrite Pos2Z.inj_mul in Hround.
  specialize (Hround ltac:(nia) ltac:(lia) ltac:(split; [lia | reflexivity])
                     ltac:(rewrite H46; nia)).
  rewrite <- Pos2Z.inj_mul in Hround.
  destruct (binary_round_aux prec emax false
              (Z.pos (m * 7036874417766400)) (e + -46) loc_Exact)
    as [s | s | | s m' e']; try contradiction.
  - exists s, 0. repeat split; lia.
  - destruct Hround as (-> & He' & Hm').
    exists false, (tenths m' e'). split; [reflexivity |].
    split; [| discriminate].
    change 1000 with (10 * 100). now apply tenths_at_most.
Qed.

End PercentBound.

(** X17. A probability between 0 and 1 is never displayed outside
    "0.0%" to "100.0%": the text is a count of tenths between 0 and 1000
    printed with one decimal and a percent sign, with a minus sign only for
    the float negative zero. *)
Theorem probability_percentage_range (p : float)
    (Hp : probability p = true) :
  exists neg t,
    format_float_pct1 p = fixed1 neg t ++ "%" /\
    (0 <= t <= 1000)%Z /\
    (neg = true -> t = 0%Z).
Proof.
  unfold probability in Hp. apply andb_prop in Hp. destruct Hp as [H0 H1].
  rewrite FloatAxioms.leb_spec in H0, H1.
  pose proof (Prim2SF_valid p) as Hv.
  change (Prim2SF 0) with (S754_zero false) in H0.
  change (Prim2SF 1) with (S754_finite false 4503599627370496 (-52)) in H1.
  unfold format_float_pct1. rewrite FloatAxioms.mul_spec.
  change (Prim2SF 100) with (S754_finite false 7036874417766400 (-46)).
  destruct (Prim2SF p) as [s | s | | s m e]; try discriminate.
  - exists (xorb s false), 0%Z. repeat split; lia.
  - destruct s; discriminate.
  - destruct s; [discriminate |].
    pose proof (PercentRange.valid_mantissa _ _ _ Hv) as Hm53.
    apply PercentBound.leb_finite_cases in H1.
    destruct H1 as [He | [He Hm]].
    + apply (PercentBound.percentage_of_product m e); [lia | | exact Hm53].
      assert (Hpow : (2 ^ 53 <= 2 ^ (- e))%Z)
        by (apply Z.pow_le_mono_r; lia).
      lia.
    + destruct (Pos.eq_dec m 4503599627370496) as [-> | Hne].
      * subst e. exists false, 1000%Z.
        split; [vm_compute; reflexivity |]. split; [lia | discriminate].
      * assert (Hlt : (Z.pos m < 4503599627370496)%Z).
        { assert (Hz : Z.pos m <> 4503599627370496%Z) by congruence.
          assert (Hz' : (Z.pos m <= 4503599627370496)%Z) by exact Hm.
          clear - Hz Hz'. lia. }
        clear Hne Hm.
        apply (PercentBound.percentage_of_product m e).
        -- rewrite He. discriminate.
        -- rewrite He. exact Hlt.
        -- exact Hm53.
Qed.

Lemma probability_percentage_range_witness :
  probability 0.73 = true /\
  exists neg t,
    format_float_pct1 0.73 = fixed1 neg t ++ "%" /\
    (0 <= t <= 1000)%Z /\
    (neg = true -> t = 0%Z).
Proof.
  split; [reflexivity |].
  apply (probability_percentage_range 0.73). reflexivity.
Defined.

(** ** The projection on a frame that is already in order *)

Lemma dict_get_app_fresh {V : Type} (l1 l2 : dict V) (k : string) :
  ~ In k (keys l1) -> dict_get (l1 ++ l2)%list k = dict_get l2 k.
Proof.
  induction l1 as [| [k' v'] l1 IH]; simpl; intros H; [reflexivity |].
  destruct (String.eqb_spec k' k) as [-> | Hne].
  - elim H. now left.
  - apply IH. intros Hin. apply H. now right.
Qed.

Lemma select_suffix (df l1 l2 : DataFrame) :
  df = (l1 ++ l2)%list ->
  NoDup (columns df) ->
  filter (fun c => match dict_get df c with None => true | _ => false end)
         (columns l2) = [] /\
  flat_map (fun c => match dict_get df c with
                     | Some v => [(c, v)]
                     | None => []
                     end) (columns l2) = l2.
Proof.
  revert l1. induction l2 as [| [k v] l2 IH]; intros l1 Hdf Hnd.
  - split; reflexivity.
  - assert (Hk : dict_get df k = Some v).
    { rewrite Hdf, dict_get_app_fresh.
      - simpl. now rewrite String.eqb_refl.
      - rewrite Hdf in Hnd. unfold columns in Hnd. rewrite map_app in Hnd.
        simpl in Hnd. apply NoDup_remove_2 in Hnd.
        intros Hin. apply Hnd. apply in_or_app. now left. }
    destruct (IH (l1 ++ [(k, v)])%list) as [Hf Hm].
    + rewrite Hdf, <- app_assoc. reflexivity.
    + exact Hnd.
    + cbn [columns map fst filter flat_map]. rewrite Hk.
      unfold columns in Hf, Hm. split; [exact Hf |].
      cbn [app]. now rewrite Hm.
Qed.

(** X18. On a frame whose column names are distinct, selecting its own
    columns gives the frame back.  So re-projecting a projected frame
    changes nothing, and on the record the form builds, for any schema with
    distinct names, line 129 cannot raise and leaves the record as it is. *)
Theorem projection_in_order_is_identity (df : DataFrame)
    (Hnames : NoDup (columns df)) :
  select_columns df (columns df) = Ok df /\
  forall (held : string -> option Z) (items : list (string * var_config)),
    df = held_record held items ->
    select_columns (held_record held items) (keys items)
    = Ok (held_record held items).
Proof.
  assert (Hself : select_columns df (columns df) = Ok df).
  { unfold select_columns.
    destruct (select_suffix df [] df eq_refl Hnames) as [Hf Hm].
    now rewrite Hf, Hm. }
  split; [exact Hself |].
  intros held items Hdf. rewrite <- Hdf.
  replace (keys items) with (columns df); [exact Hself |].
  rewrite Hdf. unfold columns, keys, held_record. now rewrite map_map.
Qed.

Lemma projection_in_order_is_identity_witness :
  NoDup (columns default_record) /\
  select_columns default_record (columns default_record) = Ok default_record.
Proof.
  assert (H : NoDup (columns default_record)).
  { repeat constructor; simpl; intuition discriminate. }
  split; [exact H |].
  apply (projection_in_order_is_identity default_record H).
Defined.
